(** * PromptHub: the query layer (lib/queries.js) and its two API routes

    A shallow embedding of the search-and-filter query construction, the
    aggregation functions and the GET /api/prompts and GET /api/stats
    handlers, together with a reference semantics of the Data Store requests
    they issue (the [prompts] table of supabase_schema.sql). *)

From Stdlib Require Import List String Ascii ZArith NArith Bool Arith Lia.
From Stdlib Require Import Sorted Permutation.
From Stdlib Require Import DecimalString DecimalZ DecimalPos DecimalNat.
Import ListNotations.

Local Open Scope string_scope.
Local Open Scope list_scope.

(** ** JavaScript built-ins used by the sources

    Text.  A [string] holds a text in UTF-8, one [ascii] per byte, as a text
    travels in a URL and lies in the store.  JavaScript strings are
    sequences of UTF-16 code units; the operations the sources use on them
    ([trim], [split], [join], concatenation, comparison for equality,
    [parseInt], the default order of [sort]) are given here on the UTF-8
    form of the same text.  A JavaScript string with an unpaired surrogate
    has no UTF-8 form and is not covered.

    Numbers.  The sources compute with integers only; a number is an integer
    that a double holds, [NaN] or an infinity, and every result is rounded
    as a double is.  The two zeros are not told apart (they print, compare
    and add alike). *)

Module JS.

Definition bytes (l : list nat) : string := string_of_list_ascii (map ascii_of_nat l).

(** The characters [String.prototype.trim] and [parseInt] skip: the
    WhiteSpace and LineTerminator code points of ECMAScript. *)
Definition whiteSpace : list string :=
  map bytes
      [[9]; [10]; [11]; [12]; [13]; [32];            (* TAB LF VT FF CR SP *)
       [194; 160];                                   (* U+00A0 *)
       [225; 154; 128];                              (* U+1680 *)
       [226; 128; 128]; [226; 128; 129]; [226; 128; 130]; [226; 128; 131];
       [226; 128; 132]; [226; 128; 133]; [226; 128; 134]; [226; 128; 135];
       [226; 128; 136]; [226; 128; 137]; [226; 128; 138];    (* U+2000 to U+200A *)
       [226; 128; 168]; [226; 128; 169];             (* U+2028 U+2029 *)
       [226; 128; 175];                              (* U+202F *)
       [226; 129; 159];                              (* U+205F *)
       [227; 128; 128];                              (* U+3000 *)
       [239; 187; 191]].                             (* U+FEFF *)

(** [w] is one white space character. *)
Definition isWhiteSpace (w : string) : bool := existsb (String.eqb w) whiteSpace.

(** A white space character takes one, two or three bytes. *)
Fixpoint trimStart (s : string) : string :=
  match s with
  | EmptyString => s
  | String a s1 =>
      if isWhiteSpace (String a EmptyString) then trimStart s1
      else
        match s1 with
        | EmptyString => s
        | String b s2 =>
            if isWhiteSpace (String a (String b EmptyString)) then trimStart s2
            else
              match s2 with
              | EmptyString => s
              | String c s3 =>
                  if isWhiteSpace (String a (String b (String c EmptyString)))
                  then trimStart s3
                  else s
              end
        end
  end.

(** From the right: what is left of a string is dropped when it is one
    white space character. *)
Fixpoint trimEnd (s : string) : string :=
  match s with
  | EmptyString => EmptyString
  | String c s' =>
      let t := String c (trimEnd s') in
      if isWhiteSpace t then EmptyString else t
  end.

(** [s.trim()] *)
Definition trim (s : string) : string := trimEnd (trimStart s).

(** [s.split(sep)] for a one-character separator. *)
Fixpoint split (sep : ascii) (s : string) : list string :=
  match s with
  | EmptyString => [EmptyString]
  | String c s' =>
      if Ascii.eqb c sep then EmptyString :: split sep s'
      else match split sep s' with
           | [] => [String c EmptyString]
           | seg :: rest => String c seg :: rest
           end
  end.

(** A string is truthy when it is not empty ([Boolean(s)], [s && ...],
    [s || d]). *)
Definition truthy (s : string) : bool := negb (s =? "").

(** The order of UTF-16 code units, read off the UTF-8 bytes.  Byte order is
    code point order; a code point from U+10000 on (first byte 240 to 244)
    is a surrogate pair in UTF-16 and so comes before U+E000 to U+FFFF
    (first byte 238 or 239), which is the one place where the two orders
    differ. *)
Definition unitRank (c : ascii) : N :=
  let n := N_of_ascii c in
  if (n <? 238)%N then n else if (n <? 240)%N then (n + 16)%N else (n - 2)%N.

Fixpoint compare (a b : string) : comparison :=
  match a, b with
  | EmptyString, EmptyString => Eq
  | EmptyString, String _ _ => Lt
  | String _ _, EmptyString => Gt
  | String x a', String y b' =>
      match N.compare (unitRank x) (unitRank y) with
      | Eq => compare a' b'
      | c => c
      end
  end.

Definition leb (a b : string) : bool :=
  match compare a b with Gt => false | _ => true end.

Definition ltb (a b : string) : bool :=
  match compare a b with Lt => true | _ => false end.

(** Numbers: an integer, [NaN], [Infinity] or [-Infinity]. *)
Inductive number : Type :=
| NaN
| Int (z : Z)
| Infinity (negative : bool).

(** [Number.MAX_SAFE_INTEGER], 2^53 - 1: up to it in magnitude every integer
    is a double. *)
Definition MAX_SAFE_INTEGER : Z := 9007199254740991.

(** The double nearest to an integer, ties going to the even significand:
    beyond 2^53 the 53 leading bits are kept, and from 2^1024 on the result
    is an infinity. *)
Definition double (z : Z) : number :=
  let a := Z.abs z in
  if (a <=? MAX_SAFE_INTEGER)%Z then Int z
  else
    let e := (Z.log2 a - 52)%Z in
    let q := Z.shiftr a e in
    let r := (a - Z.shiftl q e)%Z in
    let half := Z.shiftl 1 (e - 1) in
    let q' := if ((half <? r) || ((r =? half) && Z.odd q))%Z then (q + 1)%Z else q in
    if (1023 <? Z.log2 (Z.shiftl q' e))%Z then Infinity (z <? 0)%Z
    else Int (Z.sgn z * Z.shiftl q' e)%Z.

(** [a + b] and [a - b] *)
Definition add (a b : number) : number :=
  match a, b with
  | Int x, Int y => double (x + y)
  | Infinity s, Int _ => Infinity s
  | Int _, Infinity s => Infinity s
  | Infinity s, Infinity t => if Bool.eqb s t then Infinity s else NaN
  | _, _ => NaN
  end.

Definition sub (a b : number) : number :=
  match a, b with
  | Int x, Int y => double (x - y)
  | Infinity s, Int _ => Infinity s
  | Int _, Infinity s => Infinity (negb s)
  | Infinity s, Infinity t => if Bool.eqb s t then NaN else Infinity s
  | _, _ => NaN
  end.

Definition digitOf (c : ascii) : option Z :=
  let n := nat_of_ascii c in
  if ((48 <=? n) && (n <=? 57))%nat then Some (Z.of_nat (n - 48)) else None.

Fixpoint readDigits (acc : option Z) (s : string) : option Z :=
  match s with
  | EmptyString => acc
  | String c s' =>
      match digitOf c with
      | Some d =>
          readDigits (Some (10 * (match acc with Some a => a | None => 0 end) + d)%Z) s'
      | None => acc
      end
  end.

(** [parseInt(s, 10)]: leading white space, an optional sign, then the
    longest run of decimal digits, whose value is rounded to a double;
    [NaN] when there is no digit. *)
Definition parseInt (s : string) : number :=
  let s1 := trimStart s in
  let '(sign, s2) :=
    match s1 with
    | String "-"%char r => ((-1)%Z, r)
    | String "+"%char r => (1%Z, r)
    | _ => (1%Z, s1)
    end in
  match readDigits None s2 with
  | None => NaN
  | Some n => double (sign * n)%Z
  end.

(** The digits [String(x)] and a template literal write for an integer: up
    to 2^53 - 1 in magnitude the integer itself; beyond, the integer with
    the fewest significant digits that still reads back as the same double
    (the nearest one when there are two). *)
Definition readsAs (x c : Z) : bool :=
  match double c with
  | Int y => (y =? x)%Z
  | _ => false
  end.

Definition shorter (x : Z) (k : nat) : option Z :=
  let p := (10 ^ Z.of_nat k)%Z in
  let c1 := (x / p * p)%Z in
  let c2 := (c1 + p)%Z in
  match readsAs x c1, readsAs x c2 with
  | true, true =>
      Some (if (x - c1 <? c2 - x)%Z then c1
            else if (c2 - x <? x - c1)%Z then c2
            else if Z.even (c1 / p) then c1 else c2)
  | true, false => Some c1
  | false, true => Some c2
  | false, false => None
  end.

Fixpoint shortest (x : Z) (k : nat) : Z :=
  match shorter x k with
  | Some c => c
  | None => match k with O => x | S k' => shortest x k' end
  end.

Definition written (z : Z) : Z :=
  if (Z.abs z <=? MAX_SAFE_INTEGER)%Z then z
  else (Z.sgn z * shortest (Z.abs z) (Z.to_nat (Z.log2 (Z.abs z))))%Z.

Section Collections.
Context {A : Type}.
Variable eqb : A -> A -> bool.

(** [new Set(xs)] spread back into an array: the first occurrence of
    every element, in insertion order. *)
Fixpoint setAdd (acc xs : list A) : list A :=
  match xs with
  | [] => acc
  | x :: xs' => setAdd (if existsb (eqb x) acc then acc else acc ++ [x]) xs'
  end.

Definition newSet (xs : list A) : list A := setAdd [] xs.

(** Stable insertion sort for a comparison [le]; [xs.sort()] and the
    store's ORDER BY are both instances. *)
Variable le : A -> A -> bool.

Fixpoint insertSorted (x : A) (l : list A) : list A :=
  match l with
  | [] => [x]
  | y :: l' => if le x y then x :: l else y :: insertSorted x l'
  end.

Fixpoint sortBy (xs : list A) : list A :=
  match xs with
  | [] => []
  | x :: xs' => insertSorted x (sortBy xs')
  end.
End Collections.

(** [xs.sort()] with the default comparator: ascending by the code units
    of [String(x)]. *)
Definition sort {A : Type} (toString : A -> string) (xs : list A) : list A :=
  sortBy (fun x y => leb (toString x) (toString y)) xs.

Definition option_beq {A : Type} (eqb : A -> A -> bool) (x y : option A) : bool :=
  match x, y with
  | Some a, Some b => eqb a b
  | None, None => true
  | _, _ => false
  end.

(** [String(v)] for a value that is a string or [null]. *)
Definition toString (v : option string) : string :=
  match v with
  | Some s => s
  | None => "null"
  end.

End JS.


(** ** Effects: console output and exceptions *)

(** A computation that writes lines to [console.error]: the value and the
    lines, each a message with the error it reports. *)
Definition Logged (A : Type) : Type := (A * list (string * string))%type.

Definition ret {A : Type} (a : A) : Logged A := (a, []).

Definition bind {A B : Type} (m : Logged A) (k : A -> Logged B) : Logged B :=
  let (a, l1) := m in
  let (b, l2) := k a in
  (b, l1 ++ l2).

Definition console_error (message detail : string) : Logged unit :=
  (tt, [(message, detail)]).

Definition value {A : Type} (m : Logged A) : A := fst m.
Definition logged {A : Type} (m : Logged A) : list (string * string) := snd m.

Notation "x <- m ;; k" := (bind m (fun x => k))
  (at level 61, m at next level, right associativity).
Notation "m ;;; k" := (bind m (fun _ => k))
  (at level 61, right associativity).

(** What awaiting a promise gives: its value, or the exception it rejected
    with. *)
Inductive outcome (A : Type) : Type :=
| Returned (a : A)
| Thrown (err : string).
Arguments Returned {A} a.
Arguments Thrown {A} err.

(** ** Data model *)

(** A stored record of table [prompts] (supabase_schema.sql): [id] is the
    serial primary key, every other column is nullable. *)
Module Row.
Record t : Type := mk {
  id : Z;
  title : option string;
  content : option string;
  category : option string;
  tags : option (list string);
  created_at : option Z
}.
End Row.

(** A Prompt as the client hands it to the code: a JSON object holding the
    selected columns; [None] is a property that is null or not selected. *)
Module Prompt.
Record t : Type := mk {
  id : option Z;
  title : option string;
  content : option string;
  category : option string;
  tags : option (list string);
  created_at : option Z
}.
End Prompt.

(** ** The Data Store client (lib/db.js, @supabase/supabase-js) *)

Inductive scalar : Type :=
| SText (s : string)
| SInt (z : Z).

Inductive filter : Type :=
| FilterOr (filters : string)                        (* .or(filters) *)
| FilterEq (column : string) (v : scalar)            (* .eq(column, v) *)
| FilterContains (column : string) (literal : string) (* .contains(column, [...]) *)
| FilterNotIsNull (column : string).                 (* .not(column, 'is', null) *)

(** The state of a query builder: what one round trip will ask for. *)
Record request : Type := mkRequest {
  r_from : string;
  r_select : string;
  r_order : option (string * bool);
  r_filters : list filter;
  r_range : option (JS.number * JS.number)
}.

(** The chained calls of the query builder; filters accumulate in call
    order. *)
Module Builder.
Definition from (table : string) : request :=
  mkRequest table "*" None [] None.

Definition select (columns : string) (q : request) : request :=
  mkRequest (r_from q) columns (r_order q) (r_filters q) (r_range q).

Definition order (column : string) (ascending : bool) (q : request) : request :=
  mkRequest (r_from q) (r_select q) (Some (column, ascending)) (r_filters q) (r_range q).

Definition addFilter (f : filter) (q : request) : request :=
  mkRequest (r_from q) (r_select q) (r_order q) (r_filters q ++ [f]) (r_range q).

Definition or (expr : string) : request -> request := addFilter (FilterOr expr).
Definition eq (column : string) (v : scalar) : request -> request :=
  addFilter (FilterEq column v).
(** [.contains(column, values)] with an array: the client sends the values
    joined by commas between braces, each as it is. *)
Definition arrayLiteral (vs : list string) : string :=
  "{" ++ String.concat "," vs ++ "}".

Definition contains (column : string) (vs : list string) : request -> request :=
  addFilter (FilterContains column (arrayLiteral vs)).
Definition not_is_null (column : string) : request -> request :=
  addFilter (FilterNotIsNull column).

Definition range (lo hi : JS.number) (q : request) : request :=
  mkRequest (r_from q) (r_select q) (r_order q) (r_filters q) (Some (lo, hi)).
End Builder.

Record PostgrestError : Type := mkError {
  code : string;
  message : string
}.

(** The object a round trip resolves to: [{ data, error, count }]. *)
Record response (D : Type) : Type := mkResponse {
  data : option D;
  error : option PostgrestError;
  count : option nat
}.
Arguments mkResponse {D} data error count.
Arguments data {D} r.
Arguments error {D} r.
Arguments count {D} r.

(** The three ways the code awaits a built query: as rows, as one object
    ([.single()]) and as a count ([{ count: 'exact', head: true }]). *)
Record Client : Type := mkClient {
  awaitRows : request -> outcome (response (list Prompt.t));
  awaitSingle : request -> outcome (response Prompt.t);
  awaitCount : request -> outcome (response (list Prompt.t))
}.

(** ** lib/queries.js *)

Module SearchParams.
(** The argument object of [searchPrompts]; [None] is a property left
    undefined (or, for [query], [category] and [tags], null). *)
Record t : Type := mk {
  query : option string;
  category : option string;
  tags : option (list string);
  limit : option JS.number;
  offset : option JS.number
}.

(** [searchPrompts()] and [searchPrompts({})]. *)
Definition empty : t := mk None None None None None.
End SearchParams.

Definition orDefault {A : Type} (d : A) (o : option A) : A :=
  match o with
  | Some a => a
  | None => d
  end.

Module Queries.
Section Queries.
Variable supabase : Client.

(** The filter string handed to [.or(...)]. *)
Definition textFilter (q : string) : string :=
  "content.fts." ++ q ++ ",title.ilike.%" ++ q ++ "%".

(** The query [searchPrompts] builds before awaiting it. *)
Definition searchQuery (params : SearchParams.t) : request :=
  let query := orDefault "" (SearchParams.query params) in
  let category := SearchParams.category params in
  let tags := orDefault [] (SearchParams.tags params) in
  let limit := orDefault (JS.Int 50) (SearchParams.limit params) in
  let offset := orDefault (JS.Int 0) (SearchParams.offset params) in
  let dbQuery :=
    Builder.order "created_at" false (Builder.select "*" (Builder.from "prompts")) in
  let dbQuery :=
    if JS.truthy query && negb (JS.trim query =? "")
    then Builder.or (textFilter (JS.trim query)) dbQuery
    else dbQuery in
  let dbQuery :=
    match category with
    | Some c =>
        if JS.truthy c && negb (JS.trim c =? "")
        then Builder.eq "category" (SText (JS.trim c)) dbQuery
        else dbQuery
    | None => dbQuery
    end in
  let dbQuery :=
    if (0 <? List.length tags)%nat
    then Builder.contains "tags" tags dbQuery
    else dbQuery in
  Builder.range offset (JS.sub (JS.add offset limit) (JS.Int 1)) dbQuery.

(** The queries of the other four functions. *)
Definition byIdQuery (id : Z) : request :=
  Builder.eq "id" (SInt id) (Builder.select "*" (Builder.from "prompts")).

Definition categoriesQuery : request :=
  Builder.not_is_null "category" (Builder.select "category" (Builder.from "prompts")).

Definition tagsQuery : request :=
  Builder.not_is_null "tags" (Builder.select "tags" (Builder.from "prompts")).

Definition countQuery : request :=
  Builder.select "*" (Builder.from "prompts").

Definition searchPrompts (params : SearchParams.t) : Logged (list Prompt.t) :=
  match awaitRows supabase (searchQuery params) with
  | Returned r =>
      match error r with
      | Some e => console_error "Error searching prompts:" (message e) ;;; ret []
      | None => ret (orDefault [] (data r))
      end
  | Thrown err => console_error "Unexpected error in searchPrompts:" err ;;; ret []
  end.

Definition getPromptById (id : Z) : Logged (option Prompt.t) :=
  match awaitSingle supabase (byIdQuery id) with
  | Returned r =>
      match error r with
      | Some e => console_error "Error fetching prompt:" (message e) ;;; ret None
      | None => ret (data r)
      end
  | Thrown err => console_error "Unexpected error in getPromptById:" err ;;; ret None
  end.

Definition getCategories : Logged (list (option string)) :=
  match awaitRows supabase categoriesQuery with
  | Returned r =>
      match error r with
      | Some e => console_error "Error fetching categories:" (message e) ;;; ret []
      | None =>
          match data r with
          | Some d =>
              let uniqueCategories :=
                JS.newSet (JS.option_beq String.eqb) (map Prompt.category d) in
              ret (JS.sort JS.toString uniqueCategories)
          | None =>
              (* data.map on null throws inside the try block *)
              console_error "Unexpected error in getCategories:" "TypeError" ;;; ret []
          end
      end
  | Thrown err => console_error "Unexpected error in getCategories:" err ;;; ret []
  end.

Definition getTags : Logged (list string) :=
  match awaitRows supabase tagsQuery with
  | Returned r =>
      match error r with
      | Some e => console_error "Error fetching tags:" (message e) ;;; ret []
      | None =>
          match data r with
          | Some d =>
              let allTags := flat_map (fun item => orDefault [] (Prompt.tags item)) d in
              let uniqueTags := JS.newSet String.eqb allTags in
              ret (JS.sort (fun s => s) uniqueTags)
          | None =>
              console_error "Unexpected error in getTags:" "TypeError" ;;; ret []
          end
      end
  | Thrown err => console_error "Unexpected error in getTags:" err ;;; ret []
  end.

Definition getPromptCount : Logged nat :=
  match awaitCount supabase countQuery with
  | Returned r =>
      match error r with
      | Some e => console_error "Error getting prompt count:" (message e) ;;; ret 0%nat
      | None => ret (orDefault 0%nat (count r))
      end
  | Thrown err => console_error "Unexpected error in getPromptCount:" err ;;; ret 0%nat
  end.
End Queries.
End Queries.

(** ** app/api/prompts/route.js *)

Module PromptsRoute.

(** The parsed parameters echoed in the response. *)
Record echo : Type := mkEcho {
  query : string;
  category : option string;
  tags : list string;
  limit : JS.number;
  offset : JS.number
}.

Inductive body : Type :=
| Success (prompts : list Prompt.t) (count : nat) (query : echo)
| Failure (error : string) (prompts : list Prompt.t).

Record NextResponse : Type := json {
  payload : body;
  status : nat
}.

(** [searchParams.get(name)]: the first value of the name, or null. *)
Fixpoint get (name : string) (searchParams : list (string * string)) : option string :=
  match searchParams with
  | [] => None
  | (k, v) :: rest => if k =? name then Some v else get name rest
  end.

(** [v || d] for a string-or-null [v]. *)
Definition orElse (v : option string) (d : string) : string :=
  match v with
  | Some s => if JS.truthy s then s else d
  | None => d
  end.

(** [v || null] *)
Definition orNull (v : option string) : option string :=
  match v with
  | Some s => if JS.truthy s then Some s else None
  | None => None
  end.

(** [tagsParam ? tagsParam.split(',').map(tag => tag.trim()).filter(Boolean) : []] *)
Definition parseTags (tagsParam : option string) : list string :=
  match orNull tagsParam with
  | Some t => List.filter JS.truthy (map JS.trim (JS.split "," t))
  | None => []
  end.

Definition parseQuery (searchParams : list (string * string)) : echo :=
  mkEcho (orElse (get "query" searchParams) "")
         (orNull (get "category" searchParams))
         (parseTags (get "tags" searchParams))
         (JS.parseInt (orElse (get "limit" searchParams) "50"))
         (JS.parseInt (orElse (get "offset" searchParams) "0")).

Definition toParams (e : echo) : SearchParams.t :=
  SearchParams.mk (Some (query e)) (category e) (Some (tags e))
                  (Some (limit e)) (Some (offset e)).

Section Route.
(** [new URL(url).searchParams], which throws on a malformed URL, and
    the imported [searchPrompts]. *)
Variable URL : string -> outcome (list (string * string)).
Variable searchPrompts : SearchParams.t -> outcome (Logged (list Prompt.t)).

Definition failed (err : string) : Logged NextResponse :=
  console_error "Error in /api/prompts:" err ;;;
  ret (json (Failure "Failed to fetch prompts" []) 500).

Definition GET (url : string) : Logged NextResponse :=
  match URL url with
  | Thrown err => failed err
  | Returned searchParams =>
      let parsed := parseQuery searchParams in
      match searchPrompts (toParams parsed) with
      | Thrown err => failed err
      | Returned found =>
          prompts <- found ;;
          ret (json (Success prompts (List.length prompts) parsed) 200)
      end
  end.
End Route.

End PromptsRoute.

(** ** app/api/stats/route.js *)

Module StatsRoute.

Inductive body : Type :=
| Stats (total categories tags : nat)
        (categoriesList : list (option string)) (tagsList : list string)
| Failure (error : string) (total categories tags : nat).

Record NextResponse : Type := json {
  payload : body;
  status : nat
}.

(** A started promise settles: its console lines are written either way. *)
Definition settle {A : Type} (p : outcome (Logged A)) : Logged (outcome A) :=
  match p with
  | Returned m => a <- m ;; ret (Returned a)
  | Thrown err => ret (Thrown err)
  end.

Section Route.
(** The three imported operations, each a promise. *)
Variable getPromptCount : outcome (Logged nat).
Variable getCategories : outcome (Logged (list (option string))).
Variable getTags : outcome (Logged (list string)).

Definition failed (err : string) : Logged NextResponse :=
  console_error "Error in /api/stats:" err ;;;
  ret (json (Failure "Failed to fetch statistics" 0 0 0) 500).

(** [Promise.all] of the three, then the response. *)
Definition GET : Logged NextResponse :=
  a <- settle getPromptCount ;;
  b <- settle getCategories ;;
  c <- settle getTags ;;
  match a, b, c with
  | Returned total, Returned categoriesList, Returned tagsList =>
      ret (json (Stats total (List.length categoriesList) (List.length tagsList)
                       categoriesList tagsList) 200)
  | Thrown err, _, _ => failed err
  | _, Thrown err, _ => failed err
  | _, _, Thrown err => failed err
  end.
End Route.

End StatsRoute.

(** The routes linked with lib/queries.js over one client. *)
Module App.
Definition prompts (supabase : Client) (URL : string -> outcome (list (string * string)))
  : string -> Logged PromptsRoute.NextResponse :=
  PromptsRoute.GET URL (fun params => Returned (Queries.searchPrompts supabase params)).

Definition stats (supabase : Client) : Logged StatsRoute.NextResponse :=
  StatsRoute.GET (Returned (Queries.getPromptCount supabase))
                 (Returned (Queries.getCategories supabase))
                 (Returned (Queries.getTags supabase)).
End App.

(** ** Reference semantics of the Data Store

    The store is not part of the repository: it is a PostgreSQL table behind
    the REST interface the client speaks.  This module says what it answers
    to the requests the repository issues, over a given content of table
    [prompts]: WHERE as the conjunction of the filters, with a null column
    satisfying none; ORDER BY created_at; [.range(lo, hi)] as OFFSET and
    LIMIT; the column list of SELECT.  The argument of [.or(...)] is a raw
    filter expression written by the caller, so it is parsed here:
    conditions [column.operator.value] separated by commas, closed by a
    parenthesis, with operators [fts] and [ilike], [*] standing for [%] in a
    pattern.  The argument of [.contains(...)] reaches the store as an array
    literal, which is read here as PostgreSQL reads one.  A request the
    store cannot run is answered with an error.
    The full-text matcher is the store's own and stays a parameter [fts]:
    a query text is either rejected or a predicate on documents.

    Records with the same [created_at] have no order of their own: the
    store may return them in any order, and not in the same one from one
    request to the next.  The list [table] stands for the order in which
    the store comes upon the records while it answers the request at hand;
    what is said of two requests together therefore assumes that no two
    records share a [created_at]. *)

Module Store.

(** *** ILIKE

    Letters are compared as under the C collation: only A to Z are folded.
    A pattern and a text are bytes of UTF-8; [_] stands for one character,
    that is a byte and the continuation bytes that follow it. *)

Definition lower (c : ascii) : ascii :=
  let n := nat_of_ascii c in
  if ((65 <=? n) && (n <=? 90))%nat then ascii_of_nat (n + 32) else c.

Fixpoint lowercase (s : string) : string :=
  match s with
  | EmptyString => EmptyString
  | String c s' => String (lower c) (lowercase s')
  end.

Inductive token : Type :=
| AnySeq            (* % (or * in a filter string) *)
| AnyChar           (* _ *)
| Lit (c : ascii).

(** A pattern read left to right; a backslash quotes the next character
    and may not end the pattern. *)
Fixpoint tokens (p : list ascii) : option (list token) :=
  match p with
  | [] => Some []
  | c :: p' =>
      if (Ascii.eqb c "%" || Ascii.eqb c "*")%char then option_map (cons AnySeq) (tokens p')
      else if (Ascii.eqb c "_")%char then option_map (cons AnyChar) (tokens p')
      else if (Ascii.eqb c "\")%char then
        match p' with
        | [] => None
        | d :: p'' => option_map (cons (Lit d)) (tokens p'')
        end
      else option_map (cons (Lit c)) (tokens p')
  end.

Definition isContinuation (c : ascii) : bool :=
  let n := nat_of_ascii c in ((128 <=? n) && (n <? 192))%nat.

Fixpoint dropContinuation (t : list ascii) : list ascii :=
  match t with
  | c :: t' => if isContinuation c then dropContinuation t' else t
  | [] => []
  end.

Fixpoint like (p : list token) (t : list ascii) {struct p} : bool :=
  match p with
  | [] => match t with [] => true | _ :: _ => false end
  | AnySeq :: p' =>
      (fix skip (t : list ascii) : bool :=
         like p' t || match t with [] => false | _ :: t' => skip t' end) t
  | AnyChar :: p' =>
      match t with [] => false | _ :: t' => like p' (dropContinuation t') end
  | Lit c :: p' =>
      match t with
      | [] => false
      | d :: t' => Ascii.eqb (lower c) (lower d) && like p' t'
      end
  end.

(** *** Array literals

    The text [{a,b}] of an array, read as PostgreSQL's [array_in] reads it:
    elements separated by commas between braces; an element is written
    between double quotes or bare; a backslash takes the next character as
    it is; white space around an element is dropped; a bare [NULL], in any
    letter case, is the null element; a brace inside the outer pair opens a
    sub-array, up to six levels, and sub-arrays must have matching
    extents.  The literals of the client start with a brace, so explicit
    dimensions ([[1:2]={...}]) are not read. *)

Definition isSpace (c : ascii) : bool :=
  let n := nat_of_ascii c in
  ((n =? 32) || (n =? 9) || (n =? 10) || (n =? 13) || (n =? 11) || (n =? 12))%nat.

#[warnings="-register-all"]
Inductive arr : Type :=
| Item (v : option string)
| Sub (items : list arr).

(** Where the reader stands. *)
Inductive parse_state : Type :=
| LevelStarted           (* after an opening brace *)
| ElemStarted            (* inside a bare element *)
| QuotedElemStarted      (* inside double quotes *)
| QuotedElemCompleted    (* after the closing quote *)
| ElemDelimited          (* after the comma that follows an element *)
| LevelCompleted         (* after a closing brace *)
| LevelDelimited.        (* after the comma that follows a sub-array *)

(** The element being read: the characters kept, the bare white space met
    since the last of them (both latest first), and whether a quote or a
    backslash occurred. *)
Record elem : Type := mkElem {
  kept : list ascii;
  spaces : list ascii;
  quoted : bool
}.

Definition noElem : elem := mkElem [] [] false.

Definition put (c : ascii) (e : elem) : elem :=
  mkElem (c :: spaces e ++ kept e) [] (quoted e).

Definition escaped (c : ascii) (e : elem) : elem :=
  mkElem (c :: spaces e ++ kept e) [] true.

Definition space (c : ascii) (e : elem) : elem :=
  mkElem (kept e) (c :: spaces e) (quoted e).

Definition finish (e : elem) : arr :=
  let s := string_of_list_ascii (rev (kept e)) in
  Item (if negb (quoted e) && (lowercase s =? "null") then None else Some s).

(** The reader after the first brace: the array and what follows its last
    brace, or nothing when the text is malformed.  [stack] holds the items
    of the levels that are open, innermost first, latest item first. *)
Fixpoint readArray (s : string) (st : parse_state) (e : elem) (stack : list (list arr))
  : option (arr * string) :=
  match s with
  | EmptyString => None
  | String c s' =>
      match st with
      | QuotedElemStarted =>
          if (Ascii.eqb c "\")%char then
            match s' with
            | String d s'' => readArray s'' st (mkElem (d :: kept e) [] true) stack
            | EmptyString => None
            end
          else if (Ascii.eqb c "034")%char then readArray s' QuotedElemCompleted e stack
          else readArray s' st (mkElem (c :: kept e) [] true) stack
      | _ =>
          if (Ascii.eqb c "\")%char then
            match st, s' with
            | (LevelStarted | ElemStarted | ElemDelimited), String d s'' =>
                readArray s'' ElemStarted (escaped d e) stack
            | _, _ => None
            end
          else if (Ascii.eqb c "034")%char then
            match st with
            | LevelStarted | ElemDelimited =>
                readArray s' QuotedElemStarted (mkElem [] [] true) stack
            | _ => None
            end
          else if (Ascii.eqb c "{")%char then
            match st with
            | LevelStarted | LevelDelimited =>
                if (List.length stack <? 6)%nat
                then readArray s' LevelStarted noElem ([] :: stack)
                else None
            | _ => None
            end
          else if (Ascii.eqb c "}")%char then
            match stack with
            | [] => None
            | items :: outer =>
                let closed :=
                  match st with
                  | ElemStarted | QuotedElemCompleted => Some (Sub (rev (finish e :: items)))
                  | LevelCompleted => Some (Sub (rev items))
                  | LevelStarted =>
                      match outer with
                      | [] => Some (Sub [])
                      | _ :: _ => None
                      end
                  | _ => None
                  end in
                match closed, outer with
                | None, _ => None
                | Some a, [] => Some (a, s')
                | Some a, up :: outer' =>
                    readArray s' LevelCompleted noElem ((a :: up) :: outer')
                end
            end
          else if (Ascii.eqb c ",")%char then
            match st, stack with
            | (ElemStarted | QuotedElemCompleted), items :: outer =>
                readArray s' ElemDelimited noElem ((finish e :: items) :: outer)
            | LevelCompleted, _ => readArray s' LevelDelimited noElem stack
            | _, _ => None
            end
          else if isSpace c then
            readArray s' st (match st with ElemStarted => space c e | _ => e end) stack
          else
            match st with
            | LevelStarted | ElemStarted | ElemDelimited =>
                readArray s' ElemStarted (put c e) stack
            | _ => None
            end
      end
  end.

Fixpoint skipSpaces (s : string) : string :=
  match s with
  | String c s' => if isSpace c then skipSpaces s' else s
  | EmptyString => s
  end.

Fixpoint sameExtents (a b : list nat) : bool :=
  match a, b with
  | [], [] => true
  | x :: a', y :: b' => (x =? y)%nat && sameExtents a' b'
  | _, _ => false
  end.

(** The extents of an array, when its sub-arrays match. *)
Fixpoint shape (a : arr) : option (list nat) :=
  match a with
  | Item _ => Some []
  | Sub items =>
      match items with
      | [] => Some [0%nat]
      | first :: others =>
          match shape first with
          | Some sh =>
              if (fix same (l : list arr) : bool :=
                    match l with
                    | [] => true
                    | x :: l' =>
                        match shape x with
                        | Some sh' => sameExtents sh sh' && same l'
                        | None => false
                        end
                    end) others
              then Some (List.length items :: sh)
              else None
          | None => None
          end
      end
  end.

Fixpoint elements (a : arr) : list (option string) :=
  match a with
  | Item v => [v]
  | Sub items =>
      (fix all (l : list arr) : list (option string) :=
         match l with
         | [] => []
         | x :: l' => elements x ++ all l'
         end) items
  end.

(** The elements of an array literal, or nothing when it is malformed. *)
Definition readLiteral (s : string) : option (list (option string)) :=
  match skipSpaces s with
  | String "{"%char s' =>
      match readArray s' LevelStarted noElem [[]] with
      | Some (a, rest) =>
          match skipSpaces rest, shape a with
          | EmptyString, Some _ => Some (elements a)
          | _, _ => None
          end
      | None => None
      end
  | _ => None
  end.

(** *** Columns of table prompts *)

Definition textColumn (name : string) : option (Row.t -> option string) :=
  if name =? "title" then Some Row.title
  else if name =? "content" then Some Row.content
  else if name =? "category" then Some Row.category
  else None.

Definition isNull (name : string) : option (Row.t -> bool) :=
  let absent {A : Type} (o : option A) := match o with Some _ => false | None => true end in
  if name =? "id" then Some (fun _ => false)
  else if name =? "title" then Some (fun r => absent (Row.title r))
  else if name =? "content" then Some (fun r => absent (Row.content r))
  else if name =? "category" then Some (fun r => absent (Row.category r))
  else if name =? "tags" then Some (fun r => absent (Row.tags r))
  else if name =? "created_at" then Some (fun r => absent (Row.created_at r))
  else None.

(** *** The expression of an [or] filter: [column.operator.value]
    conditions separated by commas, sent as [or=(...)]. *)

Fixpoint cut (sep : ascii) (s : string) : option (string * string) :=
  match s with
  | EmptyString => None
  | String c s' =>
      if Ascii.eqb c sep then Some (EmptyString, s')
      else match cut sep s' with
           | Some (a, b) => Some (String c a, b)
           | None => None
           end
  end.

Fixpoint occurs (c : ascii) (s : string) : bool :=
  match s with
  | EmptyString => false
  | String d s' => Ascii.eqb c d || occurs c s'
  end.

Definition parseCondition (s : string) : option (string * string * string) :=
  match cut "." s with
  | Some (column, rest) =>
      match cut "." rest with
      | Some (operator, v) => Some (column, operator, v)
      | None => None
      end
  | None => None
  end.

Fixpoint mapM {A B : Type} (f : A -> option B) (l : list A) : option (list B) :=
  match l with
  | [] => Some []
  | x :: l' =>
      match f x, mapM f l' with
      | Some y, Some ys => Some (y :: ys)
      | _, _ => None
      end
  end.

Section Semantics.
Variable fts : string -> option (string -> bool).

(** A null column satisfies no condition. *)
Definition onText (get : Row.t -> option string) (p : string -> bool) (r : Row.t) : bool :=
  match get r with
  | Some s => p s
  | None => false
  end.

Definition condition (c : string * string * string) : option (Row.t -> bool) :=
  let '(column, operator, v) := c in
  match textColumn column with
  | Some get =>
      if operator =? "fts" then option_map (onText get) (fts v)
      else if operator =? "ilike" then
        option_map (fun p => onText get (fun s => like p (list_ascii_of_string s)))
                   (tokens (list_ascii_of_string v))
      else None
  | None => None
  end.

Definition disjunction (expr : string) : option (Row.t -> bool) :=
  if occurs ")" expr then None
  else
    match mapM parseCondition (JS.split "," expr) with
    | Some cs =>
        option_map (fun ps r => existsb (fun p : Row.t -> bool => p r) ps)
                   (mapM condition cs)
    | None => None
    end.

(** The predicate a filter denotes; [None] when the store rejects it. *)
Definition holds (f : filter) : option (Row.t -> bool) :=
  match f with
  | FilterOr expr => disjunction expr
  | FilterEq column (SText v) =>
      option_map (fun get => onText get (String.eqb v)) (textColumn column)
  | FilterEq column (SInt z) =>
      if column =? "id" then Some (fun r => Z.eqb (Row.id r) z) else None
  | FilterContains column literal =>
      if column =? "tags" then
        option_map
          (fun vs r =>
             match Row.tags r with
             | Some ts =>
                 forallb (fun v => match v with
                                   | Some t => existsb (String.eqb t) ts
                                   | None => false
                                   end) vs
             | None => false
             end)
          (readLiteral literal)
      else None
  | FilterNotIsNull column => option_map (fun null r => negb (null r)) (isNull column)
  end.

(** WHERE: the conjunction of the request's filters. *)
Definition where_ (fs : list filter) : option (Row.t -> bool) :=
  option_map (fun ps r => forallb (fun p : Row.t -> bool => p r) ps) (mapM holds fs).

(** ORDER BY created_at: ascending puts nulls last, descending first. *)
Definition ascending (a b : option Z) : bool :=
  match a, b with
  | Some x, Some y => (x <=? y)%Z
  | Some _, None => true
  | None, Some _ => false
  | None, None => true
  end.

Definition descending (a b : option Z) : bool := ascending b a.

Definition orderBy (o : option (string * bool)) : option (list Row.t -> list Row.t) :=
  match o with
  | None => Some (fun rows => rows)
  | Some (column, asc) =>
      if column =? "created_at" then
        Some (JS.sortBy (fun r s =>
                           (if asc then ascending else descending)
                             (Row.created_at r) (Row.created_at s)))
      else None
  end.

(** [.range(lo, hi)] is sent as [offset=lo] and [limit=hi - lo + 1], the
    difference being computed by the client, each written in digits; the
    store takes them as 64-bit integers for OFFSET and LIMIT.  A bound that
    is not an integer, a negative offset, a negative limit and a bound
    beyond 2^63 - 1 are errors. *)
Definition bigint : Z := 9223372036854775807.

Definition page {A : Type} (rg : option (JS.number * JS.number)) (rows : list A)
  : option (list A) :=
  match rg with
  | None => Some rows
  | Some (lo, hi) =>
      match lo, JS.add (JS.sub hi lo) (JS.Int 1) with
      | JS.Int offset, JS.Int limit =>
          let offset := JS.written offset in
          let limit := JS.written limit in
          if ((offset <? 0) || (limit <? 0) || (bigint <? offset) || (bigint <? limit))%Z
          then None
          else Some (firstn (Z.to_nat limit) (skipn (Z.to_nat offset) rows))
      | _, _ => None
      end
  end.

(** SELECT list: every column or a single one. *)
Definition whole (r : Row.t) : Prompt.t :=
  Prompt.mk (Some (Row.id r)) (Row.title r) (Row.content r) (Row.category r)
            (Row.tags r) (Row.created_at r).

Definition project (columns : string) : option (Row.t -> Prompt.t) :=
  if columns =? "*" then Some whole
  else if columns =? "id" then
    Some (fun r => Prompt.mk (Some (Row.id r)) None None None None None)
  else if columns =? "title" then
    Some (fun r => Prompt.mk None (Row.title r) None None None None)
  else if columns =? "content" then
    Some (fun r => Prompt.mk None None (Row.content r) None None None)
  else if columns =? "category" then
    Some (fun r => Prompt.mk None None None (Row.category r) None None)
  else if columns =? "tags" then
    Some (fun r => Prompt.mk None None None None (Row.tags r) None)
  else if columns =? "created_at" then
    Some (fun r => Prompt.mk None None None None None (Row.created_at r))
  else None.

Variable table : list Row.t.

(** The records of the table that pass the request's filters. *)
Definition selected (q : request) : option (list Row.t) :=
  if r_from q =? "prompts" then
    option_map (fun p => List.filter p table) (where_ (r_filters q))
  else None.

(** The rows a request returns, in order. *)
Definition rows (q : request) : option (list Prompt.t) :=
  match selected q, orderBy (r_order q), project (r_select q) with
  | Some found, Some sort, Some proj =>
      option_map (map proj) (page (r_range q) (sort found))
  | _, _, _ => None
  end.

Definition rejected {D : Type} : response D :=
  mkResponse None (Some (mkError "PGRST100" "the request was rejected")) None.

Definition client : Client :=
  mkClient
    (fun q => Returned match rows q with
                       | Some rs => mkResponse (Some rs) None None
                       | None => rejected
                       end)
    (fun q => Returned match rows q with
                       | Some [r] => mkResponse (Some r) None None
                       | Some _ =>
                           mkResponse None
                             (Some (mkError "PGRST116" "the result is not a single row"))
                             None
                       | None => rejected
                       end)
    (fun q => Returned match selected q with
                       | Some found => mkResponse None None (Some (List.length found))
                       | None => rejected
                       end).
End Semantics.

End Store.

(** ** Sample data: the two records and the scenarios of the documentation *)

Module Sample.

Definition isAlnum (c : ascii) : bool :=
  let n := nat_of_ascii c in
  (((48 <=? n) && (n <=? 57)) || ((65 <=? n) && (n <=? 90)) || ((97 <=? n) && (n <=? 122)))%nat.

Fixpoint wordsOf (s : string) : list string :=
  match s with
  | EmptyString => [EmptyString]
  | String c s' =>
      if isAlnum c then
        match wordsOf s' with
        | w :: ws => String (Store.lower c) w :: ws
        | [] => [String (Store.lower c) EmptyString]
        end
      else EmptyString :: wordsOf s'
  end.

Fixpoint hasSpace (s : string) : bool :=
  match s with
  | EmptyString => false
  | String c s' => Store.isSpace c || hasSpace s'
  end.

(** A small full-text matcher: a query text with white space in it is a
    malformed query; any other is looked up among the words of the
    document without regard to case. *)
Definition wordFts (q : string) : option (string -> bool) :=
  if hasSpace q then None
  else Some (fun doc => existsb (String.eqb (Store.lowercase q)) (wordsOf doc)).

Definition email : Row.t :=
  Row.mk 1 (Some "Professional Email") (Some "Write a professional email...")
         (Some "Writing") (Some ["email"; "business"]) (Some 100%Z).

Definition review : Row.t :=
  Row.mk 2 (Some "Code Review") (Some "Review the code...")
         (Some "Development") (Some ["code"]) (Some 200%Z).

Definition table : list Row.t := [email; review].

(** A record filed under "writing" with a small w, tagged [a] only, and
    one tagged [a], [b] and [c]. *)
Definition note : Row.t :=
  Row.mk 4 (Some "Note") None (Some "writing") (Some ["a"]) (Some 400%Z).

Definition essay : Row.t :=
  Row.mk 5 (Some "Essay") None (Some "Writing") (Some ["a"; "b"; "c"]) (Some 500%Z).

Definition emailSearch : SearchParams.t :=
  SearchParams.mk (Some " EMAIL ") None None None None.


(** A record whose title has a comma in it. *)
Definition faq : Row.t :=
  Row.mk 3 (Some "Questions,answers") (Some "Answer the questions...")
         (Some "Support") (Some ["faq"]) (Some 300%Z).

Definition supabase : Client := Store.client wordFts table.

(** Five records created at times 10, 20, 30, 40, 50. *)
Definition five : list Row.t :=
  map (fun n => Row.mk n None None None None (Some (10 * n)%Z)) [1; 2; 3; 4; 5]%Z.

Definition ask (query : option string) (category : option string)
           (tags : option (list string)) : SearchParams.t :=
  SearchParams.mk query category tags None None.

(** A record tagged [a}]. *)
Definition braced : Row.t :=
  Row.mk 8 (Some "Braces") None None (Some ["a}"]) (Some 800%Z).

(** "Writing" after a no-break space and a space and before a tab; a space,
    a no-break space and a line separator. *)
Definition padded : string := JS.bytes [194; 160] ++ " Writing" ++ JS.bytes [9].

Definition blank : string := " " ++ JS.bytes [194; 160] ++ JS.bytes [226; 128; 168].

(** A no-break space. *)
Definition nbsp : string := JS.bytes [194; 160].

(** A client whose every round trip fails with a network error. *)
Definition offline : Client :=
  mkClient (fun _ => Thrown "fetch failed") (fun _ => Thrown "fetch failed")
           (fun _ => Thrown "fetch failed").
End Sample.

(** ** Vocabulary of the statements *)

(** Strictly ascending: sorted with no element repeated. *)
Definition ascendingStrings (l : list string) : Prop :=
  StronglySorted (fun a b => JS.ltb a b = true) l.

(** Most recent first, records without a timestamp before the others. *)
Definition newestFirst (p q : Prompt.t) : Prop :=
  Store.descending (Prompt.created_at p) (Prompt.created_at q) = true.

(** ORDER BY created_at DESC, as the store runs it. *)
Definition newestRows : list Row.t -> list Row.t :=
  JS.sortBy (fun r s => Store.descending (Row.created_at r) (Row.created_at s)).

(** [needle] occurs in [hay] as a substring, letters compared without
    regard to case. *)
Definition containsIgnoringCase (needle hay : string) : Prop :=
  exists pre mid post,
    hay = (pre ++ mid ++ post)%string /\ Store.lowercase mid = Store.lowercase needle.

(** Characters that mean something in a filter expression or in a LIKE
    pattern: comma, closing parenthesis, double quote (it opens a quoted
    value, which the semantics above does not cover), percent, star,
    underscore and backslash. *)
Definition reserved (c : ascii) : bool :=
  existsb (Ascii.eqb c) [","; ")"; "034"; "%"; "*"; "_"; "\"]%char.

Fixpoint plain (s : string) : bool :=
  match s with
  | EmptyString => true
  | String c s' => negb (reserved c) && plain s'
  end.

(** The text policy: the content matches the full-text query [m], or the
    title contains [q]. *)
Definition textMatch (m : string -> bool) (q : string) (r : Row.t) : Prop :=
  (exists c, Row.content r = Some c /\ m c = true) \/
  (exists t, Row.title r = Some t /\ containsIgnoringCase q t).

(** The tag policy: the record's tags include every requested tag. *)
Definition hasAllTags (requested : list string) (r : Row.t) : Prop :=
  exists ts, Row.tags r = Some ts /\ forall t, In t requested -> In t ts.

Definition withoutQuery (p : SearchParams.t) : SearchParams.t :=
  SearchParams.mk None (SearchParams.category p) (SearchParams.tags p)
                  (SearchParams.limit p) (SearchParams.offset p).

Definition withoutCategory (p : SearchParams.t) : SearchParams.t :=
  SearchParams.mk (SearchParams.query p) None (SearchParams.tags p)
                  (SearchParams.limit p) (SearchParams.offset p).

Definition withoutTags (p : SearchParams.t) : SearchParams.t :=
  SearchParams.mk (SearchParams.query p) (SearchParams.category p) None
                  (SearchParams.limit p) (SearchParams.offset p).

(** The criteria as the filters see them: trimmed text, trimmed category,
    requested tags (an absent criterion is the empty one). *)
Definition activeText (p : SearchParams.t) : string :=
  JS.trim (orDefault "" (SearchParams.query p)).

Definition activeCategory (p : SearchParams.t) : string :=
  JS.trim (orDefault "" (SearchParams.category p)).

Definition activeTags (p : SearchParams.t) : list string :=
  orDefault [] (SearchParams.tags p).

Definition textFilters (p : SearchParams.t) : list filter :=
  if activeText p =? "" then [] else [FilterOr (Queries.textFilter (activeText p))].

Definition categoryFilters (p : SearchParams.t) : list filter :=
  if activeCategory p =? "" then []
  else [FilterEq "category" (SText (activeCategory p))].

Definition tagFilters (p : SearchParams.t) : list filter :=
  match activeTags p with
  | [] => []
  | _ :: _ => [FilterContains "tags" (Builder.arrayLiteral (activeTags p))]
  end.

(** The window [searchPrompts] asks for. *)
Definition windowOf (p : SearchParams.t) : JS.number * JS.number :=
  let limit := orDefault (JS.Int 50) (SearchParams.limit p) in
  let offset := orDefault (JS.Int 0) (SearchParams.offset p) in
  (offset, JS.sub (JS.add offset limit) (JS.Int 1)).

(** The categories and the tags present in a table, record by record. *)
Definition categoriesOf (table : list Row.t) : list string :=
  flat_map (fun r => match Row.category r with Some c => [c] | None => [] end) table.

Definition tagsOf (table : list Row.t) : list string :=
  flat_map (fun r => orDefault [] (Row.tags r)) table.

(** White space only; a string that starts, and one that ends, with a white
    space character. *)
Inductive White : string -> Prop :=
| White_nil : White ""
| White_cons (w s : string) : In w JS.whiteSpace -> White s -> White (w ++ s)%string.

Definition StartsWhite (s : string) : Prop :=
  exists w r, In w JS.whiteSpace /\ s = (w ++ r)%string.

Definition EndsWhite (s : string) : Prop :=
  exists l w, In w JS.whiteSpace /\ s = (l ++ w)%string.

(** [t] is [s] without the white space at its two ends. *)
Definition Trimmed (s t : string) : Prop :=
  (exists l r, s = (l ++ t ++ r)%string /\ White l /\ White r) /\
  ~ StartsWhite t /\ ~ EndsWhite t.

(** A tag that an array literal holds as it is: not empty, without comma,
    brace, double quote or backslash, without a space, tab or line break at
    either end, and not the word NULL in any letter case. *)
Definition special (c : ascii) : bool :=
  existsb (Ascii.eqb c) [","; "{"; "}"; "034"; "\"]%char.

Fixpoint ordinary (s : string) : bool :=
  match s with
  | EmptyString => true
  | String c s' => negb (special c) && ordinary s'
  end.

Fixpoint endsInSpace (s : string) : bool :=
  match s with
  | EmptyString => false
  | String c EmptyString => Store.isSpace c
  | String _ s' => endsInSpace s'
  end.

Definition plainTag (t : string) : bool :=
  match t with
  | EmptyString => false
  | String c _ =>
      ordinary t && negb (Store.isSpace c) && negb (endsInSpace t)
      && negb (Store.lowercase t =? "null")
  end.

(** A bare element of an array literal after more ordinary characters. *)
Fixpoint fed (u : string) (e : Store.elem) : Store.elem :=
  match u with
  | EmptyString => e
  | String c u' => fed u' (if Store.isSpace c then Store.space c e else Store.put c e)
  end.

(** Limit and offset that are not negative and whose sum a double holds
    exactly, so that nothing is rounded on the way to the store. *)
Definition validWindow (l o : Z) : Prop :=
  (0 <= l)%Z /\ (0 <= o)%Z /\ (o + l <= JS.MAX_SAFE_INTEGER)%Z.

(** No two records created at the same time. *)
Definition distinctTimes (table : list Row.t) : Prop :=
  NoDup (map Row.created_at table).

(** The parameters of GET /api/prompts as the interface documents them: the
    value given for a name, an empty value counting as none; the
    comma-separated segments of a text, each trimmed, the empty ones
    dropped. *)
Definition parameter (name : string) (searchParams : list (string * string))
  : option string :=
  match PromptsRoute.get name searchParams with
  | Some EmptyString => None
  | given => given
  end.

Definition segmentsOf (text : string) : list string :=
  List.filter (fun t => negb (t =? "")) (map JS.trim (JS.split "," text)).

(** A round trip that reports an error or throws. *)
Definition failing {D : Type} (o : outcome (response D)) : Prop :=
  match o with
  | Thrown _ => True
  | Returned r => error r <> None
  end.

(** ** Number to string *)

Module JSNumber.

Definition digits (z : Z) : string := NilZero.string_of_int (Z.to_int z).

Fixpoint dropTrailingZeros (s : string) : string :=
  match s with
  | EmptyString => EmptyString
  | String c s' =>
      match dropTrailingZeros s' with
      | EmptyString => if (Ascii.eqb c "0")%char then EmptyString else String c EmptyString
      | t => String c t
      end
  end.

(** [d.ddde+n], for a positive integer from 10^21 on. *)
Definition exponential (a : Z) : string :=
  let ds := digits a in
  match dropTrailingZeros ds with
  | String d EmptyString => String d "e+" ++ digits (Z.of_nat (String.length ds - 1))
  | String d rest =>
      String d ("." ++ rest) ++ "e+" ++ digits (Z.of_nat (String.length ds - 1))
  | EmptyString => ds
  end.

(** [String(n)] and [`${n}`]: the digits written for an integer, with a
    minus sign when it is negative and with an exponent from 10^21 on;
    [NaN], [Infinity] and [-Infinity]. *)
Definition toString (n : JS.number) : string :=
  match n with
  | JS.NaN => "NaN"
  | JS.Infinity negative => if negative then "-Infinity" else "Infinity"
  | JS.Int z =>
      let w := JS.written z in
      if (Z.abs w <? 1000000000000000000000)%Z then digits w
      else if (w <? 0)%Z then "-" ++ exponential (Z.abs w)
      else exponential w
  end.

(** [String(n)] for a length or a count. *)
Definition ofNat (n : nat) : string := NilZero.string_of_uint (Nat.to_uint n).

(** [n || d] for a number-or-undefined [n]: zero and NaN are falsy. *)
Definition orElse (n : option JS.number) (d : Z) : JS.number :=
  match n with
  | Some (JS.Int z) => if (z =? 0)%Z then JS.Int d else JS.Int z
  | Some JS.NaN => JS.Int d
  | Some (JS.Infinity negative) => JS.Infinity negative
  | None => JS.Int d
  end.

(** An integer up to [Number.MAX_SAFE_INTEGER] in magnitude. *)
Definition safe (n : JS.number) : Prop :=
  match n with
  | JS.Int z => (Z.abs z <= JS.MAX_SAFE_INTEGER)%Z
  | JS.NaN => True
  | JS.Infinity _ => False
  end.

End JSNumber.

(** ** components/SearchBar.js *)

Module SearchBar.

(** The two input fields. *)
Record state : Type := mk {
  query : string;
  category : string
}.

Definition initial : state := mk "" "".

Inductive event : Type :=
| ChangeQuery (v : string)      (* onChange of the first input *)
| ChangeCategory (v : string)   (* onChange of the second input *)
| Submit                        (* handleSubmit *)
| Clear.                        (* handleClear *)

(** The state after an event and the argument of [onSearch] when the event
    calls it. *)
Definition handle (e : event) (s : state) : state * option SearchParams.t :=
  match e with
  | ChangeQuery v => (mk v (category s), None)
  | ChangeCategory v => (mk (query s) v, None)
  | Submit =>
      (s, Some (SearchParams.mk (Some (query s)) (Some (category s)) None None None))
  | Clear =>
      (mk "" "", Some (SearchParams.mk (Some "") (Some "") None None None))
  end.

End SearchBar.

(** ** app/page.js *)

Module Page.

(** The props [<Stats>] reads from the [stats] state. *)
Record statsProps : Type := mkStats {
  total : nat;
  categories : nat;
  tags : nat
}.

Record state : Type := mk {
  prompts : list Prompt.t;
  loading : bool;
  stats : statsProps
}.

(** [useState([])], [useState(false)],
    [useState({ total: 0, categories: 0, tags: 0 })]. *)
Definition initial : state := mk [] false (mkStats 0 0 0).

(** A call to one of the three state setters. *)
Inductive update : Type :=
| SetPrompts (ps : list Prompt.t)
| SetLoading (b : bool)
| SetStats (s : statsProps).

Definition apply (s : state) (u : update) : state :=
  match u with
  | SetPrompts ps => mk ps (loading s) (stats s)
  | SetLoading b => mk (prompts s) b (stats s)
  | SetStats st => mk (prompts s) (loading s) st
  end.

(** The state once the setters called have taken effect, in call order. *)
Definition after (us : list update) (s : state) : state := fold_left apply us s.

(** The pairs of [new URLSearchParams({...})] with the appended [tags]. *)
Definition queryParams (searchParams : SearchParams.t) : list (string * string) :=
  let tags := orDefault [] (SearchParams.tags searchParams) in
  [("query", PromptsRoute.orElse (SearchParams.query searchParams) "");
   ("category", PromptsRoute.orElse (SearchParams.category searchParams) "");
   ("limit", JSNumber.toString (JSNumber.orElse (SearchParams.limit searchParams) 50));
   ("offset", JSNumber.toString (JSNumber.orElse (SearchParams.offset searchParams) 0))]
  ++ (if (0 <? List.length tags)%nat then [("tags", String.concat "," tags)] else []).

(** [data.prompts] of either body. *)
Definition promptsOf (b : PromptsRoute.body) : list Prompt.t :=
  match b with
  | PromptsRoute.Success ps _ _ => ps
  | PromptsRoute.Failure _ ps => ps
  end.

Definition statsOf (b : StatsRoute.body) : statsProps :=
  match b with
  | StatsRoute.Stats t c g _ _ => mkStats t c g
  | StatsRoute.Failure _ t c g => mkStats t c g
  end.

Section Page.
(** [URLSearchParams.prototype.toString], and [fetch] followed by
    [response.json()] for each of the two endpoints: the body read, or the
    exception either of them throws. *)
Variable toString : list (string * string) -> string.
Variable fetchPromptsRoute : string -> outcome PromptsRoute.NextResponse.
Variable fetchStatsRoute : string -> outcome StatsRoute.NextResponse.

Definition fetchPrompts (searchParams : SearchParams.t) : Logged (list update) :=
  match fetchPromptsRoute ("/api/prompts?" ++ toString (queryParams searchParams)) with
  | Returned response =>
      ret [SetLoading true;
           SetPrompts (promptsOf (PromptsRoute.payload response));
           SetLoading false]
  | Thrown err =>
      console_error "Error fetching prompts:" err ;;;
      ret [SetLoading true; SetPrompts []; SetLoading false]
  end.

Definition fetchStats : Logged (list update) :=
  match fetchStatsRoute "/api/stats" with
  | Returned response => ret [SetStats (statsOf (StatsRoute.payload response))]
  | Thrown err => console_error "Error fetching stats:" err ;;; ret []
  end.

(** [handleSearch], the [onSearch] of the search bar. *)
Definition handleSearch (searchParams : SearchParams.t) : Logged (list update) :=
  fetchPrompts searchParams.

(** The effect run on mount. *)
Definition mount : Logged (list update) :=
  a <- fetchPrompts SearchParams.empty ;;
  b <- fetchStats ;;
  ret (a ++ b).

(** An event of the search bar, seen from the page: the bar's new state and
    the page's state once the search it starts, if any, is over. *)
Definition onEvent (e : SearchBar.event) (bar : SearchBar.state) (s : state)
  : SearchBar.state * state :=
  match SearchBar.handle e bar with
  | (bar', Some searchParams) => (bar', after (value (handleSearch searchParams)) s)
  | (bar', None) => (bar', s)
  end.
End Page.

End Page.

(** The page served by the two routes over one client. *)
Module Site.
Section Site.
Variable supabase : Client.
Variable URL : string -> outcome (list (string * string)).

Definition prompts (url : string) : outcome PromptsRoute.NextResponse :=
  Returned (value (App.prompts supabase URL url)).

Definition stats (url : string) : outcome StatsRoute.NextResponse :=
  Returned (value (App.stats supabase)).
End Site.
End Site.

(** A tag the route reads back as it is: not empty, no white space at either
    end, no comma. *)
Definition cleanTag (t : string) : Prop :=
  t <> "" /\ JS.trim t = t /\ Store.occurs "," t = false.

(** The criteria the route hands to [searchPrompts] for what the page was
    asked to search. *)
Definition criteriaOf (searchParams : SearchParams.t) : SearchParams.t :=
  SearchParams.mk
    (Some (PromptsRoute.orElse (SearchParams.query searchParams) ""))
    (PromptsRoute.orNull (SearchParams.category searchParams))
    (Some (orDefault [] (SearchParams.tags searchParams)))
    (Some (JSNumber.orElse (SearchParams.limit searchParams) 50))
    (Some (JSNumber.orElse (SearchParams.offset searchParams) 0)).

(** A plain query string for the examples: [k=v] pairs joined by [&], read
    back by cutting at [?], [&] and [=] (the values used have none of
    these, so no escaping is involved). *)
Module Browser.
Definition toString (pairs : list (string * string)) : string :=
  String.concat "&" (map (fun kv => (fst kv ++ "=" ++ snd kv)%string) pairs).

Definition URL (url : string) : outcome (list (string * string)) :=
  match Store.cut "?" url with
  | Some (_, search) =>
      match Store.mapM (Store.cut "=") (JS.split "&" search) with
      | Some pairs => Returned pairs
      | None => Thrown "Invalid URL"
      end
  | None => Returned []
  end.
End Browser.

(** ** The PromptList component (components/PromptList.js) *)

Module Components.

(** What a component renders: elements and text, without the inline styles
    and the mouse handlers, which carry no content. *)
#[warnings="-register-all"]
Inductive node : Type :=
| Text (s : string)
| Element (tag : string) (children : list node).

(** A string-or-null child: null and the empty string render nothing. *)
Definition child (v : option string) : list node :=
  match v with
  | Some s => if JS.truthy s then [Text s] else []
  | None => []
  end.

Fixpoint textContent (n : node) : string :=
  match n with
  | Text s => s
  | Element _ children =>
      (fix all (l : list node) : string :=
         match l with
         | [] => EmptyString
         | c :: l' => (textContent c ++ all l')%string
         end) children
  end.

Section PromptList.
(** [new Date(created_at).toLocaleDateString()], which depends on the
    locale of the browser. *)
Variable toLocaleDateString : Z -> string.

(** One prompt of the list. *)
Definition card (prompt : Prompt.t) : node :=
  Element "div"
    ([Element "h3" (child (Prompt.title prompt));
      Element "div"
        ((match Prompt.category prompt with
          | Some c => if JS.truthy c then [Element "span" [Text c]] else []
          | None => []
          end)
         ++
         (match Prompt.created_at prompt with
          | Some t => [Element "span" [Text (toLocaleDateString t)]]
          | None => []
          end));
      Element "p" (child (Prompt.content prompt))]
     ++
     (match Prompt.tags prompt with
      | Some (t :: ts) =>
          [Element "div"
             (map (fun tag => Element "span" ([Text "#"] ++ child (Some tag))) (t :: ts))]
      | _ => []
      end)).

Definition loadingNotice : node :=
  Element "div" [Element "div" [Text "Loading prompts..."]].

Definition emptyNotice : node :=
  Element "div"
    [Element "div" [Text "No prompts found"];
     Element "p" [Text "Try adjusting your search criteria"]].

Definition PromptList (prompts : option (list Prompt.t)) (loading : bool) : node :=
  if loading then loadingNotice
  else
    match prompts with
    | None => emptyNotice
    | Some [] => emptyNotice
    | Some ps =>
        Element "div"
          (Element "div"
             ([Text "Found "; Text (JSNumber.ofNat (List.length ps)); Text " prompt"]
              ++ (if (List.length ps =? 1)%nat then [] else [Text "s"]))
           :: map card ps)
    end.

(** The list as the page renders it from its state. *)
Definition ofPage (s : Page.state) : node :=
  PromptList (Some (Page.prompts s)) (Page.loading s).
End PromptList.

End Components.

(** ** lib/db.js *)

Module Db.

(** A line of console output. *)
Inductive line : Type :=
| Log (message : string)                (* console.log *)
| Error (message detail : string).      (* console.error *)

(** [.limit(count)]: the first [count] rows, that is the window from 0 to
    [count - 1] of a request. *)
Definition limit (count : JS.number) (q : request) : request :=
  Builder.range (JS.Int 0) (JS.sub count (JS.Int 1)) q.

Definition connectionQuery : request :=
  limit (JS.Int 1) (Builder.select "id" (Builder.from "prompts")).

Section Db.
Variable supabase : Client.

Definition testConnection : bool * list line :=
  match awaitRows supabase connectionQuery with
  | Returned r =>
      match error r with
      | Some e => (false, [Error "Database connection test failed:" (message e)])
      | None => (true, [Log "Database connection successful"])
      end
  | Thrown err => (false, [Error "Database connection error:" err])
  end.
End Db.

End Db.

(** * Properties *)

(** ** Sorting and sets *)

Section SortFacts.
Context {A : Type}.
Variable le : A -> A -> bool.

Lemma insertSorted_perm (x : A) (l : list A) :
  Permutation (JS.insertSorted le x l) (x :: l).
Proof.
  induction l as [|y l IH]; simpl.
  - apply Permutation_refl.
  - destruct (le x y).
    + apply Permutation_refl.
    + eapply perm_trans; [apply perm_skip, IH | apply perm_swap].
Qed.

Lemma sortBy_perm (l : list A) : Permutation (JS.sortBy le l) l.
Proof.
  induction l as [|x l IH]; simpl.
  - constructor.
  - eapply perm_trans; [apply insertSorted_perm | apply perm_skip, IH].
Qed.

Lemma sortBy_In (l : list A) (x : A) : In x (JS.sortBy le l) <-> In x l.
Proof.
  split; apply Permutation_in;
    [apply sortBy_perm | apply Permutation_sym, sortBy_perm].
Qed.

Hypothesis le_total : forall x y, le x y = true \/ le y x = true.
Hypothesis le_trans : forall x y z, le x y = true -> le y z = true -> le x z = true.

Lemma insertSorted_sorted (x : A) (l : list A) :
  StronglySorted (fun a b => le a b = true) l ->
  StronglySorted (fun a b => le a b = true) (JS.insertSorted le x l).
Proof.
  induction 1 as [|y l Hs IH Hall]; simpl.
  - repeat constructor.
  - destruct (le x y) eqn:Hxy.
    + constructor.
      * constructor; assumption.
      * constructor; [exact Hxy|].
        rewrite Forall_forall in *. intros z Hz.
        eapply le_trans; [exact Hxy | apply Hall, Hz].
    + constructor; [exact IH|].
      rewrite Forall_forall in *. intros z Hz.
      apply (Permutation_in _ (insertSorted_perm x l)) in Hz.
      destruct Hz as [<-|Hz].
      * destruct (le_total x y) as [H|H]; [congruence | exact H].
      * apply Hall, Hz.
Qed.

Lemma sortBy_sorted (l : list A) :
  StronglySorted (fun a b => le a b = true) (JS.sortBy le l).
Proof.
  induction l as [|x l IH]; simpl.
  - constructor.
  - apply insertSorted_sorted, IH.
Qed.
End SortFacts.

Lemma StronglySorted_firstn {A : Type} (R : A -> A -> Prop) (n : nat) (l : list A) :
  StronglySorted R l -> StronglySorted R (firstn n l).
Proof.
  intros H. revert n.
  induction H as [|x l Hs IH Hall]; intros [|n]; simpl; try constructor.
  - apply IH.
  - rewrite Forall_forall in *. intros y Hy. apply Hall.
    eapply (In_nth_error (firstn n l)) in Hy. destruct Hy as [k Hk].
    apply nth_error_In with k.
    rewrite nth_error_firstn in Hk.
    destruct (Nat.ltb k n); [exact Hk | discriminate].
Qed.

Lemma StronglySorted_skipn {A : Type} (R : A -> A -> Prop) (n : nat) (l : list A) :
  StronglySorted R l -> StronglySorted R (skipn n l).
Proof.
  revert l. induction n as [|n IH]; intros l H; simpl.
  - exact H.
  - destruct l as [|x l]; [constructor|].
    apply IH. inversion H; assumption.
Qed.

Lemma In_firstn {A : Type} (n : nat) (l : list A) (x : A) :
  In x (firstn n l) -> In x l.
Proof.
  intros H. rewrite <- (firstn_skipn n l). apply in_or_app. left. exact H.
Qed.

Lemma In_skipn {A : Type} (n : nat) (l : list A) (x : A) :
  In x (skipn n l) -> In x l.
Proof.
  intros H. rewrite <- (firstn_skipn n l). apply in_or_app. right. exact H.
Qed.

Lemma StronglySorted_map {A B : Type} (f : A -> B) (R : B -> B -> Prop) (l : list A) :
  StronglySorted (fun x y => R (f x) (f y)) l -> StronglySorted R (map f l).
Proof.
  induction 1 as [|x l Hs IH Hall]; simpl; constructor.
  - exact IH.
  - rewrite Forall_forall in *. intros y Hy.
    apply in_map_iff in Hy. destruct Hy as [z [<- Hz]]. apply Hall, Hz.
Qed.

Lemma unitRank_inj (x y : ascii) : JS.unitRank x = JS.unitRank y -> x = y.
Proof.
  unfold JS.unitRank. intros H.
  pose proof (N_ascii_bounded x) as Hx. pose proof (N_ascii_bounded y) as Hy.
  assert (E : N_of_ascii x = N_of_ascii y).
  { destruct (N.ltb_spec (N_of_ascii x) 238), (N.ltb_spec (N_of_ascii y) 238);
      destruct (N.ltb_spec (N_of_ascii x) 240), (N.ltb_spec (N_of_ascii y) 240); lia. }
  rewrite <- (ascii_N_embedding x), <- (ascii_N_embedding y), E. reflexivity.
Qed.

Lemma compare_refl (x : string) : JS.compare x x = Eq.
Proof.
  induction x as [|a x IH]; simpl; [reflexivity|].
  rewrite N.compare_refl. exact IH.
Qed.

Lemma compare_eq (x y : string) : JS.compare x y = Eq -> x = y.
Proof.
  revert y. induction x as [|a x IH]; intros [|b y]; simpl; try discriminate;
    [reflexivity|].
  destruct (N.compare (JS.unitRank a) (JS.unitRank b)) eqn:E; try discriminate.
  intros H. apply N.compare_eq_iff, unitRank_inj in E. subst. f_equal. apply IH, H.
Qed.

Lemma compare_antisym (x y : string) : JS.compare y x = CompOpp (JS.compare x y).
Proof.
  revert y. induction x as [|a x IH]; intros [|b y]; simpl; try reflexivity.
  rewrite (N.compare_antisym (JS.unitRank a) (JS.unitRank b)).
  destruct (N.compare (JS.unitRank a) (JS.unitRank b)); simpl; [apply IH | reflexivity ..].
Qed.

Lemma compare_lt_trans (x y z : string) :
  JS.compare x y = Lt -> JS.compare y z = Lt -> JS.compare x z = Lt.
Proof.
  revert y z. induction x as [|a x IH]; intros [|b y] [|c z]; simpl;
    try congruence.
  destruct (N.compare (JS.unitRank a) (JS.unitRank b)) eqn:Hab; try discriminate;
    destruct (N.compare (JS.unitRank b) (JS.unitRank c)) eqn:Hbc; try discriminate;
    intros H1 H2.
  - apply N.compare_eq_iff in Hab, Hbc. rewrite Hab, Hbc, N.compare_refl.
    eapply IH; eassumption.
  - apply N.compare_eq_iff in Hab. rewrite Hab, Hbc. reflexivity.
  - apply N.compare_eq_iff in Hbc. rewrite <- Hbc, Hab. reflexivity.
  - rewrite (proj2 (N.compare_lt_iff _ _)); [reflexivity|].
    apply N.compare_lt_iff in Hab, Hbc. exact (N.lt_trans _ _ _ Hab Hbc).
Qed.

Lemma leb_total (x y : string) : JS.leb x y = true \/ JS.leb y x = true.
Proof.
  unfold JS.leb. rewrite (compare_antisym x y).
  destruct (JS.compare x y); simpl; auto.
Qed.

Lemma leb_trans (x y z : string) :
  JS.leb x y = true -> JS.leb y z = true -> JS.leb x z = true.
Proof.
  unfold JS.leb.
  destruct (JS.compare x y) eqn:Hxy; try discriminate;
    destruct (JS.compare y z) eqn:Hyz; try discriminate; intros _ _.
  - apply compare_eq in Hxy, Hyz. subst. rewrite compare_refl. reflexivity.
  - apply compare_eq in Hxy. subst. rewrite Hyz. reflexivity.
  - apply compare_eq in Hyz. subst. rewrite Hxy. reflexivity.
  - rewrite (compare_lt_trans x y z Hxy Hyz). reflexivity.
Qed.

Lemma sort_strings_ascending (l : list string) :
  NoDup l -> ascendingStrings (JS.sort (fun s => s) l).
Proof.
  intros Hnd. unfold ascendingStrings, JS.sort.
  assert (Hs := sortBy_sorted (fun x y => JS.leb x y) leb_total leb_trans l).
  assert (Hn : NoDup (JS.sortBy (fun x y => JS.leb x y) l)).
  { eapply Permutation_NoDup; [apply Permutation_sym, sortBy_perm | exact Hnd]. }
  induction Hs as [|x r Hs IH Hall]; constructor.
  - apply IH. inversion Hn; assumption.
  - inversion Hn as [|? ? Hx Hr]; subst.
    rewrite Forall_forall in *. intros y Hy.
    specialize (Hall y Hy). cbv beta in Hall.
    unfold JS.leb in Hall. unfold JS.ltb.
    destruct (JS.compare x y) eqn:Hc; try discriminate; [|reflexivity].
    apply compare_eq in Hc. subst. contradiction.
Qed.

Section SetFacts.
Context {A : Type}.
Variable eqb : A -> A -> bool.
Hypothesis eqb_spec : forall x y, eqb x y = true <-> x = y.

Lemma existsb_eqb (x : A) (l : list A) : existsb (eqb x) l = true <-> In x l.
Proof.
  rewrite existsb_exists. split.
  - intros [y [Hy He]]. apply eqb_spec in He. subst. exact Hy.
  - intros H. exists x. split; [exact H | apply eqb_spec; reflexivity].
Qed.

Lemma setAdd_In (acc xs : list A) (x : A) :
  In x (JS.setAdd eqb acc xs) <-> In x acc \/ In x xs.
Proof.
  revert acc. induction xs as [|y xs IH]; intros acc; simpl.
  - tauto.
  - rewrite IH. destruct (existsb (eqb y) acc) eqn:He.
    + apply existsb_eqb in He. intuition (subst; auto).
    + rewrite in_app_iff. simpl. tauto.
Qed.

Lemma setAdd_NoDup (acc xs : list A) :
  NoDup acc -> NoDup (JS.setAdd eqb acc xs).
Proof.
  revert acc. induction xs as [|y xs IH]; intros acc Hacc; simpl.
  - exact Hacc.
  - apply IH. destruct (existsb (eqb y) acc) eqn:He; [exact Hacc|].
    apply NoDup_app; [exact Hacc | repeat constructor; simpl; tauto |].
    intros z Hz [<-|[]].
    apply existsb_eqb in Hz. congruence.
Qed.

Lemma newSet_In (xs : list A) (x : A) : In x (JS.newSet eqb xs) <-> In x xs.
Proof. unfold JS.newSet. rewrite setAdd_In. simpl. tauto. Qed.

Lemma newSet_NoDup (xs : list A) : NoDup (JS.newSet eqb xs).
Proof. apply setAdd_NoDup. constructor. Qed.
End SetFacts.

(** ** Strings *)

Lemma chars_app (a b : string) :
  list_ascii_of_string (a ++ b) = list_ascii_of_string a ++ list_ascii_of_string b.
Proof. induction a as [|c a IH]; simpl; [reflexivity | now rewrite IH]. Qed.

Lemma string_of_chars_app (a b : list ascii) :
  string_of_list_ascii (a ++ b) =
  (string_of_list_ascii a ++ string_of_list_ascii b)%string.
Proof. induction a as [|c a IH]; simpl; [reflexivity | now rewrite IH]. Qed.

Lemma chars_lowercase (s : string) :
  list_ascii_of_string (Store.lowercase s) = map Store.lower (list_ascii_of_string s).
Proof. induction s as [|c s IH]; simpl; [reflexivity | now rewrite IH]. Qed.

Lemma lowercase_of_chars (l : list ascii) :
  Store.lowercase (string_of_list_ascii l) = string_of_list_ascii (map Store.lower l).
Proof. induction l as [|c l IH]; simpl; [reflexivity | now rewrite IH]. Qed.

Lemma occurs_app (c : ascii) (a b : string) :
  Store.occurs c (a ++ b) = Store.occurs c a || Store.occurs c b.
Proof.
  induction a as [|d a IH]; simpl; [reflexivity|].
  rewrite IH. apply orb_assoc.
Qed.

Lemma split_whole (sep : ascii) (a : string) :
  Store.occurs sep a = false -> JS.split sep a = [a].
Proof.
  induction a as [|c a IH]; simpl; [reflexivity|].
  intros H. apply orb_false_iff in H. destruct H as [Hc Ha].
  rewrite Ascii.eqb_sym, Hc, (IH Ha). reflexivity.
Qed.

Lemma split_app (sep : ascii) (a b : string) :
  Store.occurs sep a = false ->
  JS.split sep (a ++ String sep b) = a :: JS.split sep b.
Proof.
  induction a as [|c a IH]; simpl.
  - intros _. rewrite Ascii.eqb_refl. reflexivity.
  - intros H. apply orb_false_iff in H. destruct H as [Hc Ha].
    rewrite Ascii.eqb_sym, Hc, (IH Ha). reflexivity.
Qed.

Lemma plain_not_reserved (c : ascii) (q : string) :
  reserved c = true -> plain q = true -> Store.occurs c q = false.
Proof.
  intros Hc. induction q as [|d q IH]; simpl; [reflexivity|].
  intros H. apply andb_true_iff in H. destruct H as [Hd Hq].
  rewrite (IH Hq), orb_false_r.
  destruct (Ascii.eqb_spec c d) as [->|]; [|reflexivity].
  rewrite Hc in Hd. discriminate.
Qed.

(** ** White space and trimming *)

Lemma isWhiteSpace_In (w : string) : JS.isWhiteSpace w = true <-> In w JS.whiteSpace.
Proof.
  unfold JS.isWhiteSpace. rewrite existsb_exists. split.
  - intros (x & Hx & E). apply String.eqb_eq in E. subst. exact Hx.
  - intros H. exists w. split; [exact H | apply String.eqb_refl].
Qed.

Ltac each_white H :=
  cbv [JS.whiteSpace JS.bytes map string_of_list_ascii] in H;
  repeat (destruct H as [H|H]; [symmetry in H|]); [..|contradiction].

Lemma trimStart_white (w r : string) :
  In w JS.whiteSpace -> JS.trimStart (w ++ r) = JS.trimStart r.
Proof. intros H. each_white H; subst w; reflexivity. Qed.

Lemma white_not_empty (w : string) : In w JS.whiteSpace -> w <> "".
Proof. intros H. each_white H; subst w; discriminate. Qed.

Lemma white_length (w : string) :
  In w JS.whiteSpace -> (1 <= String.length w <= 3)%nat.
Proof. intros H. each_white H; subst w; cbn; lia. Qed.

Lemma string_length_app (a b : string) :
  String.length (a ++ b) = (String.length a + String.length b)%nat.
Proof. induction a as [|c a IH]; simpl; [reflexivity | now rewrite IH]. Qed.

Lemma string_app_assoc (a b c : string) : ((a ++ b) ++ c = a ++ (b ++ c))%string.
Proof. induction a as [|x a IH]; simpl; [reflexivity | now rewrite IH]. Qed.

Lemma string_app_nil (a : string) : (a ++ "")%string = a.
Proof. induction a as [|x a IH]; simpl; [reflexivity | now rewrite IH]. Qed.

(** A string starts with a white space character or it does not. *)
Lemma startsWhite_dec (s : string) : StartsWhite s \/ ~ StartsWhite s.
Proof.
  assert (Hyes : forall w r, JS.isWhiteSpace w = true -> StartsWhite (w ++ r)).
  { intros w r H. exists w, r. split; [apply isWhiteSpace_In, H | reflexivity]. }
  destruct s as [|a s1]; [right; intros (w & r & Hw & E); apply white_not_empty in Hw;
                          destruct w; [contradiction | discriminate]|].
  destruct (JS.isWhiteSpace (String a "")) eqn:E1; [left; apply (Hyes (String a "") s1 E1)|].
  destruct s1 as [|b s2].
  { right. intros (w & r & Hw & E).
    pose proof (white_length w Hw) as Hl. pose proof (proj2 (isWhiteSpace_In w) Hw) as Hb.
    destruct w as [|x [|y w]]; cbn in Hl; try lia; cbn in E.
    - injection E as -> _. congruence.
    - discriminate. }
  destruct (JS.isWhiteSpace (String a (String b ""))) eqn:E2;
    [left; apply (Hyes (String a (String b "")) s2 E2)|].
  destruct s2 as [|c s3].
  { right. intros (w & r & Hw & E).
    pose proof (white_length w Hw) as Hl. pose proof (proj2 (isWhiteSpace_In w) Hw) as Hb.
    destruct w as [|x [|y [|z w]]]; cbn in Hl; try lia; cbn in E.
    - injection E as -> _. congruence.
    - injection E as -> -> _. congruence.
    - discriminate. }
  destruct (JS.isWhiteSpace (String a (String b (String c "")))) eqn:E3;
    [left; apply (Hyes (String a (String b (String c ""))) s3 E3)|].
  right. intros (w & r & Hw & E).
  pose proof (white_length w Hw) as Hl. pose proof (proj2 (isWhiteSpace_In w) Hw) as Hb.
  destruct w as [|x [|y [|z [|u w]]]]; cbn in Hl; try lia; cbn in E.
  - injection E as -> _. congruence.
  - injection E as -> -> _. congruence.
  - injection E as -> -> -> _. congruence.
Qed.

Lemma trimStart_stop (s : string) : ~ StartsWhite s -> JS.trimStart s = s.
Proof.
  intros H.
  assert (Hno : forall w r, s = (w ++ r)%string -> JS.isWhiteSpace w = false).
  { intros w r E. destruct (JS.isWhiteSpace w) eqn:Hw; [|reflexivity].
    exfalso. apply H. exists w, r. split; [apply isWhiteSpace_In, Hw | exact E]. }
  destruct s as [|a [|b [|c s3]]]; cbn [JS.trimStart]; try reflexivity.
  - rewrite (Hno (String a "") "" eq_refl). reflexivity.
  - rewrite (Hno (String a "") (String b "") eq_refl),
      (Hno (String a (String b "")) "" eq_refl). reflexivity.
  - rewrite (Hno (String a "") (String b (String c s3)) eq_refl),
      (Hno (String a (String b "")) (String c s3) eq_refl),
      (Hno (String a (String b (String c ""))) s3 eq_refl). reflexivity.
Qed.

Lemma white_app (a b : string) : White a -> White b -> White (a ++ b).
Proof.
  induction 1 as [|w s Hw Hs IH]; intros Hb; [exact Hb|].
  rewrite string_app_assoc. constructor; [exact Hw | apply IH, Hb].
Qed.

Lemma white_one (w : string) : In w JS.whiteSpace -> White w.
Proof.
  intros H. rewrite <- (string_app_nil w). constructor; [exact H | constructor].
Qed.

(** What [trimStart] removes and what it leaves. *)
Lemma trimStart_spec (s : string) :
  exists l, s = (l ++ JS.trimStart s)%string /\ White l /\ ~ StartsWhite (JS.trimStart s).
Proof.
  remember (String.length s) as n eqn:Hn. revert s Hn.
  induction n as [n IH] using lt_wf_ind. intros s Hn.
  destruct (startsWhite_dec s) as [(w & r & Hw & ->)|Hno].
  - rewrite (trimStart_white w r Hw).
    destruct (IH (String.length r)) with (s := r) as (l & E & Hl & Hclean);
      [|reflexivity|].
    + rewrite Hn, string_length_app. pose proof (white_length w Hw). lia.
    + exists (w ++ l)%string. split; [|split; [|exact Hclean]].
      * rewrite string_app_assoc, <- E. reflexivity.
      * constructor; assumption.
  - rewrite (trimStart_stop s Hno). exists "". repeat split; [constructor | exact Hno].
Qed.

(** What [trimEnd] removes and what it leaves. *)
Lemma trimEnd_spec (s : string) :
  exists r, s = (JS.trimEnd s ++ r)%string /\ White r /\ ~ EndsWhite (JS.trimEnd s).
Proof.
  induction s as [|c s (r & E & Hr & Hclean)].
  - exists "". repeat split; [constructor|].
    intros (l & w & Hw & Ew). apply white_not_empty in Hw.
    destruct l; destruct w; try discriminate. contradiction.
  - cbn [JS.trimEnd]. cbv zeta.
    destruct (JS.isWhiteSpace (String c (JS.trimEnd s))) eqn:Hw.
    + exists (String c (JS.trimEnd s) ++ r)%string. split; [|split].
      * cbn. rewrite <- E. reflexivity.
      * constructor; [apply isWhiteSpace_In, Hw | exact Hr].
      * intros (l & w & Hin & Ew). apply white_not_empty in Hin.
        destruct l; destruct w; try discriminate. contradiction.
    + exists r. split; [cbn; rewrite <- E; reflexivity|]. split; [exact Hr|].
      intros (l & w & Hin & Ew). destruct l as [|x l]; cbn in Ew.
      * subst w. apply isWhiteSpace_In in Hin. congruence.
      * injection Ew as _ Ew. apply Hclean. exists l, w. split; assumption.
Qed.

Lemma trimEnd_stop (s : string) : ~ EndsWhite s -> JS.trimEnd s = s.
Proof.
  induction s as [|c s IH]; intros H; [reflexivity|].
  cbn [JS.trimEnd]. cbv zeta. rewrite IH.
  - destruct (JS.isWhiteSpace (String c s)) eqn:Hw; [|reflexivity].
    exfalso. apply H. exists "", (String c s). split; [apply isWhiteSpace_In, Hw | reflexivity].
  - intros (l & w & Hw & E). apply H. exists (String c l), w.
    split; [exact Hw | cbn; rewrite E; reflexivity].
Qed.

(** [trim] removes white space from the two ends and nothing else. *)
Lemma trim_spec (s : string) : Trimmed s (JS.trim s).
Proof.
  unfold JS.trim.
  destruct (trimStart_spec s) as (l & El & Hl & Hstart).
  destruct (trimEnd_spec (JS.trimStart s)) as (r & Er & Hr & Hend).
  split; [|split; [|exact Hend]].
  - exists l, r. split; [|split; assumption].
    rewrite <- Er. exact El.
  - intros (w & x & Hw & E). apply Hstart. exists w, (x ++ r)%string.
    split; [exact Hw|]. rewrite Er at 1. rewrite E. apply string_app_assoc.
Qed.

Lemma trim_idempotent (s : string) : JS.trim (JS.trim s) = JS.trim s.
Proof.
  destruct (trim_spec s) as (_ & Hstart & Hend).
  unfold JS.trim at 1. rewrite (trimStart_stop _ Hstart). apply trimEnd_stop, Hend.
Qed.

(** [trim] leaves a string as it is exactly when there is no white space at
    either end. *)
Lemma trim_fixed (t : string) : JS.trim t = t <-> ~ StartsWhite t /\ ~ EndsWhite t.
Proof.
  split.
  - intros E. destruct (trim_spec t) as (_ & Hstart & Hend).
    rewrite E in Hstart, Hend. split; assumption.
  - intros [Hstart Hend]. unfold JS.trim.
    rewrite (trimStart_stop _ Hstart). apply trimEnd_stop, Hend.
Qed.

(** ** Array literals of plain tags *)

Lemma special_false (c : ascii) :
  special c = false ->
  (Ascii.eqb c "\" = false /\ Ascii.eqb c "034" = false /\ Ascii.eqb c "{" = false /\
   Ascii.eqb c "}" = false /\ Ascii.eqb c "," = false)%char.
Proof.
  unfold special. cbn [existsb]. rewrite !orb_false_iff. tauto.
Qed.

Lemma read_bare (u rest : string) (e : Store.elem) (stack : list (list Store.arr)) :
  ordinary u = true ->
  Store.readArray (u ++ rest) Store.ElemStarted e stack =
  Store.readArray rest Store.ElemStarted (fed u e) stack.
Proof.
  revert e. induction u as [|c u IH]; intros e H; [reflexivity|].
  cbn [ordinary] in H. apply andb_true_iff in H. destruct H as [Hc Hu].
  apply negb_true_iff, special_false in Hc.
  destruct Hc as (H1 & H2 & H3 & H4 & H5).
  cbn [append Store.readArray fed]. rewrite H1, H2, H3, H4, H5.
  destruct (Store.isSpace c); apply IH, Hu.
Qed.

Lemma fed_all (u : string) (e : Store.elem) :
  Store.spaces (fed u e) ++ Store.kept (fed u e) =
  rev (list_ascii_of_string u) ++ Store.spaces e ++ Store.kept e /\
  Store.quoted (fed u e) = Store.quoted e /\
  (u <> "" -> endsInSpace u = false -> Store.spaces (fed u e) = []).
Proof.
  revert e. induction u as [|c u IH]; intros e.
  - repeat split. intros H. contradiction.
  - cbn [fed list_ascii_of_string rev].
    destruct (IH (if Store.isSpace c then Store.space c e else Store.put c e))
      as (Hall & Hq & Hend).
    split; [|split].
    + rewrite Hall, <- app_assoc.
      destruct (Store.isSpace c); reflexivity.
    + rewrite Hq. destruct (Store.isSpace c); reflexivity.
    + intros _ Hlast. destruct u as [|d u].
      * cbn in Hlast. rewrite Hlast. reflexivity.
      * apply Hend; [discriminate | exact Hlast].
Qed.

Lemma read_tag (t rest : string) (st : Store.parse_state) (stack : list (list Store.arr)) :
  plainTag t = true -> st = Store.LevelStarted \/ st = Store.ElemDelimited ->
  exists e,
    Store.readArray (t ++ rest) st Store.noElem stack =
    Store.readArray rest Store.ElemStarted e stack /\
    Store.finish e = Store.Item (Some t).
Proof.
  intros Hplain Hst. destruct t as [|c t]; [discriminate|].
  unfold plainTag in Hplain. rewrite !andb_true_iff, !negb_true_iff in Hplain.
  destruct Hplain as (((Hord & Hfirst) & Hlast) & Hnull).
  exists (fed (String c t) Store.noElem). split.
  - pose proof Hord as Hord'. cbn [ordinary] in Hord'. apply andb_true_iff in Hord'.
    destruct Hord' as [Hc Ht].
    apply negb_true_iff, special_false in Hc.
    destruct Hc as (H1 & H2 & H3 & H4 & H5).
    cbn [append fed]. rewrite Hfirst.
    rewrite <- (read_bare t rest _ stack Ht).
    destruct Hst as [-> | ->]; cbn [Store.readArray];
      rewrite H1, H2, H3, H4, H5, Hfirst; reflexivity.
  - destruct (fed_all (String c t) Store.noElem) as (Hall & Hq & Hend).
    specialize (Hend ltac:(discriminate) Hlast).
    rewrite Hend in Hall. cbn [app Store.noElem Store.spaces Store.kept] in Hall.
    rewrite app_nil_r in Hall.
    unfold Store.finish. rewrite Hall, Hq, rev_involutive, string_of_list_ascii_of_string.
    cbn [Store.noElem Store.quoted negb andb]. rewrite Hnull. reflexivity.
Qed.

Lemma read_tags (ts : list string) (items : list Store.arr) (st : Store.parse_state) :
  ts <> [] -> Forall (fun t => plainTag t = true) ts ->
  st = Store.LevelStarted \/ st = Store.ElemDelimited ->
  Store.readArray (String.concat "," ts ++ "}") st Store.noElem [items] =
  Some (Store.Sub (rev items ++ map (fun t => Store.Item (Some t)) ts), "").
Proof.
  revert items st. induction ts as [|t ts IH]; intros items st Hne Hall Hst;
    [contradiction|].
  inversion Hall as [|? ? Ht Hts]; subst.
  destruct ts as [|u ts].
  - cbn [String.concat].
    destruct (read_tag t "}" st [items] Ht Hst) as (e & -> & Hfin).
    cbn. rewrite Hfin. reflexivity.
  - change (String.concat "," (t :: u :: ts))
      with (t ++ String "," (String.concat "," (u :: ts)))%string.
    rewrite string_app_assoc.
    destruct (read_tag t (String "," (String.concat "," (u :: ts)) ++ "}") st [items] Ht Hst)
      as (e & -> & Hfin).
    cbn [append Store.readArray]. change (Ascii.eqb "," "\") with false.
    cbv iota. cbn [Ascii.eqb Bool.eqb]. cbv iota.
    rewrite Hfin, (IH (Store.Item (Some t) :: items) Store.ElemDelimited);
      [|discriminate | exact Hts | right; reflexivity].
    cbn [rev map]. rewrite <- app_assoc. reflexivity.
Qed.

Lemma shape_items (ts : list string) :
  Store.shape (Store.Sub (map (fun t => Store.Item (Some t)) ts)) =
  Some [List.length ts].
Proof.
  destruct ts as [|t ts]; [reflexivity|].
  cbn [map Store.shape].
  assert ((fix same (l : list Store.arr) : bool :=
             match l with
             | [] => true
             | x :: l' =>
                 match Store.shape x with
                 | Some sh' => Store.sameExtents [] sh' && same l'
                 | None => false
                 end
             end) (map (fun t => Store.Item (Some t)) ts) = true) as ->.
  { induction ts as [|u ts IH]; [reflexivity|]. cbn. exact IH. }
  cbn [List.length]. rewrite length_map. reflexivity.
Qed.

Lemma elements_items (ts : list string) :
  Store.elements (Store.Sub (map (fun t => Store.Item (Some t)) ts)) = map Some ts.
Proof.
  cbn [Store.elements]. induction ts as [|t ts IH]; [reflexivity|].
  cbn. f_equal. exact IH.
Qed.

(** The array literal of plain tags is read as these tags. *)
Lemma readLiteral_plain (ts : list string) :
  ts <> [] -> Forall (fun t => plainTag t = true) ts ->
  Store.readLiteral (Builder.arrayLiteral ts) = Some (map Some ts).
Proof.
  intros Hne Hall. unfold Store.readLiteral, Builder.arrayLiteral.
  cbn [append Store.skipSpaces]. change (Store.isSpace "{") with false. cbv iota.
  rewrite (read_tags ts [] Store.LevelStarted Hne Hall (or_introl eq_refl)).
  cbn [rev app Store.skipSpaces]. rewrite shape_items, elements_items. reflexivity.
Qed.

(** ** ILIKE with a pattern that wraps plain text in wildcards *)

Lemma like_any (p : list Store.token) (t : list ascii) :
  Store.like (Store.AnySeq :: p) t = true <->
  exists pre post, t = pre ++ post /\ Store.like p post = true.
Proof.
  induction t as [|c t IH].
  - simpl. rewrite orb_false_r. split.
    + intros H. exists [], []. split; [reflexivity | exact H].
    + intros (pre & post & E & H).
      symmetry in E. apply app_eq_nil in E. destruct E; subst. exact H.
  - change (Store.like (Store.AnySeq :: p) (c :: t))
      with (Store.like p (c :: t) || Store.like (Store.AnySeq :: p) t).
    rewrite orb_true_iff, IH. split.
    + intros [H | (pre & post & E & H)].
      * exists [], (c :: t). split; [reflexivity | exact H].
      * exists (c :: pre), post. split; [simpl; congruence | exact H].
    + intros (pre & post & E & H). destruct pre as [|d pre]; simpl in E.
      * left. subst. exact H.
      * right. injection E as _ E. exists pre, post. split; assumption.
Qed.

Lemma like_literals (q : list ascii) (p : list Store.token) (t : list ascii) :
  Store.like (map Store.Lit q ++ p) t = true <->
  exists mid post,
    t = mid ++ post /\ map Store.lower mid = map Store.lower q /\
    Store.like p post = true.
Proof.
  revert t. induction q as [|c q IH]; intros t.
  - simpl. split.
    + intros H. exists [], t. repeat split. exact H.
    + intros (mid & post & E & Hm & H).
      destruct mid; [|discriminate]. simpl in E. subst. exact H.
  - destruct t as [|d t].
    + simpl. split; [discriminate|].
      intros (mid & post & E & Hm & _). destruct mid; discriminate.
    + change (Store.like (map Store.Lit (c :: q) ++ p) (d :: t))
        with (Ascii.eqb (Store.lower c) (Store.lower d)
              && Store.like (map Store.Lit q ++ p) t).
      rewrite andb_true_iff, IH, Ascii.eqb_eq. split.
      * intros (Hc & mid & post & E & Hm & H).
        exists (d :: mid), post. simpl. repeat split; congruence.
      * intros (mid & post & E & Hm & H). destruct mid as [|e mid]; [discriminate|].
        simpl in E, Hm. injection E as -> E. injection Hm as Hc Hm.
        split; [congruence|]. exists mid, post. repeat split; assumption.
Qed.

Lemma like_contains (q t : list ascii) :
  Store.like (Store.AnySeq :: map Store.Lit q ++ [Store.AnySeq]) t = true <->
  exists pre mid post,
    t = pre ++ mid ++ post /\ map Store.lower mid = map Store.lower q.
Proof.
  rewrite like_any. split.
  - intros (pre & rest & E & H). apply like_literals in H.
    destruct H as (mid & post & E' & Hm & _).
    exists pre, mid, post. split; congruence.
  - intros (pre & mid & post & E & Hm).
    exists pre, (mid ++ post). split; [exact E|].
    apply like_literals. exists mid, post. repeat split; [exact Hm|].
    apply like_any. exists post, []. split; [now rewrite app_nil_r | reflexivity].
Qed.

Lemma contains_chars (q t : string) :
  containsIgnoringCase q t <->
  exists pre mid post,
    list_ascii_of_string t = pre ++ mid ++ post /\
    map Store.lower mid = map Store.lower (list_ascii_of_string q).
Proof.
  split.
  - intros (pre & mid & post & E & Hm).
    exists (list_ascii_of_string pre), (list_ascii_of_string mid),
      (list_ascii_of_string post).
    split.
    + rewrite E, !chars_app. reflexivity.
    + rewrite <- !chars_lowercase, Hm. reflexivity.
  - intros (pre & mid & post & E & Hm).
    exists (string_of_list_ascii pre), (string_of_list_ascii mid),
      (string_of_list_ascii post).
    split.
    + rewrite <- !string_of_chars_app, <- E, string_of_list_ascii_of_string.
      reflexivity.
    + rewrite lowercase_of_chars, Hm, <- lowercase_of_chars,
        string_of_list_ascii_of_string.
      reflexivity.
Qed.

Lemma tokens_plain (q : string) (rest : list ascii) :
  plain q = true ->
  Store.tokens (list_ascii_of_string q ++ rest) =
  option_map (app (map Store.Lit (list_ascii_of_string q))) (Store.tokens rest).
Proof.
  induction q as [|c q IH]; intros H.
  - simpl. destruct (Store.tokens rest); reflexivity.
  - simpl in H. apply andb_true_iff in H. destruct H as [Hc Hq].
    apply negb_true_iff in Hc. unfold reserved in Hc. simpl in Hc.
    repeat (apply orb_false_iff in Hc; destruct Hc as [? Hc]).
    cbn [list_ascii_of_string app Store.tokens map].
    repeat match goal with E : Ascii.eqb c _ = false |- _ => rewrite E; clear E end.
    cbn [orb]. rewrite (IH Hq).
    destruct (Store.tokens rest); reflexivity.
Qed.

Lemma tokens_wrapped (q : string) :
  plain q = true ->
  Store.tokens (list_ascii_of_string ("%" ++ q ++ "%")) =
  Some (Store.AnySeq :: map Store.Lit (list_ascii_of_string q) ++ [Store.AnySeq]).
Proof.
  intros H. cbn [append list_ascii_of_string]. rewrite chars_app.
  change (list_ascii_of_string "%") with ["%"%char].
  cbn [Store.tokens]. cbn. rewrite (tokens_plain q _ H). reflexivity.
Qed.

(** ** The store on the queries of [searchPrompts] *)

(** What the text filter denotes for a plain query text [q]. *)
Lemma disjunction_textFilter (fts : string -> option (string -> bool)) (q : string) :
  plain q = true ->
  Store.disjunction fts (Queries.textFilter q) =
  option_map
    (fun m r =>
       existsb (fun p : Row.t -> bool => p r)
         [Store.onText Row.content m;
          Store.onText Row.title
            (fun s =>
               Store.like
                 (Store.AnySeq :: map Store.Lit (list_ascii_of_string q) ++ [Store.AnySeq])
                 (list_ascii_of_string s))])
    (fts q).
Proof.
  intros Hq.
  assert (Hcomma : Store.occurs "," q = false) by (apply plain_not_reserved; auto).
  assert (Hparen : Store.occurs ")" q = false) by (apply plain_not_reserved; auto).
  unfold Store.disjunction, Queries.textFilter.
  assert (Store.occurs ")" ("content.fts." ++ q ++ ",title.ilike.%" ++ q ++ "%") = false)
    as ->.
  { rewrite !occurs_app, Hparen. reflexivity. }
  change ("content.fts." ++ q ++ ",title.ilike.%" ++ q ++ "%")%string
    with ("content.fts." ++ (q ++ String "," ("title.ilike.%" ++ q ++ "%")))%string.
  assert (JS.split "," ("content.fts." ++ (q ++ String "," ("title.ilike.%" ++ q ++ "%")))
          = ["content.fts." ++ q; "title.ilike." ++ ("%" ++ q ++ "%")]%string) as ->.
  { transitivity (JS.split "," (("content.fts." ++ q) ++
                                String "," ("title.ilike.%" ++ q ++ "%"))).
    - reflexivity.
    - rewrite split_app by (rewrite occurs_app, Hcomma; reflexivity).
      rewrite split_whole by (rewrite !occurs_app, Hcomma; reflexivity).
      reflexivity. }
  cbn [Store.mapM].
  assert (Store.parseCondition ("content.fts." ++ q) = Some ("content", "fts", q)) as ->
    by reflexivity.
  assert (Store.parseCondition ("title.ilike." ++ ("%" ++ q ++ "%"))
          = Some ("title", "ilike", "%" ++ q ++ "%")%string) as -> by reflexivity.
  cbn [Store.condition Store.mapM].
  change (Store.textColumn "content") with (Some Row.content).
  change (Store.textColumn "title") with (Some Row.title).
  change ("fts" =? "fts") with true. change ("ilike" =? "fts") with false.
  change ("ilike" =? "ilike") with true. cbv iota.
  rewrite (tokens_wrapped q Hq).
  destruct (fts q) as [m|]; reflexivity.
Qed.

Lemma onText_content (m : string -> bool) (r : Row.t) :
  Store.onText Row.content m r = true <-> exists c, Row.content r = Some c /\ m c = true.
Proof.
  unfold Store.onText. destruct (Row.content r) as [c|].
  - split; [intros H; exists c; auto | intros (c' & E & H); congruence].
  - split; [discriminate | intros (c' & E & _); discriminate].
Qed.

(** The text filter is the text policy. *)
Lemma textFilter_denotes (fts : string -> option (string -> bool)) (q : string)
      (m : string -> bool) :
  plain q = true -> fts q = Some m ->
  exists P, Store.holds fts (FilterOr (Queries.textFilter q)) = Some P /\
            forall r, P r = true <-> textMatch m q r.
Proof.
  intros Hq Hm. eexists. split.
  - simpl. rewrite (disjunction_textFilter fts q Hq), Hm. reflexivity.
  - intros r. cbn [existsb]. rewrite orb_false_r, orb_true_iff, onText_content.
    unfold textMatch. apply or_iff_compat_l.
    unfold Store.onText. destruct (Row.title r) as [t|].
    + rewrite like_contains, <- contains_chars.
      split; [intros H; exists t; auto | intros (t' & E & H); congruence].
    + split; [discriminate | intros (t' & E & _); discriminate].
Qed.

Section StoreFacts.
Variable fts : string -> option (string -> bool).
Variable table : list Row.t.

Lemma mapM_app {A B : Type} (f : A -> option B) (l1 l2 : list A) :
  Store.mapM f (l1 ++ l2) =
  match Store.mapM f l1, Store.mapM f l2 with
  | Some a, Some b => Some (a ++ b)
  | _, _ => None
  end.
Proof.
  induction l1 as [|x l1 IH]; simpl.
  - destruct (Store.mapM f l2); reflexivity.
  - rewrite IH. destruct (f x), (Store.mapM f l1), (Store.mapM f l2); reflexivity.
Qed.

Lemma filter_filter {A : Type} (P Q : A -> bool) (l : list A) :
  List.filter P (List.filter Q l) = List.filter (fun x => Q x && P x) l.
Proof.
  induction l as [|x l IH]; simpl; [reflexivity|].
  destruct (Q x); simpl; [destruct (P x)|]; rewrite IH; reflexivity.
Qed.

(** One more filter in a query narrows what the others select. *)
Lemma selected_narrow (q : request) (fs1 fs2 : list filter) (f : filter)
      (P : Row.t -> bool) :
  Store.holds fts f = Some P ->
  Store.selected fts table
    (mkRequest (r_from q) (r_select q) (r_order q) (fs1 ++ f :: fs2) (r_range q)) =
  option_map (List.filter P)
    (Store.selected fts table
       (mkRequest (r_from q) (r_select q) (r_order q) (fs1 ++ fs2) (r_range q))).
Proof.
  intros HP. unfold Store.selected, Store.where_. cbn [r_from r_filters].
  destruct (r_from q =? "prompts"); [|reflexivity].
  rewrite !mapM_app. cbn [Store.mapM]. rewrite HP.
  destruct (Store.mapM (Store.holds fts) fs1) as [a|]; [|reflexivity].
  destruct (Store.mapM (Store.holds fts) fs2) as [b|]; [|reflexivity].
  cbn [option_map]. f_equal. rewrite filter_filter.
  apply filter_ext. intros r.
  rewrite !forallb_app. cbn [forallb].
  destruct (forallb (fun p : Row.t -> bool => p r) a),
    (forallb (fun p : Row.t -> bool => p r) b), (P r); reflexivity.
Qed.
End StoreFacts.

Lemma active_guard (s : string) :
  JS.truthy s && negb (JS.trim s =? "") = negb (JS.trim s =? "").
Proof.
  unfold JS.truthy. destruct (String.eqb_spec s "") as [->|]; reflexivity.
Qed.

(** The query [searchPrompts] builds, filter by filter. *)
Lemma searchQuery_shape (p : SearchParams.t) :
  Queries.searchQuery p =
  mkRequest "prompts" "*" (Some ("created_at", false))
            (textFilters p ++ categoryFilters p ++ tagFilters p)
            (Some (windowOf p)).
Proof.
  destruct p as [query category tags limit offset].
  unfold Queries.searchQuery, textFilters, categoryFilters, tagFilters, windowOf,
    activeText, activeCategory, activeTags.
  cbn [SearchParams.query SearchParams.category SearchParams.tags
       SearchParams.limit SearchParams.offset].
  rewrite active_guard.
  destruct (JS.trim (orDefault "" query) =? "") eqn:Hq;
    (destruct category as [c|]; cbn [orDefault];
     [rewrite active_guard; destruct (JS.trim c =? "") eqn:Hc |];
     destruct (orDefault [] tags) as [|t ts]; reflexivity).
Qed.

Lemma descending_total (a b : option Z) :
  Store.descending a b = true \/ Store.descending b a = true.
Proof.
  unfold Store.descending, Store.ascending.
  destruct a as [x|], b as [y|]; auto.
  rewrite !Z.leb_le. lia.
Qed.

Lemma descending_trans (a b c : option Z) :
  Store.descending a b = true -> Store.descending b c = true ->
  Store.descending a c = true.
Proof.
  unfold Store.descending, Store.ascending.
  destruct a as [x|], b as [y|], c as [z|]; auto; try discriminate.
  rewrite !Z.leb_le. lia.
Qed.

Lemma newestRows_sorted (l : list Row.t) :
  StronglySorted (fun r s => newestFirst (Store.whole r) (Store.whole s)) (newestRows l).
Proof.
  apply (sortBy_sorted
           (fun r s => Store.descending (Row.created_at r) (Row.created_at s))).
  - intros x y. apply descending_total.
  - intros x y z. apply descending_trans.
Qed.

(** Up to [Number.MAX_SAFE_INTEGER] nothing is rounded. *)
Lemma double_safe (z : Z) :
  (Z.abs z <= JS.MAX_SAFE_INTEGER)%Z -> JS.double z = JS.Int z.
Proof.
  intros H. unfold JS.double. apply Z.leb_le in H. rewrite H. reflexivity.
Qed.

Lemma written_safe (z : Z) :
  (Z.abs z <= JS.MAX_SAFE_INTEGER)%Z -> JS.written z = z.
Proof.
  intros H. unfold JS.written. apply Z.leb_le in H. rewrite H. reflexivity.
Qed.

Lemma window_bounds (o l : Z) :
  validWindow l o ->
  JS.sub (JS.add (JS.Int o) (JS.Int l)) (JS.Int 1) = JS.Int (o + l - 1).
Proof.
  intros (Hl & Ho & Hsum). unfold JS.MAX_SAFE_INTEGER in Hsum.
  cbn [JS.add]. rewrite double_safe by (unfold JS.MAX_SAFE_INTEGER; lia).
  cbn [JS.sub]. rewrite double_safe by (unfold JS.MAX_SAFE_INTEGER; lia).
  reflexivity.
Qed.

Lemma page_window {A : Type} (o l : Z) (rows : list A) :
  validWindow l o ->
  Store.page (Some (JS.Int o, JS.sub (JS.add (JS.Int o) (JS.Int l)) (JS.Int 1))) rows =
  Some (firstn (Z.to_nat l) (skipn (Z.to_nat o) rows)).
Proof.
  intros Hv. rewrite (window_bounds o l Hv).
  destruct Hv as (Hl & Ho & Hsum). unfold JS.MAX_SAFE_INTEGER in Hsum.
  unfold Store.page. cbn [JS.sub].
  rewrite double_safe by (unfold JS.MAX_SAFE_INTEGER; lia).
  cbn [JS.add]. rewrite double_safe by (unfold JS.MAX_SAFE_INTEGER; lia).
  replace (o + l - 1 - o + 1)%Z with l by lia.
  rewrite !written_safe by (unfold JS.MAX_SAFE_INTEGER; lia).
  assert (((o <? 0) || (l <? 0) || (Store.bigint <? o) || (Store.bigint <? l))%Z = false)
    as ->; [|reflexivity].
  unfold Store.bigint. rewrite !orb_false_iff, !Z.ltb_ge. lia.
Qed.

Section SearchOnStore.
Variable fts : string -> option (string -> bool).
Variable table : list Row.t.

(** What [searchPrompts] returns over the store: the page of the selected
    records, most recent first; nothing when the store rejects the query. *)
Lemma searchPrompts_on_store (p : SearchParams.t) :
  value (Queries.searchPrompts (Store.client fts table) p) =
  match Store.selected fts table (Queries.searchQuery p) with
  | Some found =>
      match Store.page (Some (windowOf p)) (newestRows found) with
      | Some rows => map Store.whole rows
      | None => []
      end
  | None => []
  end.
Proof.
  unfold Queries.searchPrompts, Store.client. cbn [awaitRows].
  unfold Store.rows.
  destruct (Store.selected fts table (Queries.searchQuery p)) as [found|];
    [|reflexivity].
  rewrite searchQuery_shape. cbn [r_order r_select r_range].
  change (Store.orderBy (Some ("created_at", false))) with (Some newestRows).
  change (Store.project "*") with (Some Store.whole).
  cbv iota. destruct (Store.page (Some (windowOf p)) (newestRows found));
    reflexivity.
Qed.

Lemma page_In {A : Type} (rg : option (JS.number * JS.number)) (l rows : list A) (x : A) :
  Store.page rg l = Some rows -> In x rows -> In x l.
Proof.
  unfold Store.page. destruct rg as [[lo hi]|].
  - destruct lo as [|offset|]; try discriminate.
    destruct (JS.add (JS.sub hi (JS.Int offset)) (JS.Int 1)) as [|limit|];
      try discriminate.
    cbv zeta.
    destruct ((JS.written offset <? 0) || (JS.written limit <? 0)
              || (Store.bigint <? JS.written offset)
              || (Store.bigint <? JS.written limit))%Z; [discriminate|].
    intros [= <-] H. eapply In_skipn, In_firstn, H.
  - intros [= <-] H. exact H.
Qed.

(** Every Prompt returned is a selected record of the table. *)
Lemma returned_selected (p : SearchParams.t) (x : Prompt.t) :
  In x (value (Queries.searchPrompts (Store.client fts table) p)) ->
  exists found r,
    Store.selected fts table (Queries.searchQuery p) = Some found /\
    In r found /\ x = Store.whole r.
Proof.
  rewrite searchPrompts_on_store.
  destruct (Store.selected fts table (Queries.searchQuery p)) as [found|];
    [|intros []].
  destruct (Store.page (Some (windowOf p)) (newestRows found)) as [rows|] eqn:Hp;
    [|intros []].
  intros H. apply in_map_iff in H. destruct H as (r & <- & Hr).
  exists found, r. repeat split.
  eapply page_In in Hr; [|exact Hp]. apply sortBy_In in Hr. exact Hr.
Qed.

Lemma selected_cons (q : request) (f : filter) (fs : list filter) (P : Row.t -> bool) :
  Store.holds fts f = Some P ->
  Store.selected fts table
    (mkRequest (r_from q) (r_select q) (r_order q) (f :: fs) (r_range q)) =
  option_map (List.filter P)
    (Store.selected fts table
       (mkRequest (r_from q) (r_select q) (r_order q) fs (r_range q))).
Proof. apply (selected_narrow fts table q [] fs f P). Qed.

Lemma selected_without_text (p : SearchParams.t) (f : filter) (P : Row.t -> bool) :
  textFilters p = [f] -> Store.holds fts f = Some P ->
  Store.selected fts table (Queries.searchQuery p) =
  option_map (List.filter P)
    (Store.selected fts table (Queries.searchQuery (withoutQuery p))).
Proof.
  intros Hf HP. rewrite !searchQuery_shape, Hf.
  change (textFilters (withoutQuery p)) with (@nil filter).
  change (categoryFilters (withoutQuery p)) with (categoryFilters p).
  change (tagFilters (withoutQuery p)) with (tagFilters p).
  change (windowOf (withoutQuery p)) with (windowOf p).
  exact (selected_cons
           (mkRequest "prompts" "*" (Some ("created_at", false)) [] (Some (windowOf p)))
           f (categoryFilters p ++ tagFilters p) P HP).
Qed.
End SearchOnStore.

(** ** Pagination and order *)

(** C4: for every criteria set whose limit [l] and offset [o] are valid
    (neither is negative and their sum is a safe integer), [searchPrompts]
    asks for the records from [o] to [o + l - 1], ordered by [created_at]
    descending and by nothing else; over the store the result is sorted that
    way and has at most [l] records: it is exactly the records at positions
    [o] to [o + l - 1] of the selected records sorted most recent first.
    An unset limit is 50 and an unset offset is 0. *)
Theorem pagination_window
        (fts : string -> option (string -> bool)) (table : list Row.t)
        (p : SearchParams.t) (l o : Z) :
  orDefault (JS.Int 50) (SearchParams.limit p) = JS.Int l ->
  orDefault (JS.Int 0) (SearchParams.offset p) = JS.Int o ->
  validWindow l o ->
  let result := value (Queries.searchPrompts (Store.client fts table) p) in
  r_order (Queries.searchQuery p) = Some ("created_at", false) /\
  r_range (Queries.searchQuery p) = Some (JS.Int o, JS.Int (o + l - 1)) /\
  StronglySorted newestFirst result /\
  (List.length result <= Z.to_nat l)%nat /\
  (forall found,
      Store.selected fts table (Queries.searchQuery p) = Some found ->
      Permutation (newestRows found) found /\
      StronglySorted (fun r s => newestFirst (Store.whole r) (Store.whole s))
                     (newestRows found) /\
      result = map Store.whole
                   (firstn (Z.to_nat l) (skipn (Z.to_nat o) (newestRows found))) /\
      (forall i, (i < Z.to_nat l)%nat ->
                 nth_error result i =
                 nth_error (map Store.whole (newestRows found)) (Z.to_nat o + i))) /\
  (forall supabase query category tags,
      Queries.searchPrompts supabase (SearchParams.mk query category tags None None) =
      Queries.searchPrompts supabase
        (SearchParams.mk query category tags (Some (JS.Int 50)) (Some (JS.Int 0)))).
Proof.
  intros Hl Ho Hv result.
  assert (Hres : result =
                 match Store.selected fts table (Queries.searchQuery p) with
                 | Some found =>
                     map Store.whole
                         (firstn (Z.to_nat l) (skipn (Z.to_nat o) (newestRows found)))
                 | None => []
                 end).
  { unfold result. rewrite searchPrompts_on_store.
    destruct (Store.selected fts table (Queries.searchQuery p)) as [found|];
      [|reflexivity].
    unfold windowOf. rewrite Hl, Ho, (page_window o l _ Hv). reflexivity. }
  split; [rewrite searchQuery_shape; reflexivity|].
  split.
  { rewrite searchQuery_shape. cbn [r_range]. unfold windowOf.
    rewrite Hl, Ho, (window_bounds o l Hv). reflexivity. }
  split; [|split; [|split]].
  - rewrite Hres.
    destruct (Store.selected fts table (Queries.searchQuery p)) as [found|];
      [|constructor].
    apply StronglySorted_map, StronglySorted_firstn, StronglySorted_skipn,
      newestRows_sorted.
  - rewrite Hres.
    destruct (Store.selected fts table (Queries.searchQuery p)) as [found|];
      [|simpl; lia].
    rewrite length_map. apply firstn_le_length.
  - intros found Hsel. rewrite Hsel in Hres.
    split; [apply sortBy_perm|]. split; [apply newestRows_sorted|].
    split; [exact Hres|].
    intros i Hi. rewrite Hres, <- firstn_map, <- skipn_map.
    rewrite nth_error_firstn.
    apply Nat.ltb_lt in Hi. rewrite Hi.
    apply nth_error_skipn.
  - reflexivity.
Qed.

Lemma pagination_window_witness :
  validWindow 2 2 /\
  Store.selected Sample.wordFts Sample.five
    (Queries.searchQuery
       (SearchParams.mk None None None (Some (JS.Int 2)) (Some (JS.Int 2))))
  = Some Sample.five /\
  r_range (Queries.searchQuery
             (SearchParams.mk None None None (Some (JS.Int 2)) (Some (JS.Int 2)))) =
  Some (JS.Int 2, JS.Int 3) /\
  map Prompt.id
      (value (Queries.searchPrompts (Store.client Sample.wordFts Sample.five)
                (SearchParams.mk None None None (Some (JS.Int 2)) (Some (JS.Int 2))))) =
  [Some 3%Z; Some 2%Z] /\
  value (Queries.searchPrompts (Store.client Sample.wordFts Sample.five)
           (SearchParams.mk None None None (Some (JS.Int 2)) (Some (JS.Int 2)))) =
  map Store.whole
      (firstn (Z.to_nat 2) (skipn (Z.to_nat 2) (newestRows Sample.five))).
Proof.
  assert (Hv : validWindow 2 2).
  { unfold validWindow, JS.MAX_SAFE_INTEGER. lia. }
  pose proof (pagination_window Sample.wordFts Sample.five
                (SearchParams.mk None None None (Some (JS.Int 2)) (Some (JS.Int 2)))
                2 2 eq_refl eq_refl Hv) as H.
  split; [exact Hv|]. split; [reflexivity|].
  split; [exact (proj1 (proj2 H))|]. split; [reflexivity|].
  exact (proj1 (proj2 (proj2
           (proj1 (proj2 (proj2 (proj2 (proj2 H)))) Sample.five eq_refl)))).
Defined.

(** ** The text filter *)

Lemma contains_like (q t : string) :
  containsIgnoringCase q t <->
  Store.like (Store.AnySeq :: map Store.Lit (list_ascii_of_string q) ++ [Store.AnySeq])
             (list_ascii_of_string t) = true.
Proof. rewrite like_contains. apply contains_chars. Qed.

(** C1, as stated, at two queries with a reserved character.  With the query
    [e%l] the record titled "Professional Email" is returned although its
    content does not match and its title does not contain [e%l]: the percent
    sign is a wildcard of the pattern.  With the query [questions,answers]
    the record titled "Questions,answers" is not returned although its title
    contains the query: the comma splits the filter expression, which the
    store rejects. *)
Lemma text_filter_reserved_characters :
  (exists m,
      Sample.wordFts "e%l" = Some m /\
      value (Queries.searchPrompts Sample.supabase
               (Sample.ask (Some "e%l") None None)) = [Store.whole Sample.email] /\
      ~ textMatch m "e%l" Sample.email) /\
  (exists m,
      Sample.wordFts "questions,answers" = Some m /\
      textMatch m "questions,answers" Sample.faq /\
      value (Queries.searchPrompts (Store.client Sample.wordFts [Sample.faq])
               (Sample.ask (Some "questions,answers") None None)) = []).
Proof.
  split; eexists; (split; [reflexivity|]).
  - split; [reflexivity|].
    intros [(c & Hc & Hm) | (t & Ht & Hin)].
    + injection Hc as <-. vm_compute in Hm. discriminate.
    + injection Ht as <-. apply contains_like in Hin. vm_compute in Hin. discriminate.
  - split; [|reflexivity].
    right. exists "Questions,answers". split; [reflexivity|].
    apply contains_like. reflexivity.
Qed.

(** C1 (amended): the text filter is in the query exactly when the trimmed
    [query] is not empty (otherwise the query is the one built without
    [query]); the trimmed query is the query without the white space at its
    two ends.  When the filter is there, the trimmed query [q] has no
    reserved character (comma, closing parenthesis, double quote, percent,
    star, underscore, backslash) and the store accepts [q] as a full-text
    query, the filter holds of a record if and only if its content matches
    [q] under the store's full-text search or its title contains [q] as a
    substring without regard to case; the records selected are those the
    other filters select that satisfy this disjunction, and every Prompt
    returned is one of them. *)
Theorem text_filter_policy
        (fts : string -> option (string -> bool)) (table : list Row.t)
        (p : SearchParams.t) :
  let q := activeText p in
  Trimmed (orDefault "" (SearchParams.query p)) q /\
  (q = "" -> Queries.searchQuery p = Queries.searchQuery (withoutQuery p)) /\
  (q <> "" ->
   r_filters (Queries.searchQuery p) =
   FilterOr (Queries.textFilter q) :: r_filters (Queries.searchQuery (withoutQuery p))) /\
  (forall m,
      q <> "" -> plain q = true -> fts q = Some m ->
      exists P,
        Store.holds fts (FilterOr (Queries.textFilter q)) = Some P /\
        (forall r, P r = true <-> textMatch m q r) /\
        Store.selected fts table (Queries.searchQuery p) =
        option_map (List.filter P)
          (Store.selected fts table (Queries.searchQuery (withoutQuery p))) /\
        (forall x,
            In x (value (Queries.searchPrompts (Store.client fts table) p)) ->
            exists others r,
              Store.selected fts table (Queries.searchQuery (withoutQuery p)) = Some others /\
              In r others /\ x = Store.whole r /\ textMatch m q r)).
Proof.
  intros q.
  assert (Hshape : forall fs,
             textFilters p = fs ->
             Queries.searchQuery p =
             mkRequest (r_from (Queries.searchQuery (withoutQuery p)))
                       (r_select (Queries.searchQuery (withoutQuery p)))
                       (r_order (Queries.searchQuery (withoutQuery p)))
                       (fs ++ r_filters (Queries.searchQuery (withoutQuery p)))
                       (r_range (Queries.searchQuery (withoutQuery p)))).
  { intros fs <-. rewrite !searchQuery_shape. reflexivity. }
  assert (Hq : q <> "" -> textFilters p = [FilterOr (Queries.textFilter q)]).
  { intros Hne. unfold textFilters. fold q.
    destruct (String.eqb_spec q ""); [contradiction | reflexivity]. }
  split; [apply trim_spec|]. split; [|split].
  - intros Hempty. rewrite (Hshape []).
    + destruct (Queries.searchQuery (withoutQuery p)); reflexivity.
    + unfold textFilters. fold q. rewrite Hempty. reflexivity.
  - intros Hne. rewrite (Hshape _ (Hq Hne)). reflexivity.
  - intros m Hne Hplain Hm.
    destruct (textFilter_denotes fts q m Hplain Hm) as (P & HP & Hiff).
    pose proof (selected_without_text fts table p _ P (Hq Hne) HP) as Hsel.
    exists P. repeat (split; [assumption|]).
    intros x Hx. apply returned_selected in Hx.
    destruct Hx as (found & r & Hfound & Hr & ->).
    rewrite Hsel in Hfound.
    destruct (Store.selected fts table (Queries.searchQuery (withoutQuery p)))
      as [others|]; [|discriminate].
    cbn [option_map] in Hfound. injection Hfound as <-.
    apply filter_In in Hr. destruct Hr as [Hr HPr].
    exists others, r. repeat split; [exact Hr | apply Hiff, HPr].
Qed.

Lemma text_filter_policy_witness :
  exists m,
    activeText Sample.emailSearch <> "" /\
    plain (activeText Sample.emailSearch) = true /\
    Sample.wordFts (activeText Sample.emailSearch) = Some m /\
    Store.selected Sample.wordFts Sample.table
      (Queries.searchQuery (withoutQuery Sample.emailSearch)) = Some Sample.table /\
    exists P,
      Store.holds Sample.wordFts
        (FilterOr (Queries.textFilter (activeText Sample.emailSearch))) = Some P /\
      (forall r, P r = true <-> textMatch m (activeText Sample.emailSearch) r) /\
      Store.selected Sample.wordFts Sample.table
        (Queries.searchQuery Sample.emailSearch) =
      option_map (List.filter P)
        (Store.selected Sample.wordFts Sample.table
           (Queries.searchQuery (withoutQuery Sample.emailSearch))) /\
      (forall x,
          In x (value (Queries.searchPrompts
                         (Store.client Sample.wordFts Sample.table) Sample.emailSearch)) ->
          exists others r,
            Store.selected Sample.wordFts Sample.table
              (Queries.searchQuery (withoutQuery Sample.emailSearch)) = Some others /\
            In r others /\ x = Store.whole r /\
            textMatch m (activeText Sample.emailSearch) r).
Proof.
  assert (H : activeText Sample.emailSearch <> "") by (vm_compute; discriminate).
  eexists. split; [exact H|]. split; [reflexivity|]. split; [reflexivity|].
  split; [reflexivity|].
  exact (proj2 (proj2 (proj2
           (text_filter_policy Sample.wordFts Sample.table Sample.emailSearch)))
           _ H eq_refl eq_refl).
Defined.

(** ** The category and tag filters *)

Lemma selected_In (fts : string -> option (string -> bool)) (table : list Row.t)
      (q : request) (found : list Row.t) (r : Row.t) :
  Store.selected fts table q = Some found -> In r found -> In r table.
Proof.
  unfold Store.selected. destruct (r_from q =? "prompts"); [|discriminate].
  destruct (Store.where_ fts (r_filters q)) as [P|]; [|discriminate].
  intros [= <-] H. apply filter_In in H. apply H.
Qed.

Lemma narrowed_In (fts : string -> option (string -> bool)) (table : list Row.t)
      (q q' : request) (P : Row.t -> bool) (found : list Row.t) (r : Row.t) :
  Store.selected fts table q = option_map (List.filter P) (Store.selected fts table q') ->
  Store.selected fts table q = Some found -> In r found ->
  In r table /\ P r = true.
Proof.
  intros Heq Hsel Hr. rewrite Hsel in Heq.
  destruct (Store.selected fts table q') as [found'|] eqn:Hq'; [|discriminate].
  cbn [option_map] in Heq. injection Heq as ->.
  apply filter_In in Hr. destruct Hr as [Hr HP].
  split; [exact (selected_In fts table q' found' r Hq' Hr) | exact HP].
Qed.

(** C3: the category filter is in the query exactly when the trimmed
    [category] is not empty (otherwise the query is the one built without
    [category]); the trimmed category is the category without the white
    space at its two ends.  The filter holds of a record if and only if the
    record's category is the trimmed category, character for character; the
    records selected are those the other filters select that have this
    category, and every Prompt returned has it.  Asking for "Writing",
    also with white space around it, does not return a record filed under
    "writing"; a category of white space only is no category. *)
Theorem category_filter_exact
        (fts : string -> option (string -> bool)) (table : list Row.t)
        (p : SearchParams.t) :
  let c := activeCategory p in
  Trimmed (orDefault "" (SearchParams.category p)) c /\
  (c = "" -> Queries.searchQuery p = Queries.searchQuery (withoutCategory p)) /\
  (c <> "" ->
   exists P,
     Store.holds fts (FilterEq "category" (SText c)) = Some P /\
     (forall r, P r = true <-> Row.category r = Some c) /\
     In (FilterEq "category" (SText c)) (r_filters (Queries.searchQuery p)) /\
     Store.selected fts table (Queries.searchQuery p) =
     option_map (List.filter P)
       (Store.selected fts table (Queries.searchQuery (withoutCategory p))) /\
     (forall x,
         In x (value (Queries.searchPrompts (Store.client fts table) p)) ->
         exists r, In r table /\ x = Store.whole r /\ Row.category r = Some c)) /\
  value (Queries.searchPrompts (Store.client fts [Sample.note; Sample.essay])
           (Sample.ask None (Some "Writing") None)) = [Store.whole Sample.essay] /\
  value (Queries.searchPrompts (Store.client fts [Sample.note; Sample.essay])
           (Sample.ask None (Some Sample.padded) None)) = [Store.whole Sample.essay] /\
  Queries.searchQuery (Sample.ask None (Some Sample.blank) None) =
  Queries.searchQuery (Sample.ask None None None).
Proof.
  intros c. split; [apply trim_spec|].
  split; [|split; [|split; [reflexivity | split; reflexivity]]].
  - intros Hempty. rewrite !searchQuery_shape.
    unfold categoryFilters. fold c. rewrite Hempty. reflexivity.
  - intros Hne.
    assert (HP : forall r, Store.onText Row.category (String.eqb c) r = true <->
                           Row.category r = Some c).
    { intros r. unfold Store.onText. destruct (Row.category r) as [d|].
      - rewrite String.eqb_eq. split; congruence.
      - split; discriminate. }
    assert (Hfs : categoryFilters p = [FilterEq "category" (SText c)]).
    { unfold categoryFilters. fold c.
      destruct (String.eqb_spec c ""); [contradiction | reflexivity]. }
    assert (Hsel : Store.selected fts table (Queries.searchQuery p) =
                   option_map (List.filter (Store.onText Row.category (String.eqb c)))
                     (Store.selected fts table (Queries.searchQuery (withoutCategory p)))).
    { rewrite !searchQuery_shape, Hfs.
      apply (selected_narrow fts table
               (mkRequest "prompts" "*" (Some ("created_at", false)) [] (Some (windowOf p)))
               (textFilters p) (tagFilters p)).
      reflexivity. }
    exists (Store.onText Row.category (String.eqb c)).
    split; [reflexivity|]. split; [exact HP|]. split; [|split; [exact Hsel|]].
    + rewrite searchQuery_shape, Hfs. cbn [r_filters].
      apply in_or_app. right. left. reflexivity.
    + intros x Hx. apply returned_selected in Hx.
      destruct Hx as (found & r & Hfound & Hr & ->).
      destruct (narrowed_In fts table _ _ _ found r Hsel Hfound Hr) as [Ht Hc].
      exists r. repeat split; [exact Ht | apply HP, Hc].
Qed.

Lemma category_filter_exact_witness :
  activeCategory (Sample.ask None (Some Sample.padded) None) = "Writing" /\
  activeCategory (Sample.ask None (Some Sample.padded) None) <> "" /\
  exists P,
    Store.holds Sample.wordFts (FilterEq "category" (SText "Writing")) = Some P /\
    (forall r, P r = true <-> Row.category r = Some "Writing") /\
    In (FilterEq "category" (SText "Writing"))
       (r_filters (Queries.searchQuery (Sample.ask None (Some Sample.padded) None))).
Proof.
  assert (H : activeCategory (Sample.ask None (Some Sample.padded) None) <> "")
    by (vm_compute; discriminate).
  split; [reflexivity|]. split; [exact H|].
  destruct (proj1 (proj2 (proj2
              (category_filter_exact Sample.wordFts Sample.table
                 (Sample.ask None (Some Sample.padded) None)))) H)
    as (P & HP & Hiff & Hin & _).
  exists P. split; [exact HP|]. split; [exact Hiff | exact Hin].
Defined.

Lemma contains_holds (ts : list string) (r : Row.t) :
  match Row.tags r with
  | Some rt =>
      forallb (fun v => match v with
                        | Some t => existsb (String.eqb t) rt
                        | None => false
                        end) (map Some ts)
  | None => false
  end = true <-> hasAllTags ts r.
Proof.
  unfold hasAllTags. destruct (Row.tags r) as [rt|].
  - rewrite forallb_forall. split.
    + intros H. exists rt. split; [reflexivity|].
      intros t Ht. apply (existsb_eqb String.eqb String.eqb_eq).
      apply (H (Some t)), in_map, Ht.
    + intros (rt' & [= <-] & H) v Hv. apply in_map_iff in Hv.
      destruct Hv as (t & <- & Ht).
      apply (existsb_eqb String.eqb String.eqb_eq), H, Ht.
  - split; [discriminate | intros (rt' & E & _); discriminate].
Qed.

(** C2, as stated, at tags with a character of the array literal.  Asked
    for the one tag [a,b], the store reads the two tags a and b, and the
    record tagged a, b, c is returned although none of its tags is [a,b].
    Asked for the tag [a}], it cannot read the literal: nothing is
    returned, although a record carries this very tag. *)
Lemma tag_filter_reserved_characters :
  value (Queries.searchPrompts (Store.client Sample.wordFts [Sample.note; Sample.essay])
           (Sample.ask None None (Some ["a,b"]))) = [Store.whole Sample.essay] /\
  ~ hasAllTags ["a,b"] Sample.essay /\
  hasAllTags ["a}"] Sample.braced /\
  value (Queries.searchPrompts (Store.client Sample.wordFts [Sample.braced])
           (Sample.ask None None (Some ["a}"]))) = [].
Proof.
  split; [reflexivity|]. split; [|split; [|reflexivity]].
  - intros (ts & [= <-] & H).
    destruct (H "a,b" (or_introl eq_refl)) as [E|[E|[E|[]]]]; discriminate.
  - exists ["a}"]. split; [reflexivity|]. intros t Ht. exact Ht.
Qed.

(** C2 (amended): the tag filter is in the query exactly when the requested
    [tags] are not empty (otherwise the query is the one built without
    [tags]), and it carries them joined by commas between braces.  When
    every requested tag is plain (not empty, without comma, brace, double
    quote or backslash, without a space, tab or line break at either end,
    and not the word NULL), the filter holds of a record if and only if the
    record's tags include every requested tag; the records selected are
    those the other filters select that include them all, and every Prompt
    returned does.  A record tagged a, b, c is returned for the request
    a, b; a record tagged a is not. *)
Theorem tag_filter_superset
        (fts : string -> option (string -> bool)) (table : list Row.t)
        (p : SearchParams.t) :
  let ts := activeTags p in
  (ts = [] -> Queries.searchQuery p = Queries.searchQuery (withoutTags p)) /\
  (ts <> [] ->
   r_filters (Queries.searchQuery p) =
   r_filters (Queries.searchQuery (withoutTags p))
   ++ [FilterContains "tags" ("{" ++ String.concat "," ts ++ "}")]) /\
  (ts <> [] -> Forall (fun t => plainTag t = true) ts ->
   exists P,
     Store.holds fts (FilterContains "tags" ("{" ++ String.concat "," ts ++ "}")) = Some P /\
     (forall r, P r = true <-> hasAllTags ts r) /\
     Store.selected fts table (Queries.searchQuery p) =
     option_map (List.filter P)
       (Store.selected fts table (Queries.searchQuery (withoutTags p))) /\
     (forall x,
         In x (value (Queries.searchPrompts (Store.client fts table) p)) ->
         exists r, In r table /\ x = Store.whole r /\ hasAllTags ts r)) /\
  value (Queries.searchPrompts (Store.client fts [Sample.note; Sample.essay])
           (Sample.ask None None (Some ["a"; "b"]))) = [Store.whole Sample.essay].
Proof.
  intros ts.
  assert (Hfs : ts <> [] ->
                tagFilters p = [FilterContains "tags" (Builder.arrayLiteral ts)]).
  { intros Hne. unfold tagFilters. fold ts. destruct ts; [contradiction | reflexivity]. }
  split; [|split; [|split; [|reflexivity]]].
  - intros Hempty. rewrite !searchQuery_shape.
    unfold tagFilters. fold ts. rewrite Hempty. reflexivity.
  - intros Hne. rewrite !searchQuery_shape, (Hfs Hne). cbn [r_filters].
    change (tagFilters (withoutTags p)) with (@nil filter).
    rewrite app_nil_r, app_assoc. reflexivity.
  - intros Hne Hplain.
    pose (P := fun r : Row.t =>
                 match Row.tags r with
                 | Some rt =>
                     forallb (fun v => match v with
                                       | Some t => existsb (String.eqb t) rt
                                       | None => false
                                       end) (map Some ts)
                 | None => false
                 end).
    assert (HP : Store.holds fts (FilterContains "tags" (Builder.arrayLiteral ts)) = Some P).
    { cbn [Store.holds]. change ("tags" =? "tags") with true. cbv iota.
      rewrite (readLiteral_plain ts Hne Hplain). reflexivity. }
    assert (Hsel : Store.selected fts table (Queries.searchQuery p) =
                   option_map (List.filter P)
                     (Store.selected fts table (Queries.searchQuery (withoutTags p)))).
    { rewrite !searchQuery_shape, (Hfs Hne).
      change (tagFilters (withoutTags p)) with (@nil filter).
      change (textFilters (withoutTags p)) with (textFilters p).
      change (categoryFilters (withoutTags p)) with (categoryFilters p).
      change (windowOf (withoutTags p)) with (windowOf p).
      rewrite !app_assoc.
      exact (selected_narrow fts table
               (mkRequest "prompts" "*" (Some ("created_at", false)) [] (Some (windowOf p)))
               (textFilters p ++ categoryFilters p) []
               (FilterContains "tags" (Builder.arrayLiteral ts)) P HP). }
    exists P. split; [exact HP|]. split; [intros r; apply contains_holds|].
    split; [exact Hsel|].
    intros x Hx. apply returned_selected in Hx.
    destruct Hx as (found & r & Hfound & Hr & ->).
    destruct (narrowed_In fts table _ _ _ found r Hsel Hfound Hr) as [Ht Hc].
    exists r. repeat split; [exact Ht | apply contains_holds, Hc].
Qed.

Lemma tag_filter_superset_witness :
  activeTags (Sample.ask None None (Some ["email"; "business"])) <> [] /\
  Forall (fun t => plainTag t = true) ["email"; "business"] /\
  exists P,
    Store.holds Sample.wordFts (FilterContains "tags" "{email,business}") = Some P /\
    (forall r, P r = true <-> hasAllTags ["email"; "business"] r).
Proof.
  assert (H : activeTags (Sample.ask None None (Some ["email"; "business"])) <> [])
    by (vm_compute; discriminate).
  assert (Hplain : Forall (fun t => plainTag t = true) ["email"; "business"])
    by (repeat constructor).
  split; [exact H|]. split; [exact Hplain|].
  destruct (proj1 (proj2 (proj2
              (tag_filter_superset Sample.wordFts Sample.table
                 (Sample.ask None None (Some ["email"; "business"]))))) H Hplain)
    as (P & HP & Hiff & _).
  exists P. split; [exact HP | exact Hiff].
Defined.

(** ** Failures *)

(** C5: whatever the client, when the round trip of an operation reports an
    error or throws, [searchPrompts] returns the empty sequence,
    [getPromptCount] returns 0, [getCategories] and [getTags] return empty
    sequences, each after writing a line to the console; the value returned
    is the one returned for a successful empty answer, and the /api/prompts
    route built on a failing search still answers 200. *)
Theorem fail_soft (supabase : Client) (p : SearchParams.t) :
  (failing (awaitRows supabase (Queries.searchQuery p)) ->
   value (Queries.searchPrompts supabase p) = [] /\
   logged (Queries.searchPrompts supabase p) <> []) /\
  (failing (awaitCount supabase Queries.countQuery) ->
   value (Queries.getPromptCount supabase) = 0%nat /\
   logged (Queries.getPromptCount supabase) <> []) /\
  (failing (awaitRows supabase Queries.categoriesQuery) ->
   value (Queries.getCategories supabase) = [] /\
   logged (Queries.getCategories supabase) <> []) /\
  (failing (awaitRows supabase Queries.tagsQuery) ->
   value (Queries.getTags supabase) = [] /\
   logged (Queries.getTags supabase) <> []) /\
  (forall quiet : Client,
      failing (awaitRows supabase (Queries.searchQuery p)) ->
      awaitRows quiet (Queries.searchQuery p) = Returned (mkResponse (Some []) None None) ->
      value (Queries.searchPrompts supabase p) = value (Queries.searchPrompts quiet p)) /\
  (forall quiet : Client,
      failing (awaitCount supabase Queries.countQuery) ->
      awaitCount quiet Queries.countQuery = Returned (mkResponse None None (Some 0%nat)) ->
      value (Queries.getPromptCount supabase) = value (Queries.getPromptCount quiet)) /\
  (forall URL url searchParams,
      URL url = Returned searchParams ->
      failing (awaitRows supabase
                 (Queries.searchQuery
                    (PromptsRoute.toParams (PromptsRoute.parseQuery searchParams)))) ->
      value (App.prompts supabase URL url) =
      PromptsRoute.json
        (PromptsRoute.Success [] 0 (PromptsRoute.parseQuery searchParams)) 200).
Proof.
  assert (Hsearch : forall q, failing (awaitRows supabase (Queries.searchQuery q)) ->
                              value (Queries.searchPrompts supabase q) = [] /\
                              logged (Queries.searchPrompts supabase q) <> []).
  { intros q. unfold Queries.searchPrompts, failing.
    destruct (awaitRows supabase (Queries.searchQuery q)) as [r|err].
    - destruct (error r); [split; [reflexivity | discriminate] | congruence].
    - split; [reflexivity | discriminate]. }
  assert (Hcount : failing (awaitCount supabase Queries.countQuery) ->
                   value (Queries.getPromptCount supabase) = 0%nat /\
                   logged (Queries.getPromptCount supabase) <> []).
  { unfold Queries.getPromptCount, failing.
    destruct (awaitCount supabase Queries.countQuery) as [r|err].
    - destruct (error r); [split; [reflexivity | discriminate] | congruence].
    - split; [reflexivity | discriminate]. }
  split; [apply Hsearch|]. split; [exact Hcount|]. split; [|split].
  - unfold Queries.getCategories, failing.
    destruct (awaitRows supabase Queries.categoriesQuery) as [r|err].
    + destruct (error r); [split; [reflexivity | discriminate] | congruence].
    + split; [reflexivity | discriminate].
  - unfold Queries.getTags, failing.
    destruct (awaitRows supabase Queries.tagsQuery) as [r|err].
    + destruct (error r); [split; [reflexivity | discriminate] | congruence].
    + split; [reflexivity | discriminate].
  - split; [|split].
    + intros quiet Hfail Hquiet. rewrite (proj1 (Hsearch p Hfail)).
      unfold Queries.searchPrompts. rewrite Hquiet. reflexivity.
    + intros quiet Hfail Hquiet. rewrite (proj1 (Hcount Hfail)).
      unfold Queries.getPromptCount. rewrite Hquiet. reflexivity.
    + intros URL url searchParams Hurl Hfail.
      unfold App.prompts, PromptsRoute.GET. rewrite Hurl.
      destruct (Hsearch _ Hfail) as [Hv _].
      destruct (Queries.searchPrompts supabase
                  (PromptsRoute.toParams (PromptsRoute.parseQuery searchParams)))
        as [prompts lines].
      cbn in Hv. subst prompts. reflexivity.
Qed.

Lemma fail_soft_witness :
  failing (awaitRows Sample.offline (Queries.searchQuery Sample.emailSearch)) /\
  failing (awaitCount Sample.offline Queries.countQuery) /\
  failing (awaitRows Sample.offline Queries.categoriesQuery) /\
  failing (awaitRows Sample.offline Queries.tagsQuery) /\
  value (Queries.searchPrompts Sample.offline Sample.emailSearch) = [] /\
  value (Queries.getPromptCount Sample.offline) = 0%nat /\
  value (Queries.getCategories Sample.offline) = [] /\
  value (Queries.getTags Sample.offline) = [].
Proof.
  repeat (split; [exact I|]).
  split; [exact (proj1 (proj1 (fail_soft Sample.offline Sample.emailSearch) I))|].
  split; [exact (proj1 (proj1 (proj2 (fail_soft Sample.offline Sample.emailSearch)) I))|].
  split.
  - exact (proj1 (proj1 (proj2 (proj2 (fail_soft Sample.offline Sample.emailSearch))) I)).
  - exact (proj1 (proj1 (proj2 (proj2 (proj2
             (fail_soft Sample.offline Sample.emailSearch)))) I)).
Defined.

(** ** Lookup by id *)

Lemma lookup_rows (fts : string -> option (string -> bool)) (table : list Row.t) (i : Z) :
  Store.rows fts table (Queries.byIdQuery i) =
  Some (map Store.whole (List.filter (fun r => Z.eqb (Row.id r) i) table)).
Proof.
  unfold Store.rows, Store.selected, Store.where_. cbn.
  f_equal. f_equal. apply filter_ext. intros r. apply andb_true_r.
Qed.

Lemma filter_unique (table : list Row.t) (r : Row.t) :
  NoDup (map Row.id table) -> In r table ->
  List.filter (fun x => Z.eqb (Row.id x) (Row.id r)) table = [r].
Proof.
  induction table as [|x table IH]; intros Hnd Hin; [contradiction|].
  simpl in Hnd. inversion Hnd as [|? ? Hx Hrest]; subst.
  assert (Hnone : forall l, ~ In (Row.id r) (map Row.id l) ->
                            List.filter (fun y => Z.eqb (Row.id y) (Row.id r)) l = []).
  { induction l as [|y l IHl]; intros Hno; simpl; [reflexivity|].
    destruct (Z.eqb_spec (Row.id y) (Row.id r)) as [E|_].
    - exfalso. apply Hno. left. exact E.
    - apply IHl. intros H. apply Hno. right. exact H. }
  destruct Hin as [->|Hin]; simpl.
  - rewrite Z.eqb_refl, (Hnone table Hx). reflexivity.
  - destruct (Z.eqb_spec (Row.id x) (Row.id r)) as [E|_].
    + exfalso. apply Hx. rewrite E. apply in_map, Hin.
    + apply IH; assumption.
Qed.

(** C7: over a table whose ids are unique, [getPromptById] returns the
    record whose id is the given one, and the absent result when the table
    has none; whatever the client, it returns the absent result when the
    round trip reports an error or throws, so the two cannot be told apart. *)
Theorem lookup_by_id
        (fts : string -> option (string -> bool)) (table : list Row.t) (i : Z) :
  (NoDup (map Row.id table) ->
   forall r, In r table -> Row.id r = i ->
             value (Queries.getPromptById (Store.client fts table) i) =
             Some (Store.whole r)) /\
  ((forall r, In r table -> Row.id r <> i) ->
   value (Queries.getPromptById (Store.client fts table) i) = None) /\
  (forall supabase : Client,
      failing (awaitSingle supabase (Queries.byIdQuery i)) ->
      value (Queries.getPromptById supabase i) = None).
Proof.
  split; [|split].
  - intros Hnd r Hin <-.
    unfold Queries.getPromptById, Store.client. cbn [awaitSingle].
    rewrite lookup_rows, (filter_unique table r Hnd Hin). reflexivity.
  - intros Hnone.
    unfold Queries.getPromptById, Store.client. cbn [awaitSingle].
    rewrite lookup_rows.
    assert (List.filter (fun r => Z.eqb (Row.id r) i) table = []) as ->.
    { clear - Hnone. induction table as [|x table IH]; simpl; [reflexivity|].
      destruct (Z.eqb_spec (Row.id x) i) as [E|_].
      - exfalso. apply (Hnone x); [left; reflexivity | exact E].
      - apply IH. intros r Hr. apply Hnone. right. exact Hr. }
    reflexivity.
  - intros supabase. unfold Queries.getPromptById, failing.
    destruct (awaitSingle supabase (Queries.byIdQuery i)) as [r|err]; [|reflexivity].
    destruct (error r); [reflexivity | congruence].
Qed.

Lemma lookup_by_id_witness :
  NoDup (map Row.id Sample.table) /\
  In Sample.review Sample.table /\
  value (Queries.getPromptById Sample.supabase 2) = Some (Store.whole Sample.review) /\
  value (Queries.getPromptById Sample.supabase 9) = None /\
  value (Queries.getPromptById Sample.offline 2) = None.
Proof.
  assert (Hnd : NoDup (map Row.id Sample.table)).
  { repeat constructor; simpl; intuition discriminate. }
  assert (Hin : In Sample.review Sample.table) by (right; left; reflexivity).
  split; [exact Hnd|]. split; [exact Hin|].
  split; [exact (proj1 (lookup_by_id Sample.wordFts Sample.table 2) Hnd
                   Sample.review Hin eq_refl)|].
  split.
  - apply (proj1 (proj2 (lookup_by_id Sample.wordFts Sample.table 9))).
    intros r [<-|[<-|[]]]; discriminate.
  - exact (proj2 (proj2 (lookup_by_id Sample.wordFts Sample.table 2)) Sample.offline I).
Defined.

(** ** Vocabularies *)

Lemma setAdd_Some (acc xs : list string) :
  JS.setAdd (JS.option_beq String.eqb) (map Some acc) (map Some xs) =
  map Some (JS.setAdd String.eqb acc xs).
Proof.
  revert acc. induction xs as [|x xs IH]; intros acc; simpl; [reflexivity|].
  assert (existsb (JS.option_beq String.eqb (Some x)) (map Some acc) =
          existsb (String.eqb x) acc) as ->.
  { induction acc as [|a acc IHa]; simpl; [reflexivity | now rewrite IHa]. }
  destruct (existsb (String.eqb x) acc); [apply IH|].
  rewrite <- IH, map_app. reflexivity.
Qed.

Lemma sort_Some (l : list string) :
  JS.sort JS.toString (map Some l) = map Some (JS.sort (fun s => s) l).
Proof.
  unfold JS.sort. induction l as [|x l IH]; simpl; [reflexivity|].
  rewrite IH. generalize (JS.sortBy (fun a b => JS.leb a b) l). intros sorted.
  induction sorted as [|y sorted IHs]; simpl; [reflexivity|].
  destruct (JS.leb x y); simpl; [reflexivity | now rewrite IHs].
Qed.

Section VocabularyRows.
Variable fts : string -> option (string -> bool).
Variable table : list Row.t.

Lemma categories_data :
  awaitRows (Store.client fts table) Queries.categoriesQuery =
  Returned
    (mkResponse
       (Some (map (fun r => Prompt.mk None None None (Row.category r) None None)
                  (List.filter
                     (fun r => match Row.category r with Some _ => true | None => false end)
                     table)))
       None None).
Proof.
  unfold Store.client, Store.rows, Store.selected, Store.where_. cbn.
  do 4 f_equal. apply filter_ext. intros r.
  destruct (Row.category r); reflexivity.
Qed.

Lemma tags_data :
  awaitRows (Store.client fts table) Queries.tagsQuery =
  Returned
    (mkResponse
       (Some (map (fun r => Prompt.mk None None None None (Row.tags r) None)
                  (List.filter
                     (fun r => match Row.tags r with Some _ => true | None => false end)
                     table)))
       None None).
Proof.
  unfold Store.client, Store.rows, Store.selected, Store.where_. cbn.
  do 4 f_equal. apply filter_ext. intros r.
  destruct (Row.tags r); reflexivity.
Qed.

Lemma categories_read :
  map Prompt.category
      (map (fun r => Prompt.mk None None None (Row.category r) None None)
           (List.filter
              (fun r => match Row.category r with Some _ => true | None => false end)
              table)) =
  map Some (categoriesOf table).
Proof.
  unfold categoriesOf. induction table as [|r rest IH]; simpl; [reflexivity|].
  destruct (Row.category r) as [c|] eqn:E; simpl; rewrite ?E, IH; reflexivity.
Qed.

Lemma tags_read :
  flat_map (fun item => orDefault [] (Prompt.tags item))
           (map (fun r => Prompt.mk None None None None (Row.tags r) None)
                (List.filter
                   (fun r => match Row.tags r with Some _ => true | None => false end)
                   table)) =
  tagsOf table.
Proof.
  unfold tagsOf. induction table as [|r rest IH]; simpl; [reflexivity|].
  destruct (Row.tags r) as [ts|] eqn:E; simpl; rewrite ?E, IH; reflexivity.
Qed.
End VocabularyRows.


(** ** The routes *)

(** The handler reads the parameters as the interface documents them. *)
Lemma parseQuery_documented (searchParams : list (string * string)) :
  PromptsRoute.parseQuery searchParams =
  PromptsRoute.mkEcho
    (orDefault "" (parameter "query" searchParams))
    (parameter "category" searchParams)
    (segmentsOf (orDefault "" (parameter "tags" searchParams)))
    (JS.parseInt (orDefault "50" (parameter "limit" searchParams)))
    (JS.parseInt (orDefault "0" (parameter "offset" searchParams))).
Proof.
  unfold PromptsRoute.parseQuery, parameter.
  destruct (PromptsRoute.get "query" searchParams) as [[|? ?]|];
    destruct (PromptsRoute.get "category" searchParams) as [[|? ?]|];
    destruct (PromptsRoute.get "tags" searchParams) as [[|? ?]|];
    destruct (PromptsRoute.get "limit" searchParams) as [[|? ?]|];
    destruct (PromptsRoute.get "offset" searchParams) as [[|? ?]|];
    reflexivity.
Qed.

Lemma parameter_given (name : string) (searchParams : list (string * string)) :
  (parameter name searchParams = None <->
   PromptsRoute.get name searchParams = None \/
   PromptsRoute.get name searchParams = Some "") /\
  (forall v, parameter name searchParams = Some v <->
             PromptsRoute.get name searchParams = Some v /\ v <> "").
Proof.
  unfold parameter. destruct (PromptsRoute.get name searchParams) as [[|c v']|].
  - split; [split; auto|]. intros v. split; [discriminate|]. intros [[= <-] H]. contradiction.
  - split.
    + split; [discriminate | intros [H|H]; discriminate].
    + intros v. split; [intros [= <-]; split; [reflexivity | discriminate] | intros [H _]; exact H].
  - split; [split; auto|]. intros v. split; [discriminate | intros [H _]; discriminate].
Qed.

(** C8: when the URL parses and the search returns, GET /api/prompts answers
    200 with the prompts found, [count] their number and [query] the
    parameters as read: [query] is the text given or the empty string,
    [category] the text given or null, [tags] the trimmed non-empty segments
    of the text given, [limit] and [offset] what [parseInt] reads in the text
    given or in "50" and "0", a parameter given empty counting as not given;
    a 200 answer always comes about this way.  [limit] and [offset] are
    whatever [parseInt] reads, negative numbers, NaN and rounded numbers
    included, and reach [searchPrompts] unchanged. *)
Theorem prompts_route_success
        (URL : string -> outcome (list (string * string)))
        (searchPrompts : SearchParams.t -> outcome (Logged (list Prompt.t)))
        (url : string) :
  let query := fun searchParams => orDefault "" (parameter "query" searchParams) in
  let category := fun searchParams => parameter "category" searchParams in
  let tags :=
    fun searchParams => segmentsOf (orDefault "" (parameter "tags" searchParams)) in
  let limit :=
    fun searchParams => JS.parseInt (orDefault "50" (parameter "limit" searchParams)) in
  let offset :=
    fun searchParams => JS.parseInt (orDefault "0" (parameter "offset" searchParams)) in
  let echo :=
    fun searchParams =>
      PromptsRoute.mkEcho (query searchParams) (category searchParams) (tags searchParams)
                          (limit searchParams) (offset searchParams) in
  let criteria :=
    fun searchParams =>
      SearchParams.mk (Some (query searchParams)) (category searchParams)
                      (Some (tags searchParams))
                      (Some (limit searchParams)) (Some (offset searchParams)) in
  (forall searchParams found,
      URL url = Returned searchParams ->
      searchPrompts (criteria searchParams) = Returned found ->
      value (PromptsRoute.GET URL searchPrompts url) =
      PromptsRoute.json
        (PromptsRoute.Success (value found) (List.length (value found)) (echo searchParams))
        200) /\
  (PromptsRoute.status (value (PromptsRoute.GET URL searchPrompts url)) = 200%nat ->
   exists searchParams found,
     URL url = Returned searchParams /\
     searchPrompts (criteria searchParams) = Returned found) /\
  (forall name searchParams,
      (parameter name searchParams = None <->
       PromptsRoute.get name searchParams = None \/
       PromptsRoute.get name searchParams = Some "") /\
      (forall v, parameter name searchParams = Some v <->
                 PromptsRoute.get name searchParams = Some v /\ v <> "")) /\
  echo [] = PromptsRoute.mkEcho "" None [] (JS.Int 50) (JS.Int 0) /\
  echo [("query", "email"); ("category", "Writing"); ("tags", "a, ,b,");
        ("limit", "20"); ("offset", "40")] =
  PromptsRoute.mkEcho "email" (Some "Writing") ["a"; "b"] (JS.Int 20) (JS.Int 40) /\
  echo [("limit", "-5"); ("offset", "abc")] =
  PromptsRoute.mkEcho "" None [] (JS.Int (-5)) JS.NaN /\
  echo [("limit", "12px"); ("offset", "")] =
  PromptsRoute.mkEcho "" None [] (JS.Int 12) (JS.Int 0) /\
  echo [("limit", "9007199254740993"); ("offset", (Sample.nbsp ++ " 7")%string)] =
  PromptsRoute.mkEcho "" None [] (JS.Int 9007199254740992) (JS.Int 7) /\
  (forall (supabase : Client) searchParams,
      URL url = Returned searchParams ->
      value (App.prompts supabase URL url) =
      PromptsRoute.json
        (PromptsRoute.Success
           (value (Queries.searchPrompts supabase (criteria searchParams)))
           (List.length (value (Queries.searchPrompts supabase (criteria searchParams))))
           (echo searchParams))
        200).
Proof.
  intros query category tags limit offset echo criteria.
  assert (Hecho : forall searchParams,
             PromptsRoute.parseQuery searchParams = echo searchParams)
    by (intros searchParams; apply parseQuery_documented).
  assert (Hcrit : forall searchParams,
             PromptsRoute.toParams (PromptsRoute.parseQuery searchParams) =
             criteria searchParams)
    by (intros searchParams; rewrite parseQuery_documented; reflexivity).
  assert (Hok : forall search searchParams found,
             URL url = Returned searchParams ->
             search (criteria searchParams) = Returned found ->
             value (PromptsRoute.GET URL search url) =
             PromptsRoute.json
               (PromptsRoute.Success (value found) (List.length (value found))
                                     (echo searchParams))
               200).
  { intros search searchParams found Hurl Hfound.
    unfold PromptsRoute.GET. rewrite Hurl, Hcrit, Hfound, Hecho.
    destruct found as [prompts lines]. reflexivity. }
  split; [apply Hok|]. split; [|split; [intros; apply parameter_given|]].
  - unfold PromptsRoute.GET.
    destruct (URL url) as [searchParams|err]; [|cbn; discriminate].
    rewrite Hcrit.
    destruct (searchPrompts (criteria searchParams)) as [found|err] eqn:E;
      [|cbn; discriminate].
    intros _. exists searchParams, found. split; [reflexivity | exact E].
  - repeat (split; [reflexivity|]).
    intros supabase searchParams Hurl. unfold App.prompts.
    apply (Hok _ searchParams _ Hurl). reflexivity.
Qed.

Lemma prompts_route_success_witness :
  value (App.prompts Sample.supabase
           (fun _ => Returned [("query", " email"); ("tags", "email, business")])
           "/api/prompts") =
  PromptsRoute.json
    (PromptsRoute.Success
       [Store.whole Sample.email] 1
       (PromptsRoute.mkEcho " email" None ["email"; "business"] (JS.Int 50) (JS.Int 0)))
    200.
Proof.
  exact (proj1
           (prompts_route_success
              (fun _ => Returned [("query", " email"); ("tags", "email, business")])
              (fun params => Returned (Queries.searchPrompts Sample.supabase params))
              "/api/prompts")
           [("query", " email"); ("tags", "email, business")]
           (Queries.searchPrompts Sample.supabase
              (SearchParams.mk (Some " email") None (Some ["email"; "business"])
                               (Some (JS.Int 50)) (Some (JS.Int 0))))
           eq_refl eq_refl).
Defined.

Lemma count_all (fts : string -> option (string -> bool)) (table : list Row.t) :
  value (Queries.getPromptCount (Store.client fts table)) = List.length table.
Proof.
  unfold Queries.getPromptCount, Store.client, Store.selected, Store.where_. cbn.
  f_equal. induction table as [|r rest IH]; simpl; [reflexivity | now rewrite IH].
Qed.

(** C9: when the three operations return, GET /api/stats answers 200 with
    their results, [categories] and [tags] being the lengths of the two
    lists; when one of them throws it answers 500 with the error message and
    three zeros.  Linked with the query layer it always answers 200 (the
    operations do not throw), and over the store [total] is the number of
    records of the table. *)
Theorem stats_route :
  (forall (total : Logged nat) (categoriesList : Logged (list (option string)))
          (tagsList : Logged (list string)),
      value (StatsRoute.GET (Returned total) (Returned categoriesList) (Returned tagsList)) =
      StatsRoute.json
        (StatsRoute.Stats (value total) (List.length (value categoriesList))
                          (List.length (value tagsList))
                          (value categoriesList) (value tagsList))
        200) /\
  (forall a b c,
      (exists err, a = Thrown err) \/ (exists err, b = Thrown err) \/
      (exists err, c = Thrown err) ->
      value (StatsRoute.GET a b c) =
      StatsRoute.json (StatsRoute.Failure "Failed to fetch statistics" 0 0 0) 500) /\
  (forall supabase : Client,
      StatsRoute.status (value (App.stats supabase)) = 200%nat) /\
  (forall fts table,
      exists categoriesList tagsList,
        value (App.stats (Store.client fts table)) =
        StatsRoute.json
          (StatsRoute.Stats (List.length table) (List.length categoriesList)
                            (List.length tagsList) categoriesList tagsList)
          200).
Proof.
  assert (Hok : forall (total : Logged nat) (categoriesList : Logged (list (option string)))
                       (tagsList : Logged (list string)),
             value (StatsRoute.GET (Returned total) (Returned categoriesList)
                                   (Returned tagsList)) =
             StatsRoute.json
               (StatsRoute.Stats (value total) (List.length (value categoriesList))
                                 (List.length (value tagsList))
                                 (value categoriesList) (value tagsList))
               200).
  { intros [total l1] [categoriesList l2] [tagsList l3]. reflexivity. }
  split; [exact Hok|]. split; [|split].
  - intros [[total l1]|e1] [[categoriesList l2]|e2] [[tagsList l3]|e3] H;
      try reflexivity.
    destruct H as [[err H]|[[err H]|[err H]]]; discriminate.
  - intros supabase. unfold App.stats. rewrite Hok. reflexivity.
  - intros fts table. unfold App.stats. rewrite Hok, count_all.
    eexists. eexists. reflexivity.
Qed.

Lemma stats_route_witness :
  (exists err : string, @Thrown (Logged nat) "timeout" = Thrown err) /\
  value (StatsRoute.GET (Thrown "timeout")
                        (Returned (Queries.getCategories Sample.supabase))
                        (Returned (Queries.getTags Sample.supabase))) =
  StatsRoute.json (StatsRoute.Failure "Failed to fetch statistics" 0 0 0) 500.
Proof.
  assert (H : exists err : string, @Thrown (Logged nat) "timeout" = Thrown err)
    by (exists "timeout"; reflexivity).
  split; [exact H|].
  exact (proj1 (proj2 stats_route) _ _ _ (or_introl H)).
Defined.

(** ** The tags parameter *)

Lemma split_concat (sep : ascii) (s : string) :
  String.concat (String sep EmptyString) (JS.split sep s) = s.
Proof.
  induction s as [|c s IH]; [reflexivity|].
  cbn [JS.split]. destruct (Ascii.eqb_spec c sep) as [->|Hne].
  - destruct (JS.split sep s) as [|seg rest] eqn:E.
    + destruct s; simpl in E; [discriminate|].
      destruct (Ascii.eqb a sep); [discriminate|].
      destruct (JS.split sep s); discriminate.
    + change (String.concat (String sep EmptyString) (EmptyString :: seg :: rest))
        with (EmptyString ++ String sep EmptyString ++
              String.concat (String sep EmptyString) (seg :: rest))%string.
      rewrite IH. reflexivity.
  - destruct (JS.split sep s) as [|seg rest] eqn:E.
    + destruct s; simpl in E; [discriminate|].
      destruct (Ascii.eqb a sep); [discriminate|].
      destruct (JS.split sep s); discriminate.
    + destruct rest as [|seg' rest]; cbn [String.concat] in *;
        rewrite <- IH; reflexivity.
Qed.

Lemma split_segments (sep : ascii) (s : string) :
  Forall (fun seg => Store.occurs sep seg = false) (JS.split sep s).
Proof.
  induction s as [|c s IH]; simpl; [repeat constructor|].
  destruct (Ascii.eqb_spec c sep) as [->|Hne].
  - constructor; [reflexivity | exact IH].
  - destruct (JS.split sep s) as [|seg rest].
    + constructor; [|constructor]. simpl.
      rewrite orb_false_r. apply Ascii.eqb_neq. congruence.
    + inversion IH as [|? ? Hseg Hrest]; subst. constructor; [|exact Hrest].
      simpl. rewrite Hseg, orb_false_r. apply Ascii.eqb_neq. congruence.
Qed.

Lemma segments_In (s t : string) :
  In t (segmentsOf s) <->
  t <> "" /\ exists seg, In seg (JS.split "," s) /\ t = JS.trim seg.
Proof.
  unfold segmentsOf. rewrite filter_In, in_map_iff, negb_true_iff, String.eqb_neq.
  split.
  - intros [(seg & <- & Hseg) Hne]. split; [exact Hne|]. exists seg. auto.
  - intros [Hne (seg & Hseg & ->)]. split; [exists seg; auto | exact Hne].
Qed.

Lemma trim_no_comma (seg : string) :
  Store.occurs "," seg = false -> Store.occurs "," (JS.trim seg) = false.
Proof.
  intros H. destruct (trim_spec seg) as ((l & r & E & _) & _).
  rewrite E, !occurs_app, !orb_false_iff in H. apply H.
Qed.

(** C10: whatever the [tags] parameter, the handler calls [searchPrompts]
    with, and echoes, the comma-separated segments of its text, each
    trimmed, the empty ones dropped, in their order: every tag is a
    non-empty segment without the white space at its two ends, so it neither
    starts nor ends with white space and has no comma; "a, ,b," gives a and
    b.  With the parameter absent (or empty) the list is empty and the query
    built is the one without a tag filter. *)
Theorem tags_parameter :
  (forall (URL : string -> outcome (list (string * string)))
          (searchPrompts : SearchParams.t -> outcome (Logged (list Prompt.t)))
          (url : string) (searchParams : list (string * string)),
      URL url = Returned searchParams ->
      exists criteria echo,
        SearchParams.tags criteria =
        Some (segmentsOf (orDefault "" (parameter "tags" searchParams))) /\
        PromptsRoute.tags echo =
        segmentsOf (orDefault "" (parameter "tags" searchParams)) /\
        PromptsRoute.GET URL searchPrompts url =
        match searchPrompts criteria with
        | Returned found =>
            prompts <- found ;;
            ret (PromptsRoute.json
                   (PromptsRoute.Success prompts (List.length prompts) echo) 200)
        | Thrown err => PromptsRoute.failed err
        end) /\
  (forall s t,
      In t (segmentsOf s) <->
      t <> "" /\ exists seg, In seg (JS.split "," s) /\ t = JS.trim seg) /\
  (forall seg, Trimmed seg (JS.trim seg)) /\
  (forall s,
      String.concat "," (JS.split "," s) = s /\
      Forall (fun seg => Store.occurs "," seg = false) (JS.split "," s)) /\
  (forall s t,
      In t (segmentsOf s) ->
      ~ StartsWhite t /\ ~ EndsWhite t /\ Store.occurs "," t = false /\ JS.trim t = t) /\
  segmentsOf "a, ,b," = ["a"; "b"] /\
  segmentsOf ("  x y ,a," ++ Sample.nbsp ++ ",b" ++ Sample.blank)%string =
  ["x y"; "a"; "b"] /\
  (forall searchParams,
      parameter "tags" searchParams = None ->
      segmentsOf (orDefault "" (parameter "tags" searchParams)) = []) /\
  (forall criteria,
      SearchParams.tags criteria = Some [] ->
      Queries.searchQuery criteria = Queries.searchQuery (withoutTags criteria)).
Proof.
  split; [|split; [exact segments_In|]].
  { intros URL searchPrompts url searchParams Hurl.
    exists (PromptsRoute.toParams (PromptsRoute.parseQuery searchParams)),
      (PromptsRoute.parseQuery searchParams).
    rewrite parseQuery_documented.
    split; [reflexivity|]. split; [reflexivity|].
    unfold PromptsRoute.GET. rewrite Hurl, parseQuery_documented. reflexivity. }
  split; [exact trim_spec|].
  split; [intros s; split; [apply split_concat | apply split_segments]|].
  split; [|split; [reflexivity|split; [reflexivity|split]]].
  - intros s t Ht. apply segments_In in Ht. destruct Ht as [_ (seg & Hseg & ->)].
    destruct (trim_spec seg) as (_ & Hstart & Hend).
    split; [exact Hstart|]. split; [exact Hend|]. split; [|apply trim_idempotent].
    apply trim_no_comma.
    pose proof (split_segments "," s) as Hall. rewrite Forall_forall in Hall.
    apply Hall, Hseg.
  - intros searchParams ->. reflexivity.
  - intros criteria Htags. rewrite !searchQuery_shape.
    unfold tagFilters, activeTags. cbn [withoutTags SearchParams.tags orDefault].
    rewrite Htags. reflexivity.
Qed.

Lemma tags_parameter_witness :
  exists criteria echo,
    SearchParams.tags criteria = Some ["email"; "business"] /\
    PromptsRoute.tags echo = ["email"; "business"] /\
    PromptsRoute.GET
      (fun _ => Returned [("tags", " email ,, business")])
      (fun params => Returned (Queries.searchPrompts Sample.supabase params))
      "/api/prompts" =
    match Returned (Queries.searchPrompts Sample.supabase criteria) with
    | Returned found =>
        prompts <- found ;;
        ret (PromptsRoute.json
               (PromptsRoute.Success prompts (List.length prompts) echo) 200)
    | Thrown err => PromptsRoute.failed err
    end.
Proof.
  exact (proj1 tags_parameter
           (fun _ => Returned [("tags", " email ,, business")])
           (fun params => Returned (Queries.searchPrompts Sample.supabase params))
           "/api/prompts" [("tags", " email ,, business")] eq_refl).
Defined.

(** ** The documented scenarios, run on the sample table *)

Example scenario_query_email :
  value (Queries.searchPrompts Sample.supabase (Sample.ask (Some "email") None None)) =
  [Store.whole Sample.email].
Proof. reflexivity. Qed.

Example scenario_category_development :
  value (Queries.searchPrompts Sample.supabase
           (Sample.ask None (Some "Development") None)) =
  [Store.whole Sample.review].
Proof. reflexivity. Qed.

Example scenario_tags :
  value (Queries.searchPrompts Sample.supabase
           (Sample.ask None None (Some ["email"; "business"]))) =
  [Store.whole Sample.email] /\
  value (Queries.searchPrompts Sample.supabase
           (Sample.ask None None (Some ["email"; "marketing"]))) = [].
Proof. split; reflexivity. Qed.

Example scenario_blank_criteria :
  Queries.searchQuery (Sample.ask (Some "   ") (Some " ") (Some [])) =
  Queries.searchQuery SearchParams.empty.
Proof. reflexivity. Qed.

Example scenario_pagination :
  map Prompt.id
      (value (Queries.searchPrompts (Store.client Sample.wordFts Sample.five)
                (SearchParams.mk None None None (Some (JS.Int 2)) (Some (JS.Int 2))))) =
  [Some 3%Z; Some 2%Z].
Proof. reflexivity. Qed.

Example scenario_empty_table :
  value (Queries.getPromptCount (Store.client Sample.wordFts [])) = 0%nat /\
  value (Queries.getCategories (Store.client Sample.wordFts [])) = [] /\
  value (Queries.getTags (Store.client Sample.wordFts [])) = [].
Proof. repeat split. Qed.

Example scenario_builtins :
  JS.trim "  a b  " = "a b" /\
  JS.split "," "a, ,b," = ["a"; " "; "b"; ""] /\
  JS.parseInt " -7x" = JS.Int (-7) /\
  JS.newSet String.eqb ["b"; "a"; "b"; "c"; "a"] = ["b"; "a"; "c"] /\
  JS.sort (fun s => s) ["b"; "a"; "C"; "ab"] = ["C"; "a"; "ab"; "b"].
Proof. repeat split. Qed.

(** * Further properties of the query layer over the store *)

(** ** The order in which the store comes upon the records *)

Lemma NoDup_map_filter {A B : Type} (f : A -> B) (P : A -> bool) (l : list A) :
  NoDup (map f l) -> NoDup (map f (List.filter P l)).
Proof.
  induction l as [|x l IH]; simpl; intros H; [constructor|].
  inversion H as [|? ? Hx Hl]; subst.
  destruct (P x); [|apply IH, Hl].
  simpl. constructor; [|apply IH, Hl].
  intros Hin. apply Hx. apply in_map_iff in Hin. destruct Hin as (y & E & Hy).
  apply in_map_iff. exists y. split; [exact E|]. apply filter_In in Hy. apply Hy.
Qed.

Lemma filter_perm {A : Type} (P : A -> bool) (l l' : list A) :
  Permutation l l' -> Permutation (List.filter P l) (List.filter P l').
Proof.
  induction 1 as [|x l l' _ IH|x y l|l l' l'' _ IH1 _ IH2]; simpl.
  - constructor.
  - destruct (P x); [constructor|]; exact IH.
  - destruct (P x), (P y); try apply Permutation_refl. apply perm_swap.
  - exact (Permutation_trans IH1 IH2).
Qed.

Lemma NoDup_map_eq {A B : Type} (f : A -> B) (l : list A) (x y : A) :
  NoDup (map f l) -> In x l -> In y l -> f x = f y -> x = y.
Proof.
  induction l as [|z l IH]; simpl; intros H Hx Hy E; [contradiction|].
  inversion H as [|? ? Hz Hl]; subst.
  destruct Hx as [->|Hx], Hy as [->|Hy].
  - reflexivity.
  - exfalso. apply Hz. rewrite E. apply in_map, Hy.
  - exfalso. apply Hz. rewrite <- E. apply in_map, Hx.
  - exact (IH Hl Hx Hy E).
Qed.

(** Two sorted lists with the same elements are the same list when no two
    elements are interchangeable in the order. *)
Lemma sorted_perm_eq {A : Type} (R : A -> A -> Prop) (l1 l2 : list A) :
  (forall x y, In x l1 -> In y l1 -> R x y -> R y x -> x = y) ->
  StronglySorted R l1 -> StronglySorted R l2 -> Permutation l1 l2 -> l1 = l2.
Proof.
  revert l2. induction l1 as [|x l1 IH]; intros l2 Hanti H1 H2 Hp.
  - apply Permutation_nil in Hp. now subst.
  - destruct l2 as [|y l2];
      [apply Permutation_sym, Permutation_nil in Hp; discriminate|].
    inversion H1 as [|? ? H1' Hx]; subst. inversion H2 as [|? ? H2' Hy]; subst.
    assert (E : x = y).
    { assert (Hxin : In x (y :: l2))
        by (eapply Permutation_in; [exact Hp | left; reflexivity]).
      assert (Hyin : In y (x :: l1))
        by (eapply Permutation_in; [apply Permutation_sym, Hp | left; reflexivity]).
      destruct Hxin as [->|Hxin]; [reflexivity|].
      destruct Hyin as [->|Hyin]; [reflexivity|].
      rewrite Forall_forall in Hx, Hy.
      apply Hanti;
        [left; reflexivity | right; exact Hyin | apply Hx, Hyin | apply Hy, Hxin]. }
    subst y. f_equal. apply IH.
    + intros a b Ha Hb. apply Hanti; right; assumption.
    + exact H1'.
    + exact H2'.
    + eapply Permutation_cons_inv, Hp.
Qed.

Lemma descending_antisym (a b : option Z) :
  Store.descending a b = true -> Store.descending b a = true -> a = b.
Proof.
  unfold Store.descending, Store.ascending.
  destruct a as [x|], b as [y|]; try discriminate; [|reflexivity].
  rewrite !Z.leb_le. intros. f_equal. lia.
Qed.

(** Over records created at different times, ORDER BY created_at gives the
    same list whatever the order it is given them in. *)
Lemma newestRows_scan (l1 l2 : list Row.t) :
  distinctTimes l2 -> Permutation l1 l2 -> newestRows l1 = newestRows l2.
Proof.
  intros Hd Hp.
  apply (sorted_perm_eq
           (fun r s => Store.descending (Row.created_at r) (Row.created_at s) = true)).
  - intros x y Hx Hy Hxy Hyx.
    apply (NoDup_map_eq Row.created_at l2); [exact Hd | | |].
    + eapply Permutation_in; [exact Hp|]. apply sortBy_In in Hx. exact Hx.
    + eapply Permutation_in; [exact Hp|]. apply sortBy_In in Hy. exact Hy.
    + apply descending_antisym; assumption.
  - exact (newestRows_sorted l1).
  - exact (newestRows_sorted l2).
  - eapply Permutation_trans; [apply sortBy_perm|].
    eapply Permutation_trans; [exact Hp|]. apply Permutation_sym, sortBy_perm.
Qed.

(** Over such a table a search finds the same records in the same order
    whatever the order in which the store comes upon them. *)
Lemma search_scan (fts : string -> option (string -> bool)) (table scanned : list Row.t)
      (p : SearchParams.t) :
  distinctTimes table -> Permutation scanned table ->
  value (Queries.searchPrompts (Store.client fts scanned) p) =
  value (Queries.searchPrompts (Store.client fts table) p).
Proof.
  intros Hd Hp. rewrite !searchPrompts_on_store. unfold Store.selected.
  destruct (r_from (Queries.searchQuery p) =? "prompts"); [|reflexivity].
  destruct (Store.where_ fts (r_filters (Queries.searchQuery p))) as [P|];
    [|reflexivity].
  cbn [option_map].
  rewrite (newestRows_scan (List.filter P scanned) (List.filter P table));
    [reflexivity | apply NoDup_map_filter, Hd | apply filter_perm, Hp].
Qed.

Section MoreSearch.
Variable fts : string -> option (string -> bool).
Variable table : list Row.t.

(** The records a search selects do not depend on its window. *)
Lemma selected_any_window (query category : option string) (tags : option (list string))
      (l1 o1 l2 o2 : option JS.number) :
  Store.selected fts table
    (Queries.searchQuery (SearchParams.mk query category tags l1 o1)) =
  Store.selected fts table
    (Queries.searchQuery (SearchParams.mk query category tags l2 o2)).
Proof. rewrite !searchQuery_shape. reflexivity. Qed.

Lemma firstn_tile {A : Type} (a b : nat) (l : list A) :
  firstn a l ++ firstn b (skipn a l) = firstn (a + b) l.
Proof.
  revert l. induction a as [|a IH]; intros l; simpl; [reflexivity|].
  destruct l as [|x l]; simpl; [now rewrite firstn_nil | now rewrite IH].
Qed.

(** What a search with a valid window returns. *)
Lemma search_window (query category : option string) (tags : option (list string))
      (l o : Z) :
  validWindow l o ->
  Queries.searchPrompts (Store.client fts table)
    (SearchParams.mk query category tags (Some (JS.Int l)) (Some (JS.Int o))) =
  match Store.selected fts table
          (Queries.searchQuery (SearchParams.mk query category tags None None)) with
  | Some found =>
      (map Store.whole (firstn (Z.to_nat l) (skipn (Z.to_nat o) (newestRows found))), [])
  | None => ([], [("Error searching prompts:", "the request was rejected")])
  end.
Proof.
  intros Hv.
  unfold Queries.searchPrompts, Store.client. cbn [awaitRows]. unfold Store.rows.
  rewrite (selected_any_window query category tags _ _ None None).
  destruct (Store.selected fts table
              (Queries.searchQuery (SearchParams.mk query category tags None None)))
    as [found|]; [|reflexivity].
  rewrite searchQuery_shape. cbn [r_order r_select r_range].
  change (Store.orderBy (Some ("created_at", false))) with (Some newestRows).
  change (Store.project "*") with (Some Store.whole).
  cbv iota. unfold windowOf. cbn [SearchParams.limit SearchParams.offset orDefault].
  rewrite (page_window o l _ Hv). reflexivity.
Qed.

Lemma window_tiling (query category : option string) (tags : option (list string))
      (a b o : Z) :
  (0 <= a)%Z -> (0 <= b)%Z -> (0 <= o)%Z -> (o + a + b <= JS.MAX_SAFE_INTEGER)%Z ->
  value (Queries.searchPrompts (Store.client fts table)
           (SearchParams.mk query category tags (Some (JS.Int a)) (Some (JS.Int o))))
  ++ value (Queries.searchPrompts (Store.client fts table)
              (SearchParams.mk query category tags (Some (JS.Int b))
                               (Some (JS.Int (o + a))))) =
  value (Queries.searchPrompts (Store.client fts table)
           (SearchParams.mk query category tags (Some (JS.Int (a + b)))
                            (Some (JS.Int o)))).
Proof.
  intros Ha Hb Ho Hsum.
  rewrite !search_window by (unfold validWindow; lia).
  destruct (Store.selected fts table
              (Queries.searchQuery (SearchParams.mk query category tags None None)))
    as [found|]; [|reflexivity].
  cbn [value fst].
  rewrite <- map_app. f_equal.
  rewrite !Z2Nat.inj_add by assumption.
  rewrite (Nat.add_comm (Z.to_nat o) (Z.to_nat a)).
  rewrite <- (skipn_skipn (Z.to_nat a) (Z.to_nat o)).
  apply firstn_tile.
Qed.

(** X1: over a table in which no two records were created at the same time,
    consecutive windows tile the result, whatever the order in which the
    store comes upon the records while it answers each request: the page of
    [a] records at offset [o] followed by the page of [b] records at offset
    [o + a] is the page of [a + b] records at offset [o], with no record
    lost or repeated at the seam (sizes and offset not negative, their sum a
    safe integer). *)
Theorem pages_tile (query category : option string) (tags : option (list string))
        (a b o : Z) (first second : list Row.t) :
  distinctTimes table ->
  Permutation first table -> Permutation second table ->
  (0 <= a)%Z -> (0 <= b)%Z -> (0 <= o)%Z -> (o + a + b <= JS.MAX_SAFE_INTEGER)%Z ->
  value (Queries.searchPrompts (Store.client fts first)
           (SearchParams.mk query category tags (Some (JS.Int a)) (Some (JS.Int o))))
  ++ value (Queries.searchPrompts (Store.client fts second)
              (SearchParams.mk query category tags (Some (JS.Int b))
                               (Some (JS.Int (o + a))))) =
  value (Queries.searchPrompts (Store.client fts table)
           (SearchParams.mk query category tags (Some (JS.Int (a + b)))
                            (Some (JS.Int o)))).
Proof.
  intros Hd Hfirst Hsecond.
  rewrite (search_scan fts table first _ Hd Hfirst),
          (search_scan fts table second _ Hd Hsecond).
  apply window_tiling.
Qed.
End MoreSearch.

Lemma pages_tile_witness :
  distinctTimes Sample.five /\
  Permutation (rev Sample.five) Sample.five /\
  map Prompt.id
      (value (Queries.searchPrompts (Store.client Sample.wordFts (rev Sample.five))
                (SearchParams.mk None None None (Some (JS.Int 2)) (Some (JS.Int 1))))
       ++ value (Queries.searchPrompts (Store.client Sample.wordFts Sample.five)
                   (SearchParams.mk None None None (Some (JS.Int 1))
                                    (Some (JS.Int (1 + 2)))))) =
  map Prompt.id
      (value (Queries.searchPrompts (Store.client Sample.wordFts Sample.five)
                (SearchParams.mk None None None (Some (JS.Int (2 + 1)))
                                 (Some (JS.Int 1))))).
Proof.
  assert (Hd : distinctTimes Sample.five).
  { unfold distinctTimes. repeat constructor; simpl; intuition discriminate. }
  assert (Hp : Permutation (rev Sample.five) Sample.five)
    by apply Permutation_sym, Permutation_rev.
  split; [exact Hd|]. split; [exact Hp|].
  refine (f_equal (map Prompt.id)
            (pages_tile Sample.wordFts Sample.five None None None 2 1 1
                        (rev Sample.five) Sample.five Hd Hp (Permutation_refl _)
                        _ _ _ _));
    unfold JS.MAX_SAFE_INTEGER; lia.
Defined.

Section MoreStore.
Variable fts : string -> option (string -> bool).
Variable table : list Row.t.

Lemma selected_unfiltered (query : request) :
  r_from query = "prompts" -> r_filters query = [] ->
  Store.selected fts table query = Some table.
Proof.
  intros Hfrom Hfs. unfold Store.selected, Store.where_. rewrite Hfrom, Hfs. cbn.
  f_equal. induction table as [|r rest IH]; simpl; [reflexivity | now rewrite IH].
Qed.

(** X3: a search with no criteria returns the 50 most recent records of the
    whole table, without a console line; when the table has at most 50
    records it returns every record exactly once. *)
Theorem search_without_criteria :
  Queries.searchPrompts (Store.client fts table) SearchParams.empty =
  (map Store.whole (firstn 50 (newestRows table)), []) /\
  ((List.length table <= 50)%nat ->
   Permutation (value (Queries.searchPrompts (Store.client fts table) SearchParams.empty))
               (map Store.whole table)).
Proof.
  assert (H : Queries.searchPrompts (Store.client fts table) SearchParams.empty =
              (map Store.whole (firstn 50 (newestRows table)), [])).
  { change SearchParams.empty
      with (SearchParams.mk None None None None None).
    change (Queries.searchPrompts (Store.client fts table)
              (SearchParams.mk None None None None None))
      with (Queries.searchPrompts (Store.client fts table)
              (SearchParams.mk None None None (Some (JS.Int 50)) (Some (JS.Int 0)))).
    rewrite search_window by (unfold validWindow, JS.MAX_SAFE_INTEGER; lia).
    rewrite selected_unfiltered by reflexivity. reflexivity. }
  split; [exact H|].
  intros Hlen. rewrite H. cbn [value fst].
  apply Permutation_map. rewrite firstn_all2.
  - apply sortBy_perm.
  - unfold newestRows. rewrite (Permutation_length (sortBy_perm _ table)). exact Hlen.
Qed.

(** X4: when the store cannot read the trimmed query as a full-text query,
    the whole search fails soft: nothing is returned, whatever the titles
    and the other criteria, and one line is written to the console. *)
Theorem rejected_text_query (p : SearchParams.t) :
  activeText p <> "" -> plain (activeText p) = true -> fts (activeText p) = None ->
  Queries.searchPrompts (Store.client fts table) p =
  ([], [("Error searching prompts:", "the request was rejected")]).
Proof.
  intros Hne Hplain Hfts.
  assert (Hsel : Store.selected fts table (Queries.searchQuery p) = None).
  { rewrite searchQuery_shape. unfold Store.selected, Store.where_.
    cbn [r_from r_filters]. change ("prompts" =? "prompts") with true. cbv iota.
    unfold textFilters. destruct (String.eqb_spec (activeText p) ""); [contradiction|].
    cbn [app Store.mapM Store.holds].
    rewrite (disjunction_textFilter fts _ Hplain), Hfts. reflexivity. }
  unfold Queries.searchPrompts, Store.client. cbn [awaitRows]. unfold Store.rows.
  rewrite Hsel. reflexivity.
Qed.

(** X5: over a table whose ids are unique, every Prompt a search returns
    carries an id, and looking that id up returns the same Prompt. *)
Theorem found_can_be_looked_up (p : SearchParams.t) (x : Prompt.t) :
  NoDup (map Row.id table) ->
  In x (value (Queries.searchPrompts (Store.client fts table) p)) ->
  exists i, Prompt.id x = Some i /\
            value (Queries.getPromptById (Store.client fts table) i) = Some x.
Proof.
  intros Hnd Hx. apply returned_selected in Hx.
  destruct Hx as (found & r & Hfound & Hr & ->).
  assert (Hin : In r table) by (eapply selected_In; eassumption).
  exists (Row.id r). split; [reflexivity|].
  unfold Queries.getPromptById, Store.client. cbn [awaitSingle].
  rewrite lookup_rows, (filter_unique table r Hnd Hin). reflexivity.
Qed.
End MoreStore.

Lemma search_without_criteria_witness :
  (List.length Sample.table <= 50)%nat /\
  Permutation
    (value (Queries.searchPrompts (Store.client Sample.wordFts Sample.table)
              SearchParams.empty))
    (map Store.whole Sample.table).
Proof.
  assert (H : (List.length Sample.table <= 50)%nat) by (cbn; lia).
  split; [exact H|].
  exact (proj2 (search_without_criteria Sample.wordFts Sample.table) H).
Defined.

Lemma rejected_text_query_witness :
  activeText (Sample.ask (Some "code review") None None) <> "" /\
  plain (activeText (Sample.ask (Some "code review") None None)) = true /\
  Sample.wordFts (activeText (Sample.ask (Some "code review") None None)) = None /\
  Queries.searchPrompts Sample.supabase (Sample.ask (Some "code review") None None) =
  ([], [("Error searching prompts:", "the request was rejected")]).
Proof.
  assert (H : activeText (Sample.ask (Some "code review") None None) <> "")
    by (vm_compute; discriminate).
  split; [exact H|]. split; [reflexivity|]. split; [reflexivity|].
  exact (rejected_text_query Sample.wordFts Sample.table
           (Sample.ask (Some "code review") None None) H eq_refl eq_refl).
Defined.

Lemma found_can_be_looked_up_witness :
  NoDup (map Row.id Sample.table) /\
  In (Store.whole Sample.email)
     (value (Queries.searchPrompts (Store.client Sample.wordFts Sample.table)
               (Sample.ask (Some "email") None None))) /\
  exists i,
    Prompt.id (Store.whole Sample.email) = Some i /\
    value (Queries.getPromptById (Store.client Sample.wordFts Sample.table) i) =
    Some (Store.whole Sample.email).
Proof.
  assert (Hnd : NoDup (map Row.id Sample.table)).
  { repeat constructor; simpl; intuition discriminate. }
  assert (Hin : In (Store.whole Sample.email)
                   (value (Queries.searchPrompts
                             (Store.client Sample.wordFts Sample.table)
                             (Sample.ask (Some "email") None None))))
    by (left; reflexivity).
  split; [exact Hnd|]. split; [exact Hin|].
  exact (found_can_be_looked_up Sample.wordFts Sample.table _ _ Hnd Hin).
Defined.

(** * Further properties of the aggregation functions *)

Lemma ltb_irreflexive (x : string) : JS.ltb x x = false.
Proof. unfold JS.ltb. rewrite compare_refl. reflexivity. Qed.

Lemma ltb_asymmetric (x y : string) :
  JS.ltb x y = true -> JS.ltb y x = true -> False.
Proof.
  unfold JS.ltb. rewrite (compare_antisym x y).
  destruct (JS.compare x y); simpl; discriminate.
Qed.

(** A strictly ascending sequence is determined by its members. *)
Lemma ascending_unique (l1 l2 : list string) :
  ascendingStrings l1 -> ascendingStrings l2 ->
  (forall x, In x l1 <-> In x l2) -> l1 = l2.
Proof.
  unfold ascendingStrings. intros H1. revert l2.
  induction H1 as [|x xs Hxs IH Hx]; intros l2 H2 Hmem.
  - destruct l2 as [|y ys]; [reflexivity|].
    exfalso. apply (proj2 (Hmem y)). left. reflexivity.
  - destruct H2 as [|y ys Hys Hy].
    + exfalso. apply (proj1 (Hmem x)). left. reflexivity.
    + rewrite Forall_forall in Hx, Hy.
      assert (x = y) as <-.
      { destruct (proj1 (Hmem x) (or_introl eq_refl)) as [E|Hin]; [congruence|].
        destruct (proj2 (Hmem y) (or_introl eq_refl)) as [E|Hin']; [assumption|].
        exfalso. exact (ltb_asymmetric x y (Hx y Hin') (Hy x Hin)). }
      f_equal. apply IH; [exact Hys|].
      intros z. split; intros Hz.
      * destruct (proj1 (Hmem z) (or_intror Hz)) as [<-|H]; [|exact H].
        exfalso. specialize (Hx x Hz). rewrite ltb_irreflexive in Hx. discriminate.
      * destruct (proj2 (Hmem z) (or_intror Hz)) as [<-|H]; [|exact H].
        exfalso. specialize (Hy x Hz). rewrite ltb_irreflexive in Hy. discriminate.
Qed.

Section MoreVocabulary.
Variable fts : string -> option (string -> bool).

Lemma getCategories_value (table : list Row.t) :
  value (Queries.getCategories (Store.client fts table)) =
  map Some (JS.sort (fun s => s) (JS.newSet String.eqb (categoriesOf table))).
Proof.
  unfold Queries.getCategories. rewrite categories_data. cbn [error data value ret fst].
  rewrite categories_read. unfold JS.newSet.
  change (JS.setAdd (JS.option_beq String.eqb) [] (map Some (categoriesOf table)))
    with (JS.setAdd (JS.option_beq String.eqb) (map Some [])
                    (map Some (categoriesOf table))).
  rewrite setAdd_Some. apply sort_Some.
Qed.

Lemma getTags_value (table : list Row.t) :
  value (Queries.getTags (Store.client fts table)) =
  JS.sort (fun s => s) (JS.newSet String.eqb (tagsOf table)).
Proof.
  unfold Queries.getTags. rewrite tags_data. cbn [error data value ret fst].
  rewrite tags_read. reflexivity.
Qed.

Lemma vocabulary_of_members (l1 l2 : list string) :
  (forall x, In x l1 <-> In x l2) ->
  JS.sort (fun s => s) (JS.newSet String.eqb l1) =
  JS.sort (fun s => s) (JS.newSet String.eqb l2).
Proof.
  intros Hmem. apply ascending_unique.
  - apply sort_strings_ascending, newSet_NoDup, String.eqb_eq.
  - apply sort_strings_ascending, newSet_NoDup, String.eqb_eq.
  - intros x. unfold JS.sort.
    rewrite !sortBy_In, !(newSet_In _ String.eqb_eq). apply Hmem.
Qed.

(** X6: the count and the two vocabularies depend on the records of the
    table only, not on the order in which the store holds or returns
    them. *)
Theorem aggregates_ignore_order (table table' : list Row.t) :
  Permutation table table' ->
  value (Queries.getPromptCount (Store.client fts table)) =
  value (Queries.getPromptCount (Store.client fts table')) /\
  value (Queries.getCategories (Store.client fts table)) =
  value (Queries.getCategories (Store.client fts table')) /\
  value (Queries.getTags (Store.client fts table)) =
  value (Queries.getTags (Store.client fts table')).
Proof.
  intros Hperm. split; [|split].
  - rewrite !count_all. apply Permutation_length, Hperm.
  - rewrite !getCategories_value. f_equal. apply vocabulary_of_members.
    intros x. unfold categoriesOf.
    split; apply Permutation_in, Permutation_flat_map;
      [exact Hperm | apply Permutation_sym, Hperm].
  - rewrite !getTags_value. apply vocabulary_of_members.
    intros x. unfold tagsOf.
    split; apply Permutation_in, Permutation_flat_map;
      [exact Hperm | apply Permutation_sym, Hperm].
Qed.

Lemma newSet_length (l : list string) :
  (List.length (JS.sort (fun s => s) (JS.newSet String.eqb l)) <= List.length l)%nat.
Proof.
  unfold JS.sort. rewrite (Permutation_length (sortBy_perm _ _)).
  apply NoDup_incl_length.
  - apply newSet_NoDup, String.eqb_eq.
  - intros x Hx. exact (proj1 (newSet_In _ String.eqb_eq l x) Hx).
Qed.

(** X7: over the store, GET /api/stats reports as [total] the number of
    records, never reports more categories than records, and never reports
    more tags than the records carry in all. *)
Theorem stats_bounds (table : list Row.t) :
  exists categoriesList tagsList,
    value (App.stats (Store.client fts table)) =
    StatsRoute.json
      (StatsRoute.Stats (List.length table) (List.length categoriesList)
                        (List.length tagsList) categoriesList tagsList)
      200 /\
    (List.length categoriesList <= List.length table)%nat /\
    (List.length tagsList <= List.length (tagsOf table))%nat.
Proof.
  exists (value (Queries.getCategories (Store.client fts table))),
    (value (Queries.getTags (Store.client fts table))).
  split; [|split].
  - unfold App.stats, StatsRoute.GET, StatsRoute.settle.
    rewrite <- (count_all fts table).
    destruct (Queries.getPromptCount (Store.client fts table)) as [total l1].
    destruct (Queries.getCategories (Store.client fts table)) as [cl l2].
    destruct (Queries.getTags (Store.client fts table)) as [tl l3].
    reflexivity.
  - rewrite getCategories_value, length_map.
    eapply Nat.le_trans; [apply newSet_length|].
    unfold categoriesOf. clear.
    induction table as [|r rest IH]; simpl; [lia|].
    destruct (Row.category r); simpl; lia.
  - rewrite getTags_value. apply newSet_length.
Qed.
End MoreVocabulary.

Lemma aggregates_ignore_order_witness :
  Permutation Sample.table [Sample.review; Sample.email] /\
  value (Queries.getTags (Store.client Sample.wordFts Sample.table)) =
  value (Queries.getTags (Store.client Sample.wordFts [Sample.review; Sample.email])).
Proof.
  assert (H : Permutation Sample.table [Sample.review; Sample.email])
    by apply perm_swap.
  split; [exact H|].
  exact (proj2 (proj2 (aggregates_ignore_order Sample.wordFts _ _ H))).
Defined.

(** * Further properties of the routes and of the page *)

(** X8: GET /api/prompts answers 200 or 500; it answers 500, with the body
    [{ error: 'Failed to fetch prompts', prompts: [] }] and a console line,
    exactly when reading the URL or the search throws; linked with the query
    layer, whose search does not throw, a URL that parses is always answered
    with 200. *)
Theorem prompts_route_failure
        (URL : string -> outcome (list (string * string)))
        (searchPrompts : SearchParams.t -> outcome (Logged (list Prompt.t)))
        (url : string) :
  (PromptsRoute.status (value (PromptsRoute.GET URL searchPrompts url)) = 200%nat \/
   PromptsRoute.status (value (PromptsRoute.GET URL searchPrompts url)) = 500%nat) /\
  (PromptsRoute.status (value (PromptsRoute.GET URL searchPrompts url)) = 500%nat <->
   (exists err, URL url = Thrown err) \/
   (exists searchParams err,
       URL url = Returned searchParams /\
       searchPrompts (PromptsRoute.toParams (PromptsRoute.parseQuery searchParams))
       = Thrown err)) /\
  (PromptsRoute.status (value (PromptsRoute.GET URL searchPrompts url)) = 500%nat ->
   PromptsRoute.payload (value (PromptsRoute.GET URL searchPrompts url)) =
   PromptsRoute.Failure "Failed to fetch prompts" [] /\
   exists err,
     logged (PromptsRoute.GET URL searchPrompts url) = [("Error in /api/prompts:", err)]) /\
  (forall (supabase : Client) searchParams,
      URL url = Returned searchParams ->
      PromptsRoute.status (value (App.prompts supabase URL url)) = 200%nat).
Proof.
  unfold App.prompts, PromptsRoute.GET.
  destruct (URL url) as [searchParams|err].
  - destruct (searchPrompts (PromptsRoute.toParams (PromptsRoute.parseQuery searchParams)))
      as [[prompts lines]|err] eqn:Hs.
    + split; [left; reflexivity|]. split; [|split].
      * split; [cbn; discriminate|].
        intros [[err H]|(sp & err & H & H')]; [discriminate|].
        injection H as <-. rewrite Hs in H'. discriminate.
      * cbn. discriminate.
      * intros supabase sp [= <-].
        destruct (Queries.searchPrompts supabase
                    (PromptsRoute.toParams (PromptsRoute.parseQuery searchParams)));
          reflexivity.
    + split; [right; reflexivity|]. split; [|split].
      * split; [|reflexivity]. intros _. right. exists searchParams, err. auto.
      * intros _. split; [reflexivity|]. exists err. reflexivity.
      * intros supabase sp [= <-].
        destruct (Queries.searchPrompts supabase
                    (PromptsRoute.toParams (PromptsRoute.parseQuery searchParams)));
          reflexivity.
  - split; [right; reflexivity|]. split; [|split].
    + split; [|reflexivity]. intros _. left. exists err. reflexivity.
    + intros _. split; [reflexivity|]. exists err. reflexivity.
    + intros supabase sp H. discriminate.
Qed.

Lemma prompts_route_failure_witness :
  PromptsRoute.status
    (value (PromptsRoute.GET (fun _ => Thrown "Invalid URL")
                             (fun p => Returned (Queries.searchPrompts Sample.supabase p))
                             "nonsense")) = 500%nat /\
  PromptsRoute.payload
    (value (PromptsRoute.GET (fun _ => Thrown "Invalid URL")
                             (fun p => Returned (Queries.searchPrompts Sample.supabase p))
                             "nonsense")) =
  PromptsRoute.Failure "Failed to fetch prompts" [].
Proof.
  split; [reflexivity|].
  exact (proj1 (proj1 (proj2 (proj2
           (prompts_route_failure (fun _ => Thrown "Invalid URL")
              (fun p => Returned (Queries.searchPrompts Sample.supabase p))
              "nonsense"))) eq_refl)).
Defined.

(** ** Numbers written by the page and read by the route *)

Lemma readDigits_step (acc : option Z) (c : ascii) (k : Z) (s : string) :
  JS.digitOf c = Some k ->
  JS.readDigits acc (String c s) = JS.readDigits (Some (10 * orDefault 0%Z acc + k)%Z) s.
Proof. cbn [JS.readDigits]. intros ->. destruct acc; reflexivity. Qed.

Lemma readDigits_positive (d : Decimal.uint) (p : positive) :
  JS.readDigits (Some (Z.pos p)) (NilEmpty.string_of_uint d) =
  Some (Z.pos (Pos.of_uint_acc d p)).
Proof.
  revert p. induction d; intros p; cbn [NilEmpty.string_of_uint Pos.of_uint_acc];
    [reflexivity | ..];
    erewrite readDigits_step by (vm_compute; reflexivity);
    rewrite <- IHd; cbn [orDefault]; f_equal; f_equal; lia.
Qed.

Lemma readDigits_zero (d : Decimal.uint) :
  JS.readDigits (Some 0%Z) (NilEmpty.string_of_uint d) = Some (Z.of_N (Pos.of_uint d)).
Proof.
  induction d; cbn [NilEmpty.string_of_uint Pos.of_uint]; [reflexivity | ..];
    erewrite readDigits_step by (vm_compute; reflexivity); cbn [orDefault];
    [exact IHd | apply readDigits_positive ..].
Qed.

Lemma readDigits_start (d : Decimal.uint) :
  d <> Decimal.Nil ->
  JS.readDigits None (NilEmpty.string_of_uint d) = Some (Z.of_N (Pos.of_uint d)).
Proof.
  intros Hd. destruct d; [contradiction | ..];
    cbn [NilEmpty.string_of_uint Pos.of_uint];
    erewrite readDigits_step by (vm_compute; reflexivity); cbn [orDefault];
    [apply readDigits_zero | apply readDigits_positive ..].
Qed.

Lemma digits_not_white (c : ascii) (s : string) :
  JS.digitOf c <> None \/ c = "-"%char -> ~ StartsWhite (String c s).
Proof.
  intros Hc (w & r & Hw & E).
  each_white Hw; subst w; cbn in E; injection E as -> _;
    destruct Hc as [Hc|Hc]; try discriminate; apply Hc; reflexivity.
Qed.

Lemma parseInt_unsigned (c : ascii) (k : Z) (s : string) :
  JS.digitOf c = Some k ->
  JS.parseInt (String c s) =
  match JS.readDigits None (String c s) with
  | None => JS.NaN
  | Some n => JS.double (1 * n)
  end.
Proof.
  intros Hc. unfold JS.parseInt.
  rewrite trimStart_stop by (apply digits_not_white; left; congruence).
  destruct c as [[] [] [] [] [] [] [] []]; try reflexivity; discriminate.
Qed.

Lemma parseInt_negative (s : string) :
  JS.parseInt (String "-" s) =
  match JS.readDigits None s with
  | None => JS.NaN
  | Some n => JS.double (-1 * n)
  end.
Proof.
  unfold JS.parseInt.
  rewrite trimStart_stop by (apply digits_not_white; right; reflexivity).
  reflexivity.
Qed.

Lemma parseInt_digits (d : Decimal.uint) :
  d <> Decimal.Nil ->
  JS.parseInt (NilEmpty.string_of_uint d) = JS.double (Z.of_N (Pos.of_uint d)) /\
  JS.parseInt (String "-" (NilEmpty.string_of_uint d)) =
  JS.double (- Z.of_N (Pos.of_uint d)).
Proof.
  intros Hd. pose proof (readDigits_start d Hd) as Hstart. split.
  - destruct d; [contradiction | ..];
      cbn [NilEmpty.string_of_uint] in *;
      (erewrite parseInt_unsigned by (vm_compute; reflexivity));
      rewrite Hstart; f_equal; try lia.
  - rewrite parseInt_negative, Hstart. f_equal; try lia.
Qed.

(** Reading back the digits of an integer gives the integer, rounded. *)
Lemma parseInt_written (z : Z) : JS.parseInt (JSNumber.digits z) = JS.double z.
Proof.
  unfold JSNumber.digits.
  destruct z as [|p|p]; [reflexivity | ..]; cbn [Z.to_int].
  - unfold NilZero.string_of_int, NilZero.string_of_uint.
    pose proof (DecimalPos.Unsigned.to_uint_nonnil p) as Hn.
    destruct (parseInt_digits (Pos.to_uint p) Hn) as [H _].
    rewrite DecimalPos.Unsigned.of_to in H.
    destruct (Pos.to_uint p); [contradiction | exact H ..].
  - unfold NilZero.string_of_int, NilZero.string_of_uint.
    pose proof (DecimalPos.Unsigned.to_uint_nonnil p) as Hn.
    destruct (parseInt_digits (Pos.to_uint p) Hn) as [_ H].
    rewrite DecimalPos.Unsigned.of_to in H.
    destruct (Pos.to_uint p); [contradiction | exact H ..].
Qed.

Lemma toString_safe (z : Z) :
  (Z.abs z <= JS.MAX_SAFE_INTEGER)%Z ->
  JSNumber.toString (JS.Int z) = JSNumber.digits z.
Proof.
  intros H. unfold JSNumber.toString. rewrite (written_safe z H).
  unfold JS.MAX_SAFE_INTEGER in H.
  assert ((Z.abs z <? 1000000000000000000000)%Z = true) as ->; [|reflexivity].
  apply Z.ltb_lt. lia.
Qed.

(** Reading back what [String] prints for a safe integer gives it. *)
Lemma parseInt_toString (z : Z) :
  (Z.abs z <= JS.MAX_SAFE_INTEGER)%Z ->
  JS.parseInt (JSNumber.toString (JS.Int z)) = JS.Int z.
Proof.
  intros H. rewrite (toString_safe z H), parseInt_written. apply double_safe, H.
Qed.

(** ** The query string written by the page and read by the route *)

Lemma toString_truthy (z : Z) :
  (Z.abs z <= JS.MAX_SAFE_INTEGER)%Z ->
  JS.truthy (JSNumber.toString (JS.Int z)) = true.
Proof.
  intros Hz. unfold JS.truthy.
  destruct (String.eqb_spec (JSNumber.toString (JS.Int z)) "") as [E|]; [|reflexivity].
  pose proof (parseInt_toString z Hz) as H. rewrite E in H. discriminate.
Qed.

Lemma number_read_back (n : option JS.number) (d : Z) :
  JSNumber.safe (JSNumber.orElse n d) ->
  JS.parseInt (PromptsRoute.orElse (Some (JSNumber.toString (JSNumber.orElse n d))) "50") =
  JSNumber.orElse n d /\
  JS.parseInt (PromptsRoute.orElse (Some (JSNumber.toString (JSNumber.orElse n d))) "0") =
  JSNumber.orElse n d.
Proof.
  intros Hsafe.
  assert (exists z, JSNumber.orElse n d = JS.Int z /\ (Z.abs z <= JS.MAX_SAFE_INTEGER)%Z)
    as (z & E & Hz).
  { destruct (JSNumber.orElse n d) as [|z|] eqn:E; cbn in Hsafe; [| |contradiction].
    - destruct n as [[|z|]|]; cbn in E; try discriminate.
      destruct (z =? 0)%Z; discriminate.
    - exists z. split; [reflexivity | exact Hsafe]. }
  rewrite E. unfold PromptsRoute.orElse. rewrite (toString_truthy z Hz).
  split; apply parseInt_toString, Hz.
Qed.

Lemma split_join (ts : list string) :
  ts <> [] -> Forall (fun t => Store.occurs "," t = false) ts ->
  JS.split "," (String.concat "," ts) = ts.
Proof.
  induction ts as [|t ts IH]; intros Hne Hall; [contradiction|].
  inversion Hall as [|? ? Ht Hts]; subst.
  destruct ts as [|u ts].
  - cbn [String.concat]. apply split_whole, Ht.
  - change (String.concat "," (t :: u :: ts))
      with (t ++ String "," (String.concat "," (u :: ts)))%string.
    rewrite split_app by exact Ht. f_equal. apply IH; [discriminate | exact Hts].
Qed.

Lemma join_not_empty (ts : list string) :
  ts <> [] -> Forall (fun t => t <> "") ts -> String.concat "," ts <> "".
Proof.
  destruct ts as [|t ts]; intros Hne Hall; [contradiction|].
  inversion Hall as [|? ? Ht Hts]; subst.
  destruct ts as [|u ts]; cbn [String.concat]; [exact Ht|].
  destruct t; [contradiction | discriminate].
Qed.

Lemma tags_read_back (ts : list string) :
  ts <> [] -> Forall cleanTag ts ->
  PromptsRoute.parseTags (Some (String.concat "," ts)) = ts.
Proof.
  intros Hne Hall. unfold PromptsRoute.parseTags, PromptsRoute.orNull, JS.truthy.
  assert (String.concat "," ts <> "") as Hj.
  { apply join_not_empty; [exact Hne|].
    eapply Forall_impl; [|exact Hall]. intros t H. apply H. }
  destruct (String.eqb_spec (String.concat "," ts) ""); [contradiction|]. cbn [negb].
  rewrite split_join; [|exact Hne|].
  - clear Hne Hj n. induction Hall as [|t ts (Ht & Htrim & _) Hts IH]; [reflexivity|].
    cbn [map List.filter]. rewrite Htrim.
    destruct (String.eqb_spec t ""); [contradiction|]. cbn [negb]. f_equal. exact IH.
  - eapply Forall_impl; [|exact Hall]. intros t H. apply H.
Qed.

Lemma criteria_read_back (searchParams : SearchParams.t) :
  Forall cleanTag (orDefault [] (SearchParams.tags searchParams)) ->
  JSNumber.safe (JSNumber.orElse (SearchParams.limit searchParams) 50) ->
  JSNumber.safe (JSNumber.orElse (SearchParams.offset searchParams) 0) ->
  PromptsRoute.toParams (PromptsRoute.parseQuery (Page.queryParams searchParams)) =
  criteriaOf searchParams.
Proof.
  intros Hclean Hlimit Hoffset. destruct searchParams as [query category tags limit offset].
  unfold Page.queryParams, PromptsRoute.parseQuery, PromptsRoute.toParams, criteriaOf.
  cbn [SearchParams.query SearchParams.category SearchParams.tags SearchParams.limit
       SearchParams.offset PromptsRoute.query PromptsRoute.category PromptsRoute.tags
       PromptsRoute.limit PromptsRoute.offset] in *.
  cbn [app PromptsRoute.get].
  change ("query" =? "query") with true. change ("query" =? "category") with false.
  change ("category" =? "category") with true.
  change ("query" =? "limit") with false. change ("category" =? "limit") with false.
  change ("limit" =? "limit") with true.
  change ("query" =? "offset") with false. change ("category" =? "offset") with false.
  change ("limit" =? "offset") with false. change ("offset" =? "offset") with true.
  change ("query" =? "tags") with false. change ("category" =? "tags") with false.
  change ("limit" =? "tags") with false. change ("offset" =? "tags") with false.
  cbv iota.
  rewrite (proj1 (number_read_back limit 50 Hlimit)),
    (proj2 (number_read_back offset 0 Hoffset)).
  assert (Hq : PromptsRoute.orElse (Some (PromptsRoute.orElse query "")) "" =
               PromptsRoute.orElse query "").
  { unfold PromptsRoute.orElse. destruct query as [q|]; [|reflexivity].
    destruct (JS.truthy q) eqn:E; [rewrite E|]; reflexivity. }
  assert (Hc : PromptsRoute.orNull (Some (PromptsRoute.orElse category "")) =
               PromptsRoute.orNull category).
  { unfold PromptsRoute.orElse, PromptsRoute.orNull. destruct category as [c|]; [|reflexivity].
    destruct (JS.truthy c) eqn:E; [rewrite E|]; reflexivity. }
  rewrite Hq, Hc. f_equal. f_equal.
  destruct (orDefault [] tags) as [|t ts] eqn:Et; [reflexivity|].
  cbn [List.length Nat.ltb Nat.leb PromptsRoute.get].
  change ("tags" =? "tags") with true. cbv iota.
  apply tags_read_back; [discriminate | exact Hclean].
Qed.

(** X9: the query string the page writes is read back by the route as the
    criteria it was written from: the query and the category as typed (an
    empty category as absent), every tag of a list of tags that are not
    empty, have no white space at either end and no comma, and the limit and
    offset (integers a double holds exactly), 50 and 0 standing for a
    missing, zero or NaN limit and offset. *)
Theorem query_string_round_trip (searchParams : SearchParams.t) :
  Forall (fun t => t <> "" /\ ~ StartsWhite t /\ ~ EndsWhite t /\
                   Store.occurs "," t = false)
         (orDefault [] (SearchParams.tags searchParams)) ->
  JSNumber.safe (JSNumber.orElse (SearchParams.limit searchParams) 50) ->
  JSNumber.safe (JSNumber.orElse (SearchParams.offset searchParams) 0) ->
  PromptsRoute.toParams (PromptsRoute.parseQuery (Page.queryParams searchParams)) =
  criteriaOf searchParams.
Proof.
  intros Htags. apply criteria_read_back.
  eapply Forall_impl; [|exact Htags]. intros t (Hne & Hstart & Hend & Hcomma).
  split; [exact Hne|]. split; [apply trim_fixed; split; assumption | exact Hcomma].
Qed.

Lemma query_string_round_trip_witness :
  Forall (fun t => t <> "" /\ ~ StartsWhite t /\ ~ EndsWhite t /\
                   Store.occurs "," t = false)
         ["email"; "business"] /\
  PromptsRoute.toParams
    (PromptsRoute.parseQuery
       (Page.queryParams
          (SearchParams.mk (Some "hello") (Some "") (Some ["email"; "business"])
                           (Some (JS.Int 10)) None))) =
  SearchParams.mk (Some "hello") None (Some ["email"; "business"])
                  (Some (JS.Int 10)) (Some (JS.Int 0)).
Proof.
  assert (H : Forall (fun t => t <> "" /\ ~ StartsWhite t /\ ~ EndsWhite t /\
                               Store.occurs "," t = false)
                     ["email"; "business"]).
  { constructor; [|constructor; [|constructor]].
    - split; [discriminate|].
      destruct (proj1 (trim_fixed "email") eq_refl) as [Hstart Hend].
      split; [exact Hstart|]. split; [exact Hend | reflexivity].
    - split; [discriminate|].
      destruct (proj1 (trim_fixed "business") eq_refl) as [Hstart Hend].
      split; [exact Hstart|]. split; [exact Hend | reflexivity]. }
  split; [exact H|].
  refine (query_string_round_trip
            (SearchParams.mk (Some "hello") (Some "") (Some ["email"; "business"])
                             (Some (JS.Int 10)) None) H _ _).
  - cbn. intros E. discriminate E.
  - cbn. intros E. discriminate E.
Defined.

(** ** A search from the page *)

Section PageFacts.
Variable toString : list (string * string) -> string.

Lemma after_search (ps : list Prompt.t) (s : Page.state) :
  Page.after [Page.SetLoading true; Page.SetPrompts ps; Page.SetLoading false] s =
  Page.mk ps false (Page.stats s).
Proof. reflexivity. Qed.

(** The page after a search served by the route. *)
Lemma search_state
      (supabase : Client) (URL : string -> outcome (list (string * string)))
      (searchParams : SearchParams.t) (s : Page.state) :
  URL ("/api/prompts?" ++ toString (Page.queryParams searchParams))%string =
  Returned (Page.queryParams searchParams) ->
  Forall cleanTag (orDefault [] (SearchParams.tags searchParams)) ->
  JSNumber.safe (JSNumber.orElse (SearchParams.limit searchParams) 50) ->
  JSNumber.safe (JSNumber.orElse (SearchParams.offset searchParams) 0) ->
  Page.after (value (Page.handleSearch toString (Site.prompts supabase URL) searchParams)) s
  = Page.mk (value (Queries.searchPrompts supabase (criteriaOf searchParams)))
            false (Page.stats s).
Proof.
  intros Hurl Hclean Hlimit Hoffset.
  unfold Page.handleSearch, Page.fetchPrompts, Site.prompts.
  cbn [value ret fst]. rewrite after_search. f_equal.
  unfold App.prompts, PromptsRoute.GET. rewrite Hurl.
  rewrite (criteria_read_back searchParams Hclean Hlimit Hoffset).
  destruct (Queries.searchPrompts supabase (criteriaOf searchParams)); reflexivity.
Qed.

Lemma failing_search_empty (supabase : Client) (p : SearchParams.t) :
  failing (awaitRows supabase (Queries.searchQuery p)) ->
  value (Queries.searchPrompts supabase p) = [].
Proof.
  unfold Queries.searchPrompts, failing.
  destruct (awaitRows supabase (Queries.searchQuery p)) as [r|err]; [|reflexivity].
  destruct (error r); [reflexivity | congruence].
Qed.

(** X10: a search started from the page always ends with the loading flag
    down and the statistics untouched.  Served by the route over any client
    (the URL being read back as written), the prompts shown are those
    [searchPrompts] returns for the criteria asked; when the store's round
    trip fails, and also when the fetch itself throws, the page shows no
    prompt, as it does for a search that matches nothing. *)
Theorem page_search
        (supabase : Client) (URL : string -> outcome (list (string * string)))
        (searchParams : SearchParams.t) (s : Page.state) :
  URL ("/api/prompts?" ++ toString (Page.queryParams searchParams))%string =
  Returned (Page.queryParams searchParams) ->
  Forall cleanTag (orDefault [] (SearchParams.tags searchParams)) ->
  JSNumber.safe (JSNumber.orElse (SearchParams.limit searchParams) 50) ->
  JSNumber.safe (JSNumber.orElse (SearchParams.offset searchParams) 0) ->
  Page.after (value (Page.handleSearch toString (Site.prompts supabase URL) searchParams)) s
  = Page.mk (value (Queries.searchPrompts supabase (criteriaOf searchParams)))
            false (Page.stats s) /\
  (failing (awaitRows supabase (Queries.searchQuery (criteriaOf searchParams))) ->
   Page.after (value (Page.handleSearch toString (Site.prompts supabase URL) searchParams)) s
   = Page.mk [] false (Page.stats s)) /\
  (forall offline : string -> outcome PromptsRoute.NextResponse,
      (forall url, exists err, offline url = Thrown err) ->
      Page.after (value (Page.handleSearch toString offline searchParams)) s
      = Page.mk [] false (Page.stats s) /\
      logged (Page.handleSearch toString offline searchParams) <> []).
Proof.
  intros Hurl Hclean Hl Ho.
  pose proof (search_state supabase URL searchParams s Hurl Hclean Hl Ho) as Hshown.
  split; [exact Hshown|]. split.
  - intros Hfail. rewrite Hshown, (failing_search_empty _ _ Hfail). reflexivity.
  - intros offline Hoff. unfold Page.handleSearch, Page.fetchPrompts.
    destruct (Hoff ("/api/prompts?" ++ toString (Page.queryParams searchParams))%string)
      as [err ->].
    split; [reflexivity | discriminate].
Qed.

(** X11: clearing the search bar empties both fields and starts a search
    with no criteria: over the store the page then shows the 50 most recent
    records of the whole table. *)
Theorem clear_shows_latest
        (fts : string -> option (string -> bool)) (table : list Row.t)
        (URL : string -> outcome (list (string * string)))
        (bar : SearchBar.state) (s : Page.state) :
  URL ("/api/prompts?" ++
       toString [("query", ""); ("category", ""); ("limit", "50"); ("offset", "0")])%string =
  Returned [("query", ""); ("category", ""); ("limit", "50"); ("offset", "0")] ->
  Page.onEvent toString (Site.prompts (Store.client fts table) URL) SearchBar.Clear bar s =
  (SearchBar.initial,
   Page.mk (map Store.whole (firstn 50 (newestRows table))) false (Page.stats s)).
Proof.
  intros Hurl. unfold Page.onEvent. cbn [SearchBar.handle].
  unfold SearchBar.initial. f_equal.
  unfold Page.handleSearch, Page.fetchPrompts, Site.prompts.
  cbn [value ret fst]. rewrite after_search. f_equal.
  unfold App.prompts, PromptsRoute.GET.
  change (Page.queryParams (SearchParams.mk (Some "") (Some "") None None None))
    with [("query", ""); ("category", ""); ("limit", "50"); ("offset", "0")].
  rewrite Hurl.
  change (PromptsRoute.toParams
            (PromptsRoute.parseQuery
               [("query", ""); ("category", ""); ("limit", "50"); ("offset", "0")]))
    with (SearchParams.mk (Some "") None (Some []) (Some (JS.Int 50)) (Some (JS.Int 0))).
  rewrite search_window by (unfold validWindow, JS.MAX_SAFE_INTEGER; lia).
  rewrite selected_unfiltered by reflexivity. reflexivity.
Qed.

(** X12: on mount, served by the routes over the store, the page ends up
    showing the 50 most recent records, not loading, with the number of
    records as total; over a client whose round trips all fail it ends up
    exactly as over an empty table: no prompt and three zeros. *)
Theorem page_mount
        (URL : string -> outcome (list (string * string))) :
  URL ("/api/prompts?" ++
       toString [("query", ""); ("category", ""); ("limit", "50"); ("offset", "0")])%string =
  Returned [("query", ""); ("category", ""); ("limit", "50"); ("offset", "0")] ->
  (forall fts table,
      let s := Page.after
                 (value (Page.mount toString (Site.prompts (Store.client fts table) URL)
                                    (Site.stats (Store.client fts table))))
                 Page.initial in
      Page.prompts s = map Store.whole (firstn 50 (newestRows table)) /\
      Page.loading s = false /\
      Page.total (Page.stats s) = List.length table /\
      Page.categories (Page.stats s) =
      List.length (value (Queries.getCategories (Store.client fts table))) /\
      Page.tags (Page.stats s) =
      List.length (value (Queries.getTags (Store.client fts table)))) /\
  (forall supabase : Client,
      (forall q, failing (awaitRows supabase q)) ->
      failing (awaitCount supabase Queries.countQuery) ->
      Page.after (value (Page.mount toString (Site.prompts supabase URL)
                                    (Site.stats supabase)))
                 Page.initial = Page.initial) /\
  (forall fts,
      Page.after
        (value (Page.mount toString (Site.prompts (Store.client fts []) URL)
                           (Site.stats (Store.client fts []))))
        Page.initial = Page.initial).
Proof.
  intros Hurl.
  assert (Hmount : forall supabase : Client,
             Page.after (value (Page.mount toString (Site.prompts supabase URL)
                                           (Site.stats supabase)))
                        Page.initial =
             Page.mk (value (Queries.searchPrompts supabase
                               (SearchParams.mk (Some "") None (Some [])
                                                (Some (JS.Int 50)) (Some (JS.Int 0)))))
                     false
                     (Page.mkStats (value (Queries.getPromptCount supabase))
                                   (List.length (value (Queries.getCategories supabase)))
                                   (List.length (value (Queries.getTags supabase))))).
  { intros supabase.
    unfold Page.mount, Page.fetchPrompts, Page.fetchStats, Site.prompts, Site.stats.
    cbn [value ret bind fst]. unfold App.prompts, PromptsRoute.GET.
    change (Page.queryParams SearchParams.empty)
      with [("query", ""); ("category", ""); ("limit", "50"); ("offset", "0")].
    rewrite Hurl.
    change (PromptsRoute.toParams
              (PromptsRoute.parseQuery
                 [("query", ""); ("category", ""); ("limit", "50"); ("offset", "0")]))
      with (SearchParams.mk (Some "") None (Some []) (Some (JS.Int 50)) (Some (JS.Int 0))).
    unfold App.stats, StatsRoute.GET, StatsRoute.settle.
    destruct (Queries.searchPrompts supabase
                (SearchParams.mk (Some "") None (Some []) (Some (JS.Int 50))
                                 (Some (JS.Int 0)))) as [ps l0].
    destruct (Queries.getPromptCount supabase) as [total l1].
    destruct (Queries.getCategories supabase) as [cl l2].
    destruct (Queries.getTags supabase) as [tl l3].
    reflexivity. }
  split; [|split].
  - intros fts table s. unfold s. rewrite Hmount. cbn [Page.prompts Page.loading
      Page.stats Page.total Page.categories Page.tags].
    rewrite search_window by (unfold validWindow, JS.MAX_SAFE_INTEGER; lia).
  rewrite selected_unfiltered by reflexivity.
    rewrite count_all. repeat split.
  - intros supabase Hrows Hcount. rewrite Hmount. unfold Page.initial.
    assert (value (Queries.searchPrompts supabase
                     (SearchParams.mk (Some "") None (Some []) (Some (JS.Int 50))
                                      (Some (JS.Int 0)))) = []) as ->.
    { unfold Queries.searchPrompts.
      specialize (Hrows (Queries.searchQuery
                           (SearchParams.mk (Some "") None (Some []) (Some (JS.Int 50))
                                            (Some (JS.Int 0))))).
      unfold failing in Hrows.
      destruct (awaitRows supabase _) as [r|err]; [|reflexivity].
      destruct (error r); [reflexivity | congruence]. }
    assert (value (Queries.getPromptCount supabase) = 0%nat) as ->.
    { unfold Queries.getPromptCount. unfold failing in Hcount.
      destruct (awaitCount supabase Queries.countQuery) as [r|err]; [|reflexivity].
      destruct (error r); [reflexivity | congruence]. }
    assert (value (Queries.getCategories supabase) = []) as ->.
    { unfold Queries.getCategories. specialize (Hrows Queries.categoriesQuery).
      unfold failing in Hrows.
      destruct (awaitRows supabase Queries.categoriesQuery) as [r|err]; [|reflexivity].
      destruct (error r); [reflexivity | congruence]. }
    assert (value (Queries.getTags supabase) = []) as ->.
    { unfold Queries.getTags. specialize (Hrows Queries.tagsQuery).
      unfold failing in Hrows.
      destruct (awaitRows supabase Queries.tagsQuery) as [r|err]; [|reflexivity].
      destruct (error r); [reflexivity | congruence]. }
    reflexivity.
  - intros fts. rewrite Hmount. reflexivity.
Qed.
End PageFacts.

Lemma page_search_witness :
  Browser.URL ("/api/prompts?" ++
               Browser.toString
                 (Page.queryParams (SearchParams.mk (Some "email") (Some "") None None None)))
  = Returned (Page.queryParams (SearchParams.mk (Some "email") (Some "") None None None)) /\
  Page.after
    (value (Page.handleSearch Browser.toString (Site.prompts Sample.supabase Browser.URL)
                              (SearchParams.mk (Some "email") (Some "") None None None)))
    Page.initial =
  Page.mk (value (Queries.searchPrompts Sample.supabase
                    (criteriaOf (SearchParams.mk (Some "email") (Some "") None None None))))
          false (Page.stats Page.initial).
Proof.
  split; [reflexivity|].
  refine (proj1 (page_search Browser.toString Sample.supabase Browser.URL
                   (SearchParams.mk (Some "email") (Some "") None None None)
                   Page.initial eq_refl (Forall_nil _) _ _)).
  - cbn. intros E. discriminate E.
  - cbn. intros E. discriminate E.
Defined.

Lemma clear_shows_latest_witness :
  Browser.URL ("/api/prompts?" ++
               Browser.toString
                 [("query", ""); ("category", ""); ("limit", "50"); ("offset", "0")])
  = Returned [("query", ""); ("category", ""); ("limit", "50"); ("offset", "0")] /\
  Page.onEvent Browser.toString
    (Site.prompts (Store.client Sample.wordFts Sample.table) Browser.URL)
    SearchBar.Clear (SearchBar.mk "email" "Writing") Page.initial =
  (SearchBar.initial,
   Page.mk (map Store.whole (firstn 50 (newestRows Sample.table))) false
           (Page.stats Page.initial)).
Proof.
  split; [reflexivity|].
  exact (clear_shows_latest Browser.toString Sample.wordFts Sample.table Browser.URL
           (SearchBar.mk "email" "Writing") Page.initial eq_refl).
Defined.

Lemma page_mount_witness :
  Browser.URL ("/api/prompts?" ++
               Browser.toString
                 [("query", ""); ("category", ""); ("limit", "50"); ("offset", "0")])
  = Returned [("query", ""); ("category", ""); ("limit", "50"); ("offset", "0")] /\
  (forall q, failing (awaitRows Sample.offline q)) /\
  failing (awaitCount Sample.offline Queries.countQuery) /\
  Page.after (value (Page.mount Browser.toString (Site.prompts Sample.offline Browser.URL)
                                (Site.stats Sample.offline)))
             Page.initial = Page.initial.
Proof.
  split; [reflexivity|]. split; [intros q; exact I|]. split; [exact I|].
  exact (proj1 (proj2 (page_mount Browser.toString Browser.URL eq_refl))
           Sample.offline (fun _ => I) I).
Defined.

(** ** What the list shows after a search *)

Section ListFacts.
Variable toString : list (string * string) -> string.
Variable toLocaleDateString : Z -> string.

(** X13: after a search from the page, served by the route over any client,
    the list never shows the loading notice; it shows "No prompts found"
    when [searchPrompts] returned nothing, which is the case whenever the
    store's round trip fails, and otherwise a heading that counts the
    prompts followed by one card per prompt returned, in the order
    returned. *)
Theorem list_after_search
        (supabase : Client) (URL : string -> outcome (list (string * string)))
        (searchParams : SearchParams.t) (s : Page.state) :
  URL ("/api/prompts?" ++ toString (Page.queryParams searchParams))%string =
  Returned (Page.queryParams searchParams) ->
  Forall cleanTag (orDefault [] (SearchParams.tags searchParams)) ->
  JSNumber.safe (JSNumber.orElse (SearchParams.limit searchParams) 50) ->
  JSNumber.safe (JSNumber.orElse (SearchParams.offset searchParams) 0) ->
  let found := value (Queries.searchPrompts supabase (criteriaOf searchParams)) in
  let shown :=
    Components.ofPage toLocaleDateString
      (Page.after
         (value (Page.handleSearch toString (Site.prompts supabase URL) searchParams)) s) in
  shown <> Components.loadingNotice /\
  (found = [] -> shown = Components.emptyNotice) /\
  (failing (awaitRows supabase (Queries.searchQuery (criteriaOf searchParams))) ->
   shown = Components.emptyNotice) /\
  (found <> [] ->
   exists heading,
     shown = Components.Element "div" (heading :: map (Components.card toLocaleDateString) found) /\
     Components.textContent heading =
     ("Found " ++ JSNumber.ofNat (List.length found) ++ " prompt" ++
      (if (List.length found =? 1)%nat then "" else "s"))%string).
Proof.
  intros Hurl Hclean Hl Ho found shown.
  pose proof (search_state toString supabase URL searchParams s Hurl Hclean Hl Ho)
    as Hshown.
  assert (Hview : shown = Components.PromptList toLocaleDateString (Some found) false).
  { unfold shown, Components.ofPage. rewrite Hshown. reflexivity. }
  split; [|split; [|split]].
  - rewrite Hview. unfold Components.PromptList. destruct found; discriminate.
  - intros E. rewrite Hview, E. reflexivity.
  - intros Hf. rewrite Hview. unfold found.
    rewrite (failing_search_empty _ _ Hf). reflexivity.
  - intros Hne. rewrite Hview. unfold Components.PromptList.
    destruct found as [|x rest] eqn:E; [contradiction|]. rewrite <- E.
    eexists. split; [reflexivity|].
    destruct (List.length found =? 1)%nat; cbn; rewrite ?append_nil_r; reflexivity.
Qed.
End ListFacts.

Lemma list_after_search_witness :
  Browser.URL ("/api/prompts?" ++
               Browser.toString
                 (Page.queryParams (SearchParams.mk (Some "email") (Some "") None None None)))
  = Returned (Page.queryParams (SearchParams.mk (Some "email") (Some "") None None None)) /\
  Components.ofPage (fun _ => "6/15/2024")
    (Page.after
       (value (Page.handleSearch Browser.toString (Site.prompts Sample.offline Browser.URL)
                                 (SearchParams.mk (Some "email") (Some "") None None None)))
       Page.initial) = Components.emptyNotice.
Proof.
  split; [reflexivity|].
  refine (proj1 (proj2 (proj2
            (list_after_search Browser.toString (fun _ => "6/15/2024") Sample.offline
               Browser.URL (SearchParams.mk (Some "email") (Some "") None None None)
               Page.initial eq_refl (Forall_nil _) _ _))) I).
  - cbn. intros E. discriminate E.
  - cbn. intros E. discriminate E.
Defined.

(** ** The connection test *)

(** X14: [testConnection] answers true exactly when the round trip returns
    without an error, false when it reports one or throws, writing one
    console line either way; over the store it answers true whatever the
    table holds, the empty table included. *)
Theorem connection_test :
  (forall supabase : Client,
      fst (Db.testConnection supabase) = true <->
      exists r, awaitRows supabase Db.connectionQuery = Returned r /\ error r = None) /\
  (forall supabase : Client,
      failing (awaitRows supabase Db.connectionQuery) ->
      fst (Db.testConnection supabase) = false) /\
  (forall supabase : Client, List.length (snd (Db.testConnection supabase)) = 1%nat) /\
  (forall fts table,
      Db.testConnection (Store.client fts table) =
      (true, [Db.Log "Database connection successful"])).
Proof.
  split; [|split; [|split]].
  - intros supabase. unfold Db.testConnection.
    destruct (awaitRows supabase Db.connectionQuery) as [r|err].
    + destruct (error r) eqn:E; cbn [fst].
      * split; [discriminate|]. intros (r' & [= <-] & H). congruence.
      * split; [|reflexivity]. intros _. exists r. auto.
    + split; [discriminate|]. intros (r & H & _). discriminate.
  - intros supabase. unfold Db.testConnection, failing.
    destruct (awaitRows supabase Db.connectionQuery) as [r|err]; [|reflexivity].
    destruct (error r); [reflexivity | congruence].
  - intros supabase. unfold Db.testConnection.
    destruct (awaitRows supabase Db.connectionQuery) as [r|err]; [|reflexivity].
    destruct (error r); reflexivity.
  - intros fts table. unfold Db.testConnection, Store.client. cbn [awaitRows].
    unfold Store.rows. rewrite selected_unfiltered by reflexivity. reflexivity.
Qed.

Lemma connection_test_witness :
  failing (awaitRows Sample.offline Db.connectionQuery) /\
  fst (Db.testConnection Sample.offline) = false.
Proof.
  split; [exact I|].
  exact (proj1 (proj2 connection_test) Sample.offline I).
Defined.

(** ** No record twice *)

Lemma NoDup_map_window {A B : Type} (f : A -> B) (n m : nat) (l : list A) :
  NoDup (map f l) -> NoDup (map f (firstn n (skipn m l))).
Proof.
  intros H.
  rewrite <- (firstn_skipn m l), map_app in H. apply NoDup_app_remove_l in H.
  rewrite <- (firstn_skipn n (skipn m l)), map_app in H.
  apply NoDup_app_remove_r in H. exact H.
Qed.

Lemma NoDup_app_disjoint {A : Type} (l1 l2 : list A) (x : A) :
  NoDup (l1 ++ l2) -> In x l1 -> In x l2 -> False.
Proof.
  induction l1 as [|y l1 IH]; simpl; intros H H1 H2; [contradiction|].
  inversion H as [|? ? Hy Hrest]; subst.
  destruct H1 as [->|H1].
  - apply Hy, in_or_app. right. exact H2.
  - exact (IH Hrest H1 H2).
Qed.

Section NoDuplicates.
Variable fts : string -> option (string -> bool).
Variable table : list Row.t.
Hypothesis unique_ids : NoDup (map Row.id table).

Lemma result_ids (p : SearchParams.t) :
  exists rows,
    value (Queries.searchPrompts (Store.client fts table) p) = map Store.whole rows /\
    NoDup (map Row.id rows).
Proof.
  rewrite searchPrompts_on_store.
  destruct (Store.selected fts table (Queries.searchQuery p)) as [found|] eqn:Hsel;
    [|exists []; split; [reflexivity | constructor]].
  assert (Hfound : NoDup (map Row.id (newestRows found))).
  { eapply Permutation_NoDup.
    - apply Permutation_map, Permutation_sym, sortBy_perm.
    - unfold Store.selected in Hsel.
      destruct (r_from (Queries.searchQuery p) =? "prompts"); [|discriminate].
      destruct (Store.where_ fts (r_filters (Queries.searchQuery p))) as [P|];
        [|discriminate].
      injection Hsel as <-. apply NoDup_map_filter, unique_ids. }
  destruct (Store.page (Some (windowOf p)) (newestRows found)) as [rows|] eqn:Hpage;
    [|exists []; split; [reflexivity | constructor]].
  exists rows. split; [reflexivity|].
  unfold Store.page in Hpage. destruct (windowOf p) as [lo hi].
  destruct lo as [|offset|]; try discriminate.
  destruct (JS.add (JS.sub hi (JS.Int offset)) (JS.Int 1)) as [|limit|];
    try discriminate.
  cbv zeta in Hpage.
  destruct ((JS.written offset <? 0) || (JS.written limit <? 0)
            || (Store.bigint <? JS.written offset)
            || (Store.bigint <? JS.written limit))%Z; [discriminate|].
  injection Hpage as <-. apply NoDup_map_window, Hfound.
Qed.

(** X15: over a table whose ids are unique, a search returns no record
    twice; when moreover no two records were created at the same time, two
    consecutive pages of the same search have no record in common, whatever
    the order in which the store comes upon the records while it answers
    each request (sizes and offset not negative, their sum a safe
    integer). *)
Theorem results_without_duplicates :
  (forall p, NoDup (map Prompt.id (value (Queries.searchPrompts (Store.client fts table) p)))) /\
  (forall query category tags a b o first second x y,
      distinctTimes table ->
      Permutation first table -> Permutation second table ->
      (0 <= a)%Z -> (0 <= b)%Z -> (0 <= o)%Z -> (o + a + b <= JS.MAX_SAFE_INTEGER)%Z ->
      In x (value (Queries.searchPrompts (Store.client fts first)
                     (SearchParams.mk query category tags (Some (JS.Int a))
                                      (Some (JS.Int o))))) ->
      In y (value (Queries.searchPrompts (Store.client fts second)
                     (SearchParams.mk query category tags (Some (JS.Int b))
                                      (Some (JS.Int (o + a)))))) ->
      Prompt.id x <> Prompt.id y).
Proof.
  assert (Hids : forall p,
             NoDup (map Prompt.id
                        (value (Queries.searchPrompts (Store.client fts table) p)))).
  { intros p. destruct (result_ids p) as (rows & -> & Hnd).
    rewrite map_map. cbn [Store.whole Prompt.id].
    rewrite <- (map_map Row.id Some).
    generalize (map Row.id rows), Hnd. clear.
    induction 1 as [|i l Hi Hl IH]; simpl; constructor; [|exact IH].
    intros Hin. apply in_map_iff in Hin. destruct Hin as (j & [= ->] & Hj).
    contradiction. }
  split; [exact Hids|].
  intros query category tags a b o first second x y Hd Hfirst Hsecond
         Ha Hb Ho Hsum Hx Hy E.
  rewrite (search_scan fts table first _ Hd Hfirst) in Hx.
  rewrite (search_scan fts table second _ Hd Hsecond) in Hy.
  pose proof (Hids (SearchParams.mk query category tags (Some (JS.Int (a + b)))
                                    (Some (JS.Int o)))) as Hnd.
  rewrite <- (window_tiling fts table query category tags a b o Ha Hb Ho Hsum), map_app
    in Hnd.
  apply (NoDup_app_disjoint _ _ (Prompt.id x) Hnd).
  - apply in_map, Hx.
  - rewrite E. apply in_map, Hy.
Qed.
End NoDuplicates.

Lemma results_without_duplicates_witness :
  NoDup (map Row.id Sample.five) /\
  distinctTimes Sample.five /\
  Permutation (rev Sample.five) Sample.five /\
  NoDup (map Prompt.id
             (value (Queries.searchPrompts (Store.client Sample.wordFts Sample.five)
                       SearchParams.empty))) /\
  forall x y,
    In x (value (Queries.searchPrompts (Store.client Sample.wordFts Sample.five)
                   (SearchParams.mk None None None (Some (JS.Int 2)) (Some (JS.Int 0))))) ->
    In y (value (Queries.searchPrompts (Store.client Sample.wordFts (rev Sample.five))
                   (SearchParams.mk None None None (Some (JS.Int 2))
                                    (Some (JS.Int (0 + 2)))))) ->
    Prompt.id x <> Prompt.id y.
Proof.
  assert (H : NoDup (map Row.id Sample.five)).
  { repeat constructor; simpl; intuition discriminate. }
  assert (Hd : distinctTimes Sample.five).
  { unfold distinctTimes. repeat constructor; simpl; intuition discriminate. }
  assert (Hp : Permutation (rev Sample.five) Sample.five)
    by apply Permutation_sym, Permutation_rev.
  split; [exact H|]. split; [exact Hd|]. split; [exact Hp|].
  split.
  - exact (proj1 (results_without_duplicates Sample.wordFts Sample.five H)
             SearchParams.empty).
  - intros x y.
    refine (proj2 (results_without_duplicates Sample.wordFts Sample.five H)
              None None None 2%Z 2%Z 0%Z Sample.five (rev Sample.five) x y
              Hd (Permutation_refl _) Hp _ _ _ _);
      unfold JS.MAX_SAFE_INTEGER; lia.
Defined.

(** ** Criteria are read trimmed *)

(** X16: two criteria sets whose queries and whose categories are the same
    once trimmed (an absent one counting as empty), with the same tags,
    limit and offset, build the same request, so every client answers them
    alike: white space around the text typed never changes what is
    found. *)
Theorem criteria_are_trimmed (p p' : SearchParams.t) :
  activeText p = activeText p' ->
  activeCategory p = activeCategory p' ->
  activeTags p = activeTags p' ->
  windowOf p = windowOf p' ->
  Queries.searchQuery p = Queries.searchQuery p' /\
  forall supabase : Client,
    Queries.searchPrompts supabase p = Queries.searchPrompts supabase p'.
Proof.
  intros Ht Hc Hg Hw.
  assert (H : Queries.searchQuery p = Queries.searchQuery p').
  { rewrite !searchQuery_shape.
    unfold textFilters, categoryFilters, tagFilters. rewrite Ht, Hc, Hg, Hw.
    reflexivity. }
  split; [exact H|].
  intros supabase. unfold Queries.searchPrompts. rewrite H. reflexivity.
Qed.

Lemma criteria_are_trimmed_witness :
  activeText (Sample.ask (Some "  email ") (Some "") None) =
  activeText (Sample.ask (Some "email") None (Some [])) /\
  Queries.searchQuery (Sample.ask (Some "  email ") (Some "") None) =
  Queries.searchQuery (Sample.ask (Some "email") None (Some [])).
Proof.
  split; [reflexivity|].
  exact (proj1 (criteria_are_trimmed (Sample.ask (Some "  email ") (Some "") None)
                  (Sample.ask (Some "email") None (Some []))
                  eq_refl eq_refl eq_refl eq_refl)).
Defined.

(** ** What the search bar can ask for *)

Lemma orElse_typed (q : string) : PromptsRoute.orElse (Some q) "" = q.
Proof.
  unfold PromptsRoute.orElse, JS.truthy.
  destruct (String.eqb_spec q "") as [->|]; reflexivity.
Qed.

(** X17: an event of the search bar that starts a search (Submit or Clear)
    always asks for the text and the category left in the two fields, an
    empty category counting as none, with no tag and for the first 50
    matches; the page then shows what [searchPrompts] returns for these
    criteria, which over the store is never more than 50 prompts. *)
Theorem search_bar_first_page
        (toString : list (string * string) -> string)
        (supabase : Client) (URL : string -> outcome (list (string * string)))
        (e : SearchBar.event) (bar bar' : SearchBar.state)
        (searchParams : SearchParams.t) (s : Page.state) :
  SearchBar.handle e bar = (bar', Some searchParams) ->
  URL ("/api/prompts?" ++ toString (Page.queryParams searchParams))%string =
  Returned (Page.queryParams searchParams) ->
  criteriaOf searchParams =
  SearchParams.mk (Some (SearchBar.query bar'))
                  (PromptsRoute.orNull (Some (SearchBar.category bar')))
                  (Some []) (Some (JS.Int 50)) (Some (JS.Int 0)) /\
  Page.onEvent toString (Site.prompts supabase URL) e bar s =
  (bar', Page.mk (value (Queries.searchPrompts supabase (criteriaOf searchParams)))
                 false (Page.stats s)) /\
  (forall fts table,
      (List.length (value (Queries.searchPrompts (Store.client fts table)
                             (criteriaOf searchParams))) <= 50)%nat).
Proof.
  intros Hhandle Hurl.
  assert (Hcrit : criteriaOf searchParams =
                  SearchParams.mk (Some (SearchBar.query bar'))
                                  (PromptsRoute.orNull (Some (SearchBar.category bar')))
                                  (Some []) (Some (JS.Int 50)) (Some (JS.Int 0))).
  { destruct e; cbn [SearchBar.handle] in Hhandle; try discriminate;
      injection Hhandle as <- <-; unfold criteriaOf;
      cbn [SearchParams.query SearchParams.category SearchParams.tags SearchParams.limit
           SearchParams.offset SearchBar.query SearchBar.category orDefault
           JSNumber.orElse];
      rewrite orElse_typed; reflexivity. }
  assert (Hclean : Forall cleanTag (orDefault [] (SearchParams.tags searchParams))).
  { destruct e; cbn [SearchBar.handle] in Hhandle; try discriminate;
      injection Hhandle as <- <-; constructor. }
  split; [exact Hcrit|]. split.
  - unfold Page.onEvent. rewrite Hhandle. f_equal.
    apply search_state; try assumption;
      destruct e; cbn [SearchBar.handle] in Hhandle; try discriminate;
      injection Hhandle as <- <-; cbn; unfold JS.MAX_SAFE_INTEGER; lia.
  - intros fts table. rewrite Hcrit.
    rewrite search_window by (unfold validWindow, JS.MAX_SAFE_INTEGER; lia).
    destruct (Store.selected fts table _) as [found|]; [|cbn; lia].
    cbn [value fst]. rewrite length_map.
    apply firstn_le_length.
Qed.

Lemma search_bar_first_page_witness :
  SearchBar.handle SearchBar.Submit (SearchBar.mk "email" "") =
  (SearchBar.mk "email" "",
   Some (SearchParams.mk (Some "email") (Some "") None None None)) /\
  Browser.URL ("/api/prompts?" ++
               Browser.toString
                 (Page.queryParams (SearchParams.mk (Some "email") (Some "") None None None)))
  = Returned (Page.queryParams (SearchParams.mk (Some "email") (Some "") None None None)) /\
  criteriaOf (SearchParams.mk (Some "email") (Some "") None None None) =
  SearchParams.mk (Some "email") None (Some []) (Some (JS.Int 50)) (Some (JS.Int 0)).
Proof.
  split; [reflexivity|]. split; [reflexivity|].
  exact (proj1 (search_bar_first_page Browser.toString Sample.supabase Browser.URL
                  SearchBar.Submit (SearchBar.mk "email" "") (SearchBar.mk "email" "")
                  (SearchParams.mk (Some "email") (Some "") None None None)
                  Page.initial eq_refl eq_refl)).
Defined.
